(** * immo-api: ingestion pipeline and statistics engine

    A shallow embedding of the DVF ingestion pipeline (class [DVFScraper],
    services/dvfScraper.js), the scheduler (class [Scheduler],
    services/scheduler.js; both are found in src/routes/auth.js of this
    copy of the repository), the POST /scrape route (routes/admin.js), the
    price-distribution route (routes/stats.js), the geo-radius route
    (routes/search.js) and [calculatePricePerSqm] (utils), with the
    properties the specification states about them; then the other helpers
    of utils/helpers.js (postal codes, [truncate], [retry]), [parsePrice]
    and [getMarketStats] of services/scraper.js, the trends route
    (routes/stats.js) and the API key check (middleware/auth.js), with
    properties read off the code.

    JavaScript numbers are IEEE 754 binary64 values: they are modelled by
    Rocq's primitive floats, whose [+ - * /], [sqrt] and comparisons are the
    JavaScript ones bit for bit. What a run reads from outside (HTTP
    responses, the clock, [Math.random], failures of the store) is an explicit
    input. *)

From Stdlib Require Import ZArith Floats String Ascii List Bool Lia.
From stdpp Require Import gmap strings list.
Import ListNotations.

Set Warnings "-inexact-float".
Local Open Scope Z_scope.

(* ===================================================================== *)
(** * The JavaScript runtime the code relies on *)
(* ===================================================================== *)

Module JS.

Abbreviation number := float.

(** Scalar JSON values, as the fields of a parsed API record hold them.
    [Undefined] is what reading a missing key gives. *)
Inductive value : Type :=
| Undefined
| Null
| Bool (b : bool)
| Num (x : number)
| Str (s : string).

Definition is_nan (x : number) : bool := negb (x =? x)%float.

(** ToBoolean: [undefined], [null], [false], [0], [-0], [NaN] and the empty
    string are falsy. *)
Definition truthy (v : value) : bool :=
  match v with
  | Undefined | Null => false
  | Bool b => b
  | Num x => negb (x =? 0)%float && negb (is_nan x)
  | Str s => negb (String.eqb s "")
  end.

(** ToBoolean on a number (used by [!price] on an already parsed value). *)
Definition truthy_num (x : number) : bool :=
  negb (x =? 0)%float && negb (is_nan x).

(** A text attribute: a JSON string, or absent ([null] or missing key). *)
Definition text := option string.

Definition truthy_text (t : text) : bool :=
  match t with
  | Some s => negb (String.eqb s "")
  | None => false
  end.

(** [t || dflt] on text attributes. *)
Definition text_or (t : text) (dflt : string) : string :=
  match t with
  | Some s => if String.eqb s "" then dflt else s
  | None => dflt
  end.

(** [t || null]. *)
Definition text_or_null (t : text) : text :=
  match t with
  | Some s => if String.eqb s "" then None else Some s
  | None => None
  end.

(** ** Math.floor and Math.round

    Below 2^52 in magnitude, adding and subtracting 2^52 rounds to the
    nearest integer; one comparison then gives the floor. From 2^52 on every
    binary64 value is an integer. *)
Definition two52 : number := 4503599627370496%float.

Definition Math_floor (x : number) : number :=
  if (abs x <? two52)%float then
    let r := if (0 <=? x)%float then ((x + two52) - two52)%float
             else ((x - two52) + two52)%float in
    if (x <? r)%float then (r - 1)%float else r
  else x.

(** Math.round: the nearest integer, a tie going towards +infinity. (Where
    JavaScript gives [-0] this gives [+0]; no comparison tells them apart.) *)
Definition Math_round (x : number) : number :=
  let f := Math_floor x in
  if (0.5 <=? x - f)%float then (f + 1)%float else f.

(** ** parseFloat *)

Definition is_digit (c : ascii) : bool :=
  let n := nat_of_ascii c in (48 <=? n)%nat && (n <=? 57)%nat.

(** White space and line terminators of one byte (tab, LF, VT, FF, CR,
    space). *)
Definition is_space (c : ascii) : bool :=
  let n := nat_of_ascii c in
  ((9 <=? n)%nat && (n <=? 13)%nat) || (n =? 32)%nat.

(** The other white space of ECMAScript, in the UTF-8 bytes of the text:
    U+00A0, U+1680, U+2000 to U+200A, U+2028, U+2029, U+202F, U+205F,
    U+3000 and U+FEFF. Gives the number of bytes, or 0. *)
Definition wide_space (cs : list ascii) : nat :=
  match List.map nat_of_ascii (List.firstn 3 cs) with
  | [194; 160] | 194 :: 160 :: _ => 2
  | [225; 154; 128] => 3
  | [226; 128; c] =>
      if (128 <=? c)%nat && (c <=? 138)%nat then 3
      else if (c =? 168)%nat || (c =? 169)%nat || (c =? 175)%nat then 3
      else 0
  | [226; 129; 159] => 3
  | [227; 128; 128] => 3
  | [239; 187; 191] => 3
  | _ => 0
  end%nat.

Fixpoint skip_spaces_fuel (fuel : nat) (cs : list ascii) : list ascii :=
  match fuel, cs with
  | S fuel', c :: r =>
      if is_space c then skip_spaces_fuel fuel' r
      else
        match wide_space cs with
        | O => cs
        | n => skip_spaces_fuel fuel' (List.skipn n cs)
        end
  | _, _ => cs
  end.

Definition skip_spaces (cs : list ascii) : list ascii :=
  skip_spaces_fuel (List.length cs) cs.

Fixpoint span_digits (cs : list ascii) : list ascii * list ascii :=
  match cs with
  | c :: r =>
      if is_digit c then let '(ds, rest) := span_digits r in (c :: ds, rest)
      else ([], cs)
  | [] => ([], [])
  end.

Definition digits_value (ds : list ascii) : Z :=
  fold_left (fun acc c => 10 * acc + (Z.of_nat (nat_of_ascii c) - 48)) ds 0.

Fixpoint starts_with (p cs : list ascii) : bool :=
  match p, cs with
  | [], _ => true
  | a :: p', c :: cs' => Ascii.eqb a c && starts_with p' cs'
  | _ :: _, [] => false
  end.

(** The binary64 value nearest to [m * 10^e] (ties to even), for [m >= 0].
    A negative power of ten is divided out with a sticky bit below 64
    significant quotient bits, so that the one rounding is the correct one. *)
Definition decimal_to_number (neg : bool) (m e : Z) : number :=
  let sg := fun z : Z => if neg then - z else z in
  (* floor (log10 m) + e, within one unit *)
  let d10 := Z.log2 m * 30103 / 100000 + e in
  if m =? 0 then SF2Prim (S754_zero neg)
  else if 310 <? d10 then SF2Prim (S754_infinity neg)
  else if d10 <? -330 then SF2Prim (S754_zero neg)
  else if 0 <=? e then
    SF2Prim (binary_normalize prec emax (sg (m * 10 ^ e)) 0 false)
  else
    let d := 10 ^ (- e) in
    let k := Z.max 0 (Z.log2 d - Z.log2 m + 64) in
    let n := m * 2 ^ k in
    let sticky := if n mod d =? 0 then 0 else 1 in
    SF2Prim (binary_normalize prec emax (sg (2 * (n / d) + sticky)) (- k - 1) false).

(** StrDecimalLiteral, longest prefix: optional sign, then [Infinity], or
    digits with an optional fraction and an optional exponent. No digit at
    all gives NaN. *)
Definition parseFloat_string (s : string) : number :=
  let cs := skip_spaces (list_ascii_of_string s) in
  let '(neg, cs) :=
    match cs with
    | "-"%char :: r => (true, r)
    | "+"%char :: r => (false, r)
    | _ => (false, cs)
    end in
  if starts_with (list_ascii_of_string "Infinity") cs
  then SF2Prim (S754_infinity neg)
  else
    let '(ip, r1) := span_digits cs in
    let '(fp, r2) :=
      match r1 with
      | "."%char :: r => span_digits r
      | _ => ([], r1)
      end in
    match ip ++ fp with
    | [] => nan
    | ds =>
        let ex :=
          match r2 with
          | c :: r =>
              if Ascii.eqb c "e" || Ascii.eqb c "E" then
                let '(eneg, r') :=
                  match r with
                  | "-"%char :: t => (true, t)
                  | "+"%char :: t => (false, t)
                  | _ => (false, r)
                  end in
                let '(ed, _) := span_digits r' in
                if eneg then - digits_value ed else digits_value ed
              else 0
          | [] => 0
          end in
        decimal_to_number neg (digits_value ds) (ex - Z.of_nat (List.length fp))
    end.

(** parseFloat(v) is parseFloat(ToString(v)). Number::toString round-trips,
    so a number parses to itself; [true], [false], [null] and [undefined]
    print as words that hold no digit. *)
Definition parseFloat (v : value) : number :=
  match v with
  | Num x => x
  | Str s => parseFloat_string s
  | Undefined | Null | Bool _ => nan
  end.

(** Decimal rendering of an integer, as a template literal prints
    [Date.now()]. *)
Definition digit_char (d : Z) : ascii := ascii_of_nat (48 + Z.to_nat d).

Fixpoint decimal_digits (fuel : nat) (n : Z) (acc : list ascii) : list ascii :=
  match fuel with
  | O => acc
  | S fuel' =>
      let acc' := digit_char (n mod 10) :: acc in
      if n <? 10 then acc' else decimal_digits fuel' (n / 10) acc'
  end.

Definition Integer_toString (n : Z) : string :=
  if n <? 0
  then String "-" (string_of_list_ascii (decimal_digits (S (Z.to_nat (Z.log2 (- n)))) (- n) []))
  else string_of_list_ascii (decimal_digits (S (Z.to_nat (Z.log2 n))) n []).

(** An integer count or index as a number. *)
Definition of_nat (n : nat) : number := PrimFloat.of_uint63 (Uint63.of_Z (Z.of_nat n)).

Definition Math_PI : number := 3.141592653589793%float.

(** ** Array.prototype.sort with a comparator

    The sort is stable, and with a consistent comparator every stable
    sort gives the same array; it is modelled by insertion, an element
    going before the first one the comparator places after it
    ([compareFn y x > 0]). *)
Fixpoint sort_insert {A : Type} (compareFn : A -> A -> number) (x : A) (l : list A)
  : list A :=
  match l with
  | [] => [x]
  | y :: t =>
      if (0 <? compareFn y x)%float then x :: y :: t
      else y :: sort_insert compareFn x t
  end.

Definition Array_sort {A : Type} (compareFn : A -> A -> number) (l : list A) : list A :=
  fold_left (fun acc x => sort_insert compareFn x acc) l [].

(** ** Object literals used as lookup tables

    [obj[key]] on an object literal finds its own keys and, failing that,
    the members every object inherits from [Object.prototype]; those are
    functions or objects, hence truthy and not strings. *)
Inductive member : Type :=
| Text (s : string)
| Inherited (name : string).

Definition Object_prototype_members : list string :=
  [ "constructor"; "__defineGetter__"; "__defineSetter__"; "hasOwnProperty";
    "__lookupGetter__"; "__lookupSetter__"; "isPrototypeOf";
    "propertyIsEnumerable"; "toString"; "valueOf"; "__proto__";
    "toLocaleString" ]%string.

Definition is_prototype_member (k : string) : bool :=
  existsb (String.eqb k) Object_prototype_members.

(** [obj[key] || dflt], for a table whose values are strings. An absent key
    is looked up as ["undefined"] or ["null"], which no table here holds. *)
Definition get_or (obj : gmap string string) (key : text) (dflt : string) : member :=
  match key with
  | None => Text dflt
  | Some k =>
      match obj !! k with
      | Some v => if String.eqb v "" then Text dflt else Text v
      | None => if is_prototype_member k then Inherited k else Text dflt
      end
  end.

End JS.


(** Outcome of a call that may throw (a rejected promise, for an async one). *)
Inductive res (A : Type) : Type :=
| Ok (a : A)
| Throw (message : string).
Arguments Ok {A} a.
Arguments Throw {A} message.

(* ===================================================================== *)
(** * services/dvfScraper.js *)
(* ===================================================================== *)

Module DVFScraper.
Import JS.

(** [DEPARTEMENTS]: the departments scraped, in order. *)
Definition DEPARTEMENTS : list string :=
  [ "75"; "92"; "93"; "94"; "69"; "13"; "33"; "31"; "44"; "06" ]%string.

(** [TYPE_LOCAL_MAP]. *)
Definition TYPE_LOCAL_MAP : gmap string string :=
  list_to_map
    [ ("Appartement", "appartement");
      ("Maison", "maison");
      ("Dépendance", "dependance");
      ("Local industriel. commercial ou assimilé", "local_commercial") ]%string.

(** The [regions] table of [getRegionFromDepartement]. *)
Definition regions : gmap string string :=
  list_to_map
    [ ("75", "Île-de-France"); ("92", "Île-de-France");
      ("93", "Île-de-France"); ("94", "Île-de-France");
      ("91", "Île-de-France"); ("77", "Île-de-France");
      ("78", "Île-de-France"); ("95", "Île-de-France");
      ("69", "Auvergne-Rhône-Alpes");
      ("13", "Provence-Alpes-Côte d'Azur"); ("06", "Provence-Alpes-Côte d'Azur");
      ("33", "Nouvelle-Aquitaine");
      ("31", "Occitanie");
      ("44", "Pays de la Loire") ]%string.

(** A raw DVF mutation, as the API's JSON gives it. The attributes the
    code only prints or parses as an integer or a date
    ([nombre_pieces_principales], [date_mutation]) are left out. *)
Record Mutation : Type := {
  id_mutation : text;
  valeur_fonciere : value;
  surface_reelle_bati : value;
  type_local : text;
  commune : text;
  code_postal : text;
  code_departement : text;
  m_latitude : value;
  m_longitude : value
}.

(** The entity [mutationToProperty] builds. [title], [description], [rooms]
    and [publishedAt] (number formatting, parseInt, date parsing) are left
    out; [bedrooms] is always [null]. *)
Record Property : Type := {
  externalId : string;
  source : string;
  price : number;
  pricePerSqm : number;
  surface : number;
  propertyType : member;
  transactionType : string;
  city : text;
  postalCode : text;
  department : text;
  region : member;
  latitude : option number;
  longitude : option number;
  imageUrls : string;
  url : string;
  scrapedAt : Z
}.

(** What one call of [mutationToProperty] reads from its environment:
    [Date.now()], [Math.random().toString(36).substr(2, 9)] and the
    [new Date()] of [scrapedAt]. *)
Record Draw : Type := {
  date_now : Z;
  random_suffix : string;
  new_date : Z
}.

(** [getRegionFromDepartement(dep)]: [regions[dep] || 'France']. *)
Definition getRegionFromDepartement (dep : text) : member :=
  get_or regions dep "France".

(** [mutationToProperty(mutation)]; [None] is the returned [null]. *)
Definition mutationToProperty (d : Draw) (mutation : Mutation) : option Property :=
  if negb (truthy (valeur_fonciere mutation))
     || negb (truthy (surface_reelle_bati mutation))
  then None
  else
    let price := parseFloat (valeur_fonciere mutation) in
    let surface := parseFloat (surface_reelle_bati mutation) in
    if (price <? 10000)%float || (50000000 <? price)%float
       || (surface <? 9)%float || (1000 <? surface)%float
    then None
    else
      let propertyType := get_or TYPE_LOCAL_MAP (type_local mutation) "autre" in
      let pricePerSqm := Math_round (price / surface)%float in
      Some {|
        externalId :=
          ("DVF_" ++ text_or (id_mutation mutation) (Integer_toString (date_now d))
             ++ "_" ++ random_suffix d)%string;
        source := "dvf_gouv";
        price := price;
        pricePerSqm := pricePerSqm;
        surface := surface;
        propertyType := propertyType;
        transactionType := "vente";
        city := text_or_null (commune mutation);
        postalCode := text_or_null (code_postal mutation);
        department := text_or_null (code_departement mutation);
        region := getRegionFromDepartement (code_departement mutation);
        latitude :=
          if truthy (m_latitude mutation)
          then Some (parseFloat (m_latitude mutation)) else None;
        longitude :=
          if truthy (m_longitude mutation)
          then Some (parseFloat (m_longitude mutation)) else None;
        imageUrls := "[]";
        url := "https://app.dvf.etalab.gouv.fr/";
        scrapedAt := new_date d
      |}.

(** ** The HTTP source *)

(** [response.data.resultats] of a completed request. An element of the
    array is a record, or [null] ([None]), the one JSON value whose
    attributes cannot be read. An element that is neither (a number, a
    string, a boolean, an array) has none of the attributes and is the
    record with every attribute absent. *)
Inductive Body : Type :=
| NoResults                                  (* [data] or [data.resultats] is falsy *)
| Results (elements : list (option Mutation))   (* an array *)
| NotAnArray.                                (* any other truthy value *)

Inductive HttpOutcome : Type :=
| NetworkError (message : string) (* [httpClient.get] rejects *)
| Response (body : Body).

(** What [scrapeDepartement] returns: an array, or the non-array
    [resultats] it passes through. *)
Inductive Fetched : Type :=
| Array (elements : list (option Mutation))
| Other.

(** ** The store behind [prisma.property] *)

Record Row : Type := {
  row_id : nat;
  row_data : Property;
  row_updatedAt : option Z
}.

(** The [Property] table, by its unique key [externalId]. *)
Abbreviation Table := (gmap string Row).

(** Everything one run reads from outside. *)
Record Oracle : Type := {
  (** the outcome of the GET for one department and year *)
  http_get : string -> Z -> HttpOutcome;
  (** the environment of the n-th call of [mutationToProperty] *)
  draws : nat -> Draw;
  (** whether the n-th upsert of the batch throws *)
  upsert_throws : nat -> bool;
  (** the [new Date()] of the n-th upsert *)
  upsert_date : nat -> Z
}.

(** [scrapeDepartement(codeDepartement, annee)]: the [try] body, and the
    [catch] that turns any failure into an empty list. *)
Definition scrapeDepartement (o : Oracle) (codeDepartement : string) (annee : Z)
  : Fetched :=
  match http_get o codeDepartement annee with
  | Response NoResults => Array []
  | Response (Results mutations) => Array mutations
  | Response NotAnArray => Other
  | NetworkError _ => Array []
  end.

(** [prisma.property.upsert({ where: { externalId }, update: { ...prop,
    updatedAt }, create: prop })]. *)
Definition upsert (date : Z) (prop : Property) (t : Table) : Table :=
  match t !! externalId prop with
  | Some r =>
      <[ externalId prop :=
           {| row_id := row_id r; row_data := prop; row_updatedAt := Some date |} ]> t
  | None =>
      <[ externalId prop :=
           {| row_id := size t; row_data := prop; row_updatedAt := None |} ]> t
  end.

(** State of the loop of [saveProperties]; [attempted] records the key of
    every upsert issued, in order. *)
Record SaveState : Type := {
  table : Table;
  saved : nat;
  errors : nat;
  attempted : list string
}.

Fixpoint saveLoop (o : Oracle) (n : nat) (properties : list Property) (st : SaveState)
  : SaveState :=
  match properties with
  | [] => st
  | prop :: rest =>
      let st' :=
        if upsert_throws o n
        then {| table := table st; saved := saved st;
                errors := S (errors st);
                attempted := attempted st ++ [externalId prop] |}
        else {| table := upsert (upsert_date o n) prop (table st);
                saved := S (saved st); errors := errors st;
                attempted := attempted st ++ [externalId prop] |} in
      saveLoop o (S n) rest st'
  end.

(** [saveProperties(properties)]. *)
Definition saveProperties (o : Oracle) (properties : list Property) (t : Table)
  : SaveState :=
  saveLoop o 0 properties {| table := t; saved := 0; errors := 0; attempted := [] |}.

(** The elements of an array, when each of them is a record;
    [mutationToProperty(null)] throws at [mutation.valeur_fonciere], and so
    does the [map] that calls it. *)
Fixpoint records (elements : list (option Mutation)) : option (list Mutation) :=
  match elements with
  | [] => Some []
  | None :: _ => None
  | Some m :: rest =>
      match records rest with
      | Some ms => Some (m :: ms)
      | None => None
      end
  end.

(** [mutations.map(m => this.mutationToProperty(m)).filter(p => p !== null)]
    on records, the calls of [mutationToProperty] numbered from [n]. *)
Fixpoint convert (o : Oracle) (n : nat) (mutations : list Mutation) : list Property :=
  match mutations with
  | [] => []
  | m :: rest =>
      match mutationToProperty (draws o n) m with
      | Some p => p :: convert o (S n) rest
      | None => convert o (S n) rest
      end
  end.

(** The inner loop of [scrapeAll], over the departments of one year.
    [n] counts the records converted so far. Nothing catches what the
    [map] throws: the loop, and [scrapeAll], end there. *)
Fixpoint scrapeYear (o : Oracle) (annee : Z) (deps : list string)
    (n : nat) (totalProperties : list Property) : res (nat * list Property) :=
  match deps with
  | [] => Ok (n, totalProperties)
  | dep :: rest =>
      match scrapeDepartement o dep annee with
      | Other => Throw "TypeError: mutations.map is not a function"
      | Array elements =>
          match records elements with
          | None =>
              Throw "TypeError: Cannot read properties of null (reading 'valeur_fonciere')"
          | Some mutations =>
              let properties := convert o n mutations in
              scrapeYear o annee rest (n + List.length mutations)%nat
                (totalProperties ++ properties)
          end
      end
  end.

(** The outer loop, over [annees]. *)
Fixpoint scrapeYears (o : Oracle) (annees : list Z) (n : nat)
    (totalProperties : list Property) : res (nat * list Property) :=
  match annees with
  | [] => Ok (n, totalProperties)
  | annee :: rest =>
      match scrapeYear o annee DEPARTEMENTS n totalProperties with
      | Throw e => Throw e
      | Ok (n', total') => scrapeYears o rest n' total'
      end
  end.

Definition annees : list Z := [2023; 2022].

Record Summary : Type := {
  s_total : nat;
  s_saved : nat;
  s_errors : nat;
  s_scrapedAt : Z
}.

(** [scrapeAll()]: the summary it resolves with (or the error it rejects
    with) and the table it leaves. [finished] is the closing [new Date()]. *)
Definition scrapeAll (o : Oracle) (finished : Z) (t : Table) : res Summary * Table :=
  match scrapeYears o annees 0 [] with
  | Throw e => (Throw e, t)
  | Ok (_, totalProperties) =>
      let result := saveProperties o totalProperties t in
      (Ok {| s_total := List.length totalProperties;
             s_saved := saved result;
             s_errors := errors result;
             s_scrapedAt := finished |},
       table result)
  end.

End DVFScraper.

(* ===================================================================== *)
(** * utils/helpers.js *)
(* ===================================================================== *)

Module Helpers.
Import JS.

(** [calculatePricePerSqm(price, surface)]; [None] is [null]. The test
    [surface === 0] is subsumed by [!surface]. *)
Definition calculatePricePerSqm (price surface : number) : option number :=
  if negb (truthy_num price) || negb (truthy_num surface) || (surface =? 0)%float
  then None
  else Some (Math_round (price / surface)%float).

End Helpers.

(* ===================================================================== *)
(** * services/scheduler.js and the POST /scrape route of routes/admin.js *)
(* ===================================================================== *)

Module Scheduler.
Import DVFScraper.

Record State : Type := {
  jobs : nat;
  isRunning : bool;
  lastRun : option Z;
  lastResult : option Summary
}.

(** The constructor. *)
Definition init : State :=
  {| jobs := 0; isRunning := false; lastRun := None; lastResult := None |}.

(** [getNextRun()], from the current hour (0..23): the hour of the next
    run, and whether it falls on the next day. *)
Definition getNextRun (hours : Z) : bool * Z :=
  let nextHour := ((hours + 1 + 5) / 6) * 6 in
  if 24 <=? nextHour then (true, 0) else (false, nextHour).

Record Status : Type := {
  st_isRunning : bool;
  st_lastRun : option Z;
  st_lastResult : option Summary;
  st_nextRun : bool * Z;
  st_jobs : nat
}.

Definition getStatus (hours : Z) (s : State) : Status :=
  {| st_isRunning := isRunning s;
     st_lastRun := lastRun s;
     st_lastResult := lastResult s;
     st_nextRun := getNextRun hours;
     st_jobs := jobs s |}.

(** [runScraping()] runs in two turns of the event loop. The first goes
    from the call to the [await]: the guard, and the flag set. *)
Inductive Entered : Type :=
| Ignored     (* "Scraping déjà en cours, ignoré."; resolves with [null] *)
| Started.    (* [dvfScraper.scrapeAll()] has been called *)

Definition runScraping_enter (s : State) : State * Entered :=
  if isRunning s then (s, Ignored)
  else ({| jobs := jobs s; isRunning := true;
           lastRun := lastRun s; lastResult := lastResult s |}, Started).

(** The second turn runs when the awaited promise settles: the rest of the
    [try], or the [catch], then the [finally]. [date] is the [new Date()]
    of [lastRun]. *)
Definition runScraping_settle (outcome : res Summary) (date : Z) (s : State)
  : State * option Summary :=
  match outcome with
  | Ok result =>
      ({| jobs := jobs s; isRunning := false;
          lastRun := Some date; lastResult := Some result |}, Some result)
  | Throw _ =>
      ({| jobs := jobs s; isRunning := false;
          lastRun := lastRun s; lastResult := lastResult s |}, None)
  end.

(** One whole call of [runScraping()], no other handler interleaved. *)
Definition runScraping (o : Oracle) (finished date : Z) (s : State) (t : Table)
  : State * Table * option Summary :=
  match runScraping_enter s with
  | (s1, Ignored) => (s1, t, None)
  | (s1, Started) =>
      let '(outcome, t') := scrapeAll o finished t in
      let '(s2, ret) := runScraping_settle outcome date s1 in
      (s2, t', ret)
  end.

(** ** The triggers, interleaved

    Handlers run to completion: between two [await]s nothing else runs. The
    system is the scheduler's fields and the [scrapeAll] calls started and
    not yet settled. *)
Record System : Type := {
  sched : State;
  inflight : nat
}.

Definition boot : System := {| sched := init; inflight := 0 |}.

Inductive Trigger : Type :=
| Timer       (* the cron job fires: [await this.runScraping()] *)
| Manual (hours : Z).   (* POST /scrape, at the given hour of the day *)

Inductive Event : Type :=
| Fire (tr : Trigger)
| Settle (outcome : res Summary) (date : Z).

Inductive Observed : Type :=
| LoggedIgnored            (* timer: the warning is logged, nothing runs *)
| Replied409               (* manual: SCRAPING_IN_PROGRESS *)
| RunStarted               (* timer: a run starts *)
| Replied202               (* manual: accepted, a run starts *)
| RunSettled (ret : option Summary)
| NothingPending.          (* no run to settle *)

(** The POST /scrape handler: the status check, the reply, the call. *)
Definition post_scrape (hours : Z) (s : State) : State * Observed * Entered :=
  let status := getStatus hours s in
  if st_isRunning status then (s, Replied409, Ignored)
  else
    let '(s', e) := runScraping_enter s in
    (s', Replied202, e).

Definition started (e : Entered) : nat :=
  match e with Started => 1%nat | Ignored => 0%nat end.

Definition step (sys : System) (ev : Event) : System * Observed :=
  match ev with
  | Fire Timer =>
      let '(s', e) := runScraping_enter (sched sys) in
      ({| sched := s'; inflight := (inflight sys + started e)%nat |},
       match e with Started => RunStarted | Ignored => LoggedIgnored end)
  | Fire (Manual hours) =>
      let '(s', obs, e) := post_scrape hours (sched sys) in
      ({| sched := s'; inflight := (inflight sys + started e)%nat |}, obs)
  | Settle outcome date =>
      match inflight sys with
      | O => (sys, NothingPending)
      | S n =>
          let '(s', ret) := runScraping_settle outcome date (sched sys) in
          ({| sched := s'; inflight := n |}, RunSettled ret)
      end
  end.

Fixpoint run (sys : System) (evs : list Event) : System * list Observed :=
  match evs with
  | [] => (sys, [])
  | ev :: rest =>
      let '(sys1, obs) := step sys ev in
      let '(sys2, more) := run sys1 rest in
      (sys2, obs :: more)
  end.

Definition starts_run (obs : Observed) : bool :=
  match obs with RunStarted | Replied202 => true | _ => false end.

Definition already_running (obs : Observed) : bool :=
  match obs with LoggedIgnored | Replied409 => true | _ => false end.

End Scheduler.

(* ===================================================================== *)
(** * routes/stats.js: GET /price-distribution *)
(* ===================================================================== *)

Module Stats.
Import JS.

Record Bucket : Type := {
  range_min : number;
  range_max : number;
  count : nat;
  percentage : number
}.

(** [prices.filter(p => p >= bucketMin && (last ? p <= bucketMax : p < bucketMax)).length] *)
Definition bucketCount (prices : list number) (bucketMin bucketMax : number)
    (last : bool) : nat :=
  List.length
    (List.filter
       (fun p => (bucketMin <=? p)%float
                 && (if last then (p <=? bucketMax)%float else (p <? bucketMax)%float))
       prices).

(** The body of the [for] loop, for bucket [i]. *)
Definition bucket (prices : list number) (min bucketSize : number)
    (buckets i : nat) : Bucket :=
  let bucketMin := (min + of_nat i * bucketSize)%float in
  let bucketMax := (min + (of_nat i + 1) * bucketSize)%float in
  let count := bucketCount prices bucketMin bucketMax (Nat.eqb i (buckets - 1)) in
  {| range_min := Math_round bucketMin;
     range_max := Math_round bucketMax;
     count := count;
     percentage :=
       (Math_round (of_nat count / of_nat (List.length prices) * 100 * 10) / 10)%float |}.

(** The handler from the query result on: [stored] are the prices of the
    rows the filter selects ([price: { not: null }]), [buckets] the
    validated query parameter (an integer, 5 to 20, 10 by default). An empty
    selection gives [data: []]. *)
Definition priceDistribution (stored : list number) (buckets : nat) : list Bucket :=
  match stored with
  | [] => []
  | _ :: _ =>
      let prices := Array_sort (fun a b => (a - b)%float) stored in
      let min := List.nth 0 prices nan in
      let max := List.nth (List.length prices - 1) prices nan in
      let bucketSize := ((max - min) / of_nat buckets)%float in
      List.map (bucket prices min bucketSize buckets) (List.seq 0 buckets)
  end.

Definition totalCount (d : list Bucket) : nat :=
  List.fold_right (fun b acc => (count b + acc)%nat) 0%nat d.

End Stats.

(* ===================================================================== *)
(** * routes/search.js: POST /geo *)
(* ===================================================================== *)

Module Search.
Import JS.

(** The transcendental functions of [Math], which ECMAScript leaves to the
    implementation. *)
Record MathLib : Type := {
  Math_sin : number -> number;
  Math_cos : number -> number;
  Math_atan2 : number -> number -> number
}.

(** The columns of a stored row that the route reads. [imageUrls] holds
    the JSON text the pipeline wrote, which [JSON.parse] accepts. *)
Record Stored : Type := {
  id : nat;
  latitude : option number;
  longitude : option number;
  propertyType : string;
  transactionType : string;
  price : option number
}.

(** The request body, after validation; [radiusKm] defaults to 5 and
    [transactionType] to ['vente'] when the body leaves them out. *)
Record Body : Type := {
  b_latitude : number;
  b_longitude : number;
  radiusKm : number;
  f_propertyType : option string;
  f_transactionType : option string;
  f_minPrice : option number;
  f_maxPrice : option number;
  f_limit : option Z
}.

Record Result : Type := {
  row : Stored;
  distanceKm : number
}.

Definition truthy_opt_num (x : option number) : bool :=
  match x with Some v => truthy_num v | None => false end.

Definition between (lo hi : number) (x : option number) : bool :=
  match x with
  | Some v => (lo <=? v)%float && (v <=? hi)%float
  | None => false
  end.

Definition matches_text (f : option string) (v : string) : bool :=
  match f with
  | Some s => if String.eqb s "" then true else String.eqb s v
  | None => true
  end.

(** The [price] condition: the spread of [maxPrice] comes last and
    replaces that of [minPrice]. *)
Definition matches_price (b : Body) (p : option number) : bool :=
  if truthy_opt_num (f_maxPrice b) then
    match p, f_maxPrice b with
    | Some v, Some mx => (v <=? mx)%float
    | _, _ => false
    end
  else if truthy_opt_num (f_minPrice b) then
    match p, f_minPrice b with
    | Some v, Some mn => (mn <=? v)%float
    | _, _ => false
    end
  else true.

Section WithMath.
Variable M : MathLib.

Definition latDelta (b : Body) : number := (radiusKm b / 111)%float.

Definition lonDelta (b : Body) : number :=
  (radiusKm b / (111 * Math_cos M (b_latitude b * Math_PI / 180)))%float.

(** The [where] clause of [findMany]. *)
Definition in_box (b : Body) (p : Stored) : bool :=
  between (b_latitude b - latDelta b)%float (b_latitude b + latDelta b)%float (latitude p)
  && between (b_longitude b - lonDelta b)%float (b_longitude b + lonDelta b)%float
       (longitude p)
  && matches_text (f_propertyType b) (propertyType p)
  && matches_text (f_transactionType b) (transactionType p)
  && matches_price b (price p).

(** [take: filters.limit || 20]. *)
Definition take (b : Body) : Z :=
  match f_limit b with
  | Some 0 | None => 20
  | Some n => n
  end.

(** [prisma.property.findMany({ where, take })] over the rows in the
    order the store returns them; a negative [take] keeps the last rows. *)
Definition findMany (b : Body) (rows : list Stored) : list Stored :=
  let found := List.filter (in_box b) rows in
  if 0 <=? take b then List.firstn (Z.to_nat (take b)) found
  else List.skipn (List.length found - Z.to_nat (- take b)) found.

Definition coordinate (x : option number) : number :=
  match x with Some v => v | None => 0%float end.

(** The haversine distance of a row, in km. The rows come out of the box
    query, so their coordinates are not null. *)
Definition distance (b : Body) (p : Stored) : number :=
  let plat := coordinate (latitude p) in
  let plon := coordinate (longitude p) in
  let dLat := ((plat - b_latitude b) * Math_PI / 180)%float in
  let dLon := ((plon - b_longitude b) * Math_PI / 180)%float in
  let a := (Math_sin M (dLat / 2) * Math_sin M (dLat / 2)
            + Math_cos M (b_latitude b * Math_PI / 180)
              * Math_cos M (plat * Math_PI / 180)
              * Math_sin M (dLon / 2) * Math_sin M (dLon / 2))%float in
  let c := (2 * Math_atan2 M (sqrt a) (sqrt (1 - a)))%float in
  (6371 * c)%float.

Definition withDistance (b : Body) (p : Stored) : Result :=
  {| row := p; distanceKm := (Math_round (distance b p * 100) / 100)%float |}.

(** The handler: query, map, filter, sort. *)
Definition geo (b : Body) (rows : list Stored) : list Result :=
  Array_sort (fun x y => (distanceKm x - distanceKm y)%float)
    (List.filter (fun r => (distanceKm r <=? radiusKm b)%float)
       (List.map (withDistance b) (findMany b rows))).

End WithMath.

End Search.

(* ===================================================================== *)
(** * utils/helpers.js, the other helpers *)
(* ===================================================================== *)

Module Utils.
Import JS.

(** [isValidPostalCode(code)]: [/^[0-9]{5}$/.test(code)], on a string. *)
Definition isValidPostalCode (code : string) : bool :=
  (String.length code =? 5)%nat && List.forallb is_digit (list_ascii_of_string code).

(** [getDepartmentFromPostalCode(postalCode)]; [None] is [null]. The
    [parseInt] of five digits is an exact integer. *)
Definition getDepartmentFromPostalCode (postalCode : string) : option string :=
  if negb (isValidPostalCode postalCode) then None
  else
    let prefix := String.substring 0 2 postalCode in
    if String.eqb prefix "97" || String.eqb prefix "98"
    then Some (String.substring 0 3 postalCode)
    else if String.eqb prefix "20" then
      let num := digits_value (list_ascii_of_string postalCode) in
      Some (if num <? 20200 then "2A"%string else "2B"%string)
    else Some prefix.

(** [truncate(str, maxLength)], on the code units of a string; [dot] is
    the full stop. [substring(0, n)] takes no unit for a negative [n]. *)
Definition truncate {A : Type} (dot : A) (str : list A) (maxLength : Z) : list A :=
  match str with
  | [] => str
  | _ :: _ =>
      if Z.of_nat (List.length str) <=? maxLength then str
      else List.firstn (Z.to_nat (maxLength - 3)) str ++ [dot; dot; dot]
  end.

(** What a call of [retry] did: how it ended, how many times it called
    [fn], and the delays it slept, in order. [Thrown None] is
    [throw undefined]. *)
Inductive Ended (A : Type) : Type :=
| Returned (a : A)
| Thrown (error : option string).
Arguments Returned {A} a.
Arguments Thrown {A} error.

Record Retried (A : Type) : Type := {
  ended : Ended A;
  calls : nat;
  slept : list Z
}.
Arguments ended {A} r.
Arguments calls {A} r.
Arguments slept {A} r.

(** The loop of [retry], from iteration [i] with [remaining] iterations
    left; [fn i] is the outcome of the call made at iteration [i]. *)
Fixpoint retryLoop {A : Type} (fn : nat -> res A) (maxRetries : nat) (baseDelay : Z)
    (remaining i : nat) (lastError : option string) (done : list Z) : Retried A :=
  match remaining with
  | O => {| ended := Thrown lastError; calls := i; slept := done |}
  | S remaining' =>
      match fn i with
      | Ok a => {| ended := Returned a; calls := S i; slept := done |}
      | Throw error =>
          retryLoop fn maxRetries baseDelay remaining' (S i) (Some error)
            (if (i <? maxRetries - 1)%nat
             then done ++ [baseDelay * 2 ^ Z.of_nat i] else done)
      end
  end.

(** [retry(fn, maxRetries, baseDelay)]. *)
Definition retry {A : Type} (fn : nat -> res A) (maxRetries : nat) (baseDelay : Z)
  : Retried A :=
  retryLoop fn maxRetries baseDelay maxRetries 0 None [].

End Utils.

(* ===================================================================== *)
(** * services/scraper.js: the parsers and the market statistics *)
(* ===================================================================== *)

Module PropertyScraper.
Import JS.

(** [parsePrice(priceStr)]: every character that is not a digit is
    removed, and [parseInt] reads what is left; it gives NaN, hence [null],
    only when nothing is left. *)
Definition parsePrice (priceStr : text) : option number :=
  match priceStr with
  | None => None
  | Some s =>
      if String.eqb s "" then None
      else
        match List.filter is_digit (list_ascii_of_string s) with
        | [] => None
        | cleaned => Some (decimal_to_number false (digits_value cleaned) 0)
        end
  end.

(** [Math.min] and [Math.max] of two numbers: NaN if either is, and [-0]
    below [+0]. *)
Definition Math_min2 (a b : number) : number :=
  if is_nan a || is_nan b then nan
  else if (a <? b)%float then a
  else if (b <? a)%float then b
  else if (a =? 0)%float && (1 / a <? 0)%float then a
  else b.

Definition Math_max2 (a b : number) : number :=
  if is_nan a || is_nan b then nan
  else if (b <? a)%float then a
  else if (a <? b)%float then b
  else if (a =? 0)%float && (0 <? 1 / a)%float then a
  else b.

(** [Math.min(...arr)] and [Math.max(...arr)]; of no argument they are
    [Infinity] and [-Infinity]. *)
Definition Math_min (arr : list number) : number := fold_left Math_min2 arr infinity.
Definition Math_max (arr : list number) : number := fold_left Math_max2 arr neg_infinity.

(** [avg] and [median] of [getMarketStats]. *)
Definition avg (arr : list number) : number :=
  match arr with
  | [] => 0%float
  | _ :: _ =>
      (fold_left (fun a b => (a + b)%float) arr 0%float / of_nat (List.length arr))%float
  end.

Definition median (arr : list number) : number :=
  match arr with
  | [] => 0%float
  | _ :: _ =>
      let sorted := Array_sort (fun a b => (a - b)%float) arr in
      let mid := (List.length sorted / 2)%nat in
      if Nat.odd (List.length sorted) then List.nth mid sorted nan
      else ((List.nth (mid - 1) sorted nan + List.nth mid sorted nan) / 2)%float
  end.

(** The columns [getMarketStats] selects and computes on. *)
Record Selected : Type := {
  price : option number;
  pricePerSqm : option number;
  surface : option number
}.

Record Stat : Type := {
  st_min : number;
  st_max : number;
  st_avg : number;
  st_median : number
}.

(** [properties.map(p => p.field).filter(Boolean)]: the values that are
    neither [null], nor 0, nor NaN. *)
Definition truthy_values (column : list (option number)) : list number :=
  List.flat_map
    (fun v => match v with
              | Some x => if truthy_num x then [x] else []
              | None => []
              end)
    column.

Definition statOf (arr : list number) : Stat :=
  {| st_min := Math_min arr;
     st_max := Math_max arr;
     st_avg := Math_round (avg arr);
     st_median := Math_round (median arr) |}.

Record MarketStats : Type := {
  ms_count : nat;
  ms_price : Stat;
  ms_pricePerSqm : Stat;
  ms_surface : Stat
}.

(** [getMarketStats(params)] from the query result on; [None] is the
    answer [{ count: 0, message }] to an empty selection. The two
    [distribution] tables are left out. *)
Definition getMarketStats (properties : list Selected) : option MarketStats :=
  match properties with
  | [] => None
  | _ :: _ =>
      Some {| ms_count := List.length properties;
              ms_price := statOf (truthy_values (List.map price properties));
              ms_pricePerSqm := statOf (truthy_values (List.map pricePerSqm properties));
              ms_surface := statOf (truthy_values (List.map surface properties)) |}
  end.

End PropertyScraper.

(* ===================================================================== *)
(** * routes/stats.js: GET /trends *)
(* ===================================================================== *)

Module Trends.
Import JS.

(** A selected row. Of its [scrapedAt] the handler reads the local year and
    month ([getFullYear], and [getMonth] from 0 to 11). *)
Record Row : Type := {
  price : option number;
  pricePerSqm : option number;
  fullYear : Z;
  month : Z
}.

(** The [period] of the query, by month or by quarter; grouping by week
    goes through [toISOString] and is left out. *)
Inductive Period : Type := Month | Quarter.

(** [String(n).padStart(2, '0')]. *)
Definition pad2 (n : Z) : string :=
  let s := Integer_toString n in
  if (String.length s <? 2)%nat then ("0" ++ s)%string else s.

Definition periodKey (period : Period) (p : Row) : string :=
  match period with
  | Month => (Integer_toString (fullYear p) ++ "-" ++ pad2 (month p + 1))%string
  | Quarter =>
      (Integer_toString (fullYear p) ++ "-Q" ++ Integer_toString (month p / 3 + 1))%string
  end.

Record Group : Type := {
  prices : list number;
  pricesPerSqm : list number
}.

(** [groupedData]: an object, whose keys (none of them an array index or
    a member of [Object.prototype]) keep their order of insertion. *)
Definition Grouped := list (string * Group).

Definition push_truthy (l : list number) (v : option number) : list number :=
  match v with
  | Some x => if truthy_num x then l ++ [x] else l
  | None => l
  end.

(** The body of the [forEach] for a row whose key is [k]: the group is
    created if it is not there, then the row's values are pushed. *)
Fixpoint addTo (k : string) (p : Row) (g : Grouped) : Grouped :=
  match g with
  | [] =>
      [(k, {| prices := push_truthy [] (price p);
              pricesPerSqm := push_truthy [] (pricePerSqm p) |})]
  | (k', grp) :: rest =>
      if String.eqb k' k
      then (k', {| prices := push_truthy (prices grp) (price p);
                   pricesPerSqm := push_truthy (pricesPerSqm grp) (pricePerSqm p) |}) :: rest
      else (k', grp) :: addTo k p rest
  end.

Definition group (period : Period) (properties : list Row) : Grouped :=
  fold_left (fun g p => addTo (periodKey period p) p g) properties [].

Record Trend : Type := {
  t_period : string;
  avgPrice : number;
  avgPricePerSqm : number;
  listingsCount : nat
}.

(** [x || 0] on a number. *)
Definition or_zero (x : number) : number := if truthy_num x then x else 0%float.

(** [Math.round(values.reduce((a, b) => a + b, 0) / values.length || 0)]. *)
Definition roundedMean (values : list number) : number :=
  Math_round
    (or_zero (fold_left (fun a b => (a + b)%float) values 0%float
              / of_nat (List.length values))%float).

(** The handler from the query result on: [[]] for an empty selection. *)
Definition trends (period : Period) (properties : list Row) : list Trend :=
  List.map
    (fun '(k, grp) =>
       {| t_period := k;
          avgPrice := roundedMean (prices grp);
          avgPricePerSqm := roundedMean (pricesPerSqm grp);
          listingsCount := List.length (prices grp) |})
    (group period properties).

End Trends.

(* ===================================================================== *)
(** * middleware/auth.js: the API key check before every route *)
(* ===================================================================== *)

Module AuthMiddleware.

Definition CACHE_TTL : Z := 5 * 60 * 1000.

Record Plan : Type := {
  plan_name : string;
  requestsLimit : Z;
  rateLimit : Z
}.

(** A subscription comes with its plan ([include: { plan: true }]). *)
Record Subscription : Type := {
  sub_id : nat;
  periodEnd : Z;
  requestsUsed : Z;
  plan : Plan
}.

Record User : Type := {
  user_id : nat;
  subscription : option Subscription
}.

Record ApiKey : Type := {
  key_id : nat;
  isActive : bool;
  user : User
}.

Record CacheData : Type := {
  c_user : User;
  c_keyId : nat;
  c_plan : Plan;
  timestamp : Z
}.

(** [keyCache], a [Map] from the key to what was found for it. *)
Abbreviation KeyCache := (gmap string CacheData).

(** How the middleware ends: the request goes on with [request.user],
    [request.apiKeyId] and [request.plan] set, or a reply is sent. *)
Inductive Verdict : Type :=
| Authenticated (u : User) (apiKeyId : nat) (p : Plan)
| Rejected (status : Z) (error : string).

(** The writes it issues without awaiting them. *)
Inductive Write : Type :=
| IncrementRequestsUsed (subscription : nat)
| TouchLastUsed (key : nat) (date : Z).

(** What one request reads from outside: the clock at its four readings,
    in the order of the code, and the answer of [prisma.apiKey.findUnique]. *)
Record Env : Type := {
  now_cache : Z;
  now_quota : Z;
  now_touch : Z;
  now_store : Z;
  findUnique : string -> res (option ApiKey)
}.

Definition free_plan : Plan :=
  {| plan_name := "free"; requestsLimit := 100; rateLimit := 10 |}.

Definition well_formed (apiKey : string) : bool :=
  String.prefix "immo_" apiKey && (20 <=? String.length apiKey)%nat.

(** The part of [authMiddleware] after the cache: the lookup and the checks. *)
Definition lookup (env : Env) (cache : KeyCache) (apiKey : string)
  : Verdict * KeyCache * list Write :=
  match findUnique env apiKey with
  | Throw _ => (Rejected 500 "AUTH_ERROR", cache, [])
  | Ok None => (Rejected 401 "INVALID_API_KEY", cache, [])
  | Ok (Some key) =>
      if negb (isActive key) then (Rejected 403 "API_KEY_DISABLED", cache, [])
      else
        match subscription (user key) with
        | Some sub =>
            if periodEnd sub <? now_quota env
            then (Rejected 403 "SUBSCRIPTION_EXPIRED", cache, [])
            else if requestsLimit (plan sub) <=? requestsUsed sub
            then (Rejected 429 "QUOTA_EXCEEDED", cache, [])
            else
              (Authenticated (user key) (key_id key) (plan sub),
               <[ apiKey := {| c_user := user key; c_keyId := key_id key;
                               c_plan := plan sub; timestamp := now_store env |} ]> cache,
               [IncrementRequestsUsed (sub_id sub);
                TouchLastUsed (key_id key) (now_touch env)])
        | None =>
            (Authenticated (user key) (key_id key) free_plan,
             <[ apiKey := {| c_user := user key; c_keyId := key_id key;
                             c_plan := free_plan; timestamp := now_store env |} ]> cache,
             [TouchLastUsed (key_id key) (now_touch env)])
        end
  end.

(** [authMiddleware(request, reply)]; [apiKey] is the [x-api-key] header,
    [None] when the request has none. A header value has one character
    per byte, so its [length] is the number of bytes. *)
Definition authMiddleware (env : Env) (cache : KeyCache) (apiKey : option string)
  : Verdict * KeyCache * list Write :=
  match apiKey with
  | None => (Rejected 401 "MISSING_API_KEY", cache, [])
  | Some k =>
      if String.eqb k "" then (Rejected 401 "MISSING_API_KEY", cache, [])
      else if negb (well_formed k) then (Rejected 401 "INVALID_API_KEY_FORMAT", cache, [])
      else
        match cache !! k with
        | Some cached =>
            if now_cache env - timestamp cached <? CACHE_TTL
            then (Authenticated (c_user cached) (c_keyId cached) (c_plan cached), cache, [])
            else lookup env (delete k cache) k
        | None => lookup env cache k
        end
  end.

(** [invalidateKeyCache(apiKey)] and [clearKeyCache()]. *)
Definition invalidateKeyCache (apiKey : string) (cache : KeyCache) : KeyCache :=
  delete apiKey cache.

Definition clearKeyCache (cache : KeyCache) : KeyCache := ∅.

(** The callback of [setInterval]: at every minute the entries older than
    [CACHE_TTL] are deleted. *)
Definition sweep (now : Z) (cache : KeyCache) : KeyCache :=
  filter (fun kv => negb (CACHE_TTL <? now - timestamp kv.2) = true) cache.

End AuthMiddleware.

(* ===================================================================== *)
(** * Sample inputs *)
(* ===================================================================== *)

Module Samples.
Import JS DVFScraper.

(** A sale in Paris: 450 000 euros, 62 m2 (the surface given as text). *)
Definition paris_sale : Mutation :=
  {| id_mutation := Some "2023-1187"%string;
     valeur_fonciere := Num 450000%float;
     surface_reelle_bati := Str "62";
     type_local := Some "Appartement"%string;
     commune := Some "Paris 11e Arrondissement"%string;
     code_postal := Some "75011"%string;
     code_departement := Some "75"%string;
     m_latitude := Num 48.8594%float;
     m_longitude := Num 2.3765%float |}.

(** The same sale with no price. *)
Definition sale_without_price : Mutation :=
  {| id_mutation := Some "2023-1188"%string;
     valeur_fonciere := Null;
     surface_reelle_bati := Num 50%float;
     type_local := Some "Maison"%string;
     commune := Some "Lyon"%string;
     code_postal := Some "69003"%string;
     code_departement := Some "69"%string;
     m_latitude := Null;
     m_longitude := Null |}.

(** A sale whose price is text that holds no number. *)
Definition sale_with_unreadable_price : Mutation :=
  {| id_mutation := Some "2023-1189"%string;
     valeur_fonciere := Str "n/c";
     surface_reelle_bati := Num 50%float;
     type_local := Some "Maison"%string;
     commune := Some "Lyon"%string;
     code_postal := Some "69003"%string;
     code_departement := None;
     m_latitude := Null;
     m_longitude := Null |}.

Definition draw1 : Draw :=
  {| date_now := 1700000000000; random_suffix := "k3x9q0a7b"; new_date := 1700000000001 |}.

Definition draw2 : Draw :=
  {| date_now := 1700021600000; random_suffix := "z81mfp2cd"; new_date := 1700021600001 |}.

(** A source that serves [paris_sale] for Paris in 2023 and nothing else. *)
Definition one_sale (dep : string) (annee : Z) : HttpOutcome :=
  if String.eqb dep "75" && (annee =? 2023) then Response (Results [Some paris_sale])
  else Response NoResults.

(** Two runs over the same source data. *)
Definition run1 : Oracle :=
  {| http_get := one_sale; draws := fun _ => draw1;
     upsert_throws := fun _ => false; upsert_date := fun _ => 1700000000500 |}.

Definition run2 : Oracle :=
  {| http_get := one_sale; draws := fun _ => draw2;
     upsert_throws := fun _ => false; upsert_date := fun _ => 1700021600500 |}.

(** A source that is down: every request times out. *)
Definition source_down : Oracle :=
  {| http_get := fun _ _ => NetworkError "timeout of 30000ms exceeded";
     draws := fun _ => draw1;
     upsert_throws := fun _ => false; upsert_date := fun _ => 1700000000500 |}.

(** A source where Paris times out in 2023 and serves [paris_sale] in 2022. *)
Definition paris_down_in_2023 : Oracle :=
  {| http_get := fun dep annee =>
       if String.eqb dep "75" then
         if annee =? 2023 then NetworkError "timeout of 30000ms exceeded"
         else Response (Results [Some paris_sale])
       else Response NoResults;
     draws := fun _ => draw1;
     upsert_throws := fun _ => false; upsert_date := fun _ => 1700000000500 |}.

(** A source whose array for Lyon in 2022 holds a [null] after a record. *)
Definition source_with_null : Oracle :=
  {| http_get := fun dep annee =>
       if String.eqb dep "69" && (annee =? 2022)
       then Response (Results [Some paris_sale; None])
       else Response (Results [Some paris_sale]);
     draws := fun _ => draw1;
     upsert_throws := fun _ => false; upsert_date := fun _ => 1700000000500 |}.

(** A source whose payload for Lyon is not an array. *)
Definition source_malformed : Oracle :=
  {| http_get := fun dep _ =>
       if String.eqb dep "69" then Response NotAnArray else Response NoResults;
     draws := fun _ => draw1;
     upsert_throws := fun _ => false; upsert_date := fun _ => 1700000000500 |}.

(** A store that refuses every second write. *)
Definition flaky_store : Oracle :=
  {| http_get := one_sale; draws := fun _ => draw1;
     upsert_throws := Nat.odd; upsert_date := fun _ => 1700000000500 |}.

(** Two sales stored for the histogram. *)
Definition two_prices : list number := [28988; 4090930]%float.

(** A stand-in for [Math] to evaluate samples with: the three functions
    in their small-angle forms, exact at [sin(0) = 0] and [atan2(0, 1) = 0]
    and close to the functions for the few kilometres of the samples. The
    theorems are proved for every [MathLib]. *)
Definition small_angle : Search.MathLib :=
  {| Search.Math_sin := fun x => x;
     Search.Math_cos := fun x => (1 - x * x / 2)%float;
     Search.Math_atan2 := fun y x => (y / x)%float |}.

(** A flat of a building in the centre of Paris; all the flats of the
    building are geocoded at the same point. *)
Definition flat (n : nat) : Search.Stored :=
  {| Search.id := n;
     Search.latitude := Some 48.8566%float;
     Search.longitude := Some 2.3522%float;
     Search.propertyType := "appartement";
     Search.transactionType := "vente";
     Search.price := Some 450000%float |}.

Definition building : list Search.Stored := List.map flat (List.seq 1 21).

(** A search of 5 km around that very point, all defaults. *)
Definition around_the_building : Search.Body :=
  {| Search.b_latitude := 48.8566%float;
     Search.b_longitude := 2.3522%float;
     Search.radiusKm := 5%float;
     Search.f_propertyType := None;
     Search.f_transactionType := Some "vente"%string;
     Search.f_minPrice := None;
     Search.f_maxPrice := None;
     Search.f_limit := None |}.

End Samples.

(* ===================================================================== *)
(** * Notions used in the statements *)
(* ===================================================================== *)

(** Ascending order of a list of numbers. *)
Fixpoint ascending (l : list JS.number) : Prop :=
  match l with
  | x :: t =>
      match t with
      | y :: _ => (x <=? y)%float = true
      | [] => True
      end /\ ascending t
  | [] => True
  end.

(* ===================================================================== *)
(** * The specification's statements that the code does not meet *)
(* ===================================================================== *)

Module Spec.
Import JS DVFScraper.

Definition absent (v : value) : bool :=
  match v with
  | Undefined | Null => true
  | _ => false
  end.

(** "price and surface are both absent, a present value fails to parse to
    a number, or price is outside [10000, 50000000] or surface is outside
    [9, 1000]". *)
Definition rejects (m : Mutation) : bool :=
  let p := parseFloat (valeur_fonciere m) in
  let s := parseFloat (surface_reelle_bati m) in
  (absent (valeur_fonciere m) && absent (surface_reelle_bati m))
  || (negb (absent (valeur_fonciere m)) && is_nan p)
  || (negb (absent (surface_reelle_bati m)) && is_nan s)
  || (p <? 10000)%float || (50000000 <? p)%float
  || (s <? 9)%float || (1000 <? s)%float.

(** "returns no entity exactly when ...; for every other raw record it
    produces an entity". *)
Definition normalizer_contract : Prop :=
  forall (d : Draw) (m : Mutation),
    mutationToProperty d m = None <-> rejects m = true.

(** "when the department is absent (or not in the table) the produced
    entity's region is the string "unknown"". *)
Definition region_fallback_unknown : Prop :=
  forall dep : text,
    match dep with
    | None => True
    | Some k => regions !! k = None
    end ->
    getRegionFromDepartement dep = Text "unknown".

(** "same raw record => same externalId". *)
Definition stable_externalId : Prop :=
  forall (d1 d2 : Draw) (m : Mutation) (p1 p2 : Property),
    mutationToProperty d1 m = Some p1 ->
    mutationToProperty d2 m = Some p2 ->
    externalId p1 = externalId p2.

(** "a property at great-circle distance exactly 0 from the center is
    always included, a property at distance strictly greater than radiusKm
    is always excluded, and the returned results are sorted ascending by
    distance", for the stored rows the query selects. *)
Definition geo_radius_contract : Prop :=
  forall (M : Search.MathLib) (b : Search.Body) (rows : list Search.Stored),
    (0 <? Search.radiusKm b)%float = true ->
    (forall p, In p rows -> Search.in_box M b p = true ->
               Search.distance M b p = 0%float ->
               In p (List.map Search.row (Search.geo M b rows)))
    /\ (forall p, In p rows ->
                 (Search.radiusKm b <? Search.distance M b p)%float = true ->
                 ~ In p (List.map Search.row (Search.geo M b rows)))
    /\ ascending (List.map (fun r => Search.distance M b (Search.row r))
                    (Search.geo M b rows)).

End Spec.

(** A flat on the meridian of the searched point, at the given latitude. *)
Definition north_of_the_centre (n : nat) (lat : JS.number) : Search.Stored :=
  {| Search.id := n;
     Search.latitude := Some lat;
     Search.longitude := Some 2.3522%float;
     Search.propertyType := "appartement";
     Search.transactionType := "vente";
     Search.price := Some 450000%float |}.

(** The bounds of [mutationToProperty], read as an interval test. *)
Definition in_bounds (price surface : JS.number) : bool :=
  ((10000 <=? price) && (price <=? 50000000)
   && (9 <=? surface) && (surface <=? 1000))%float.

(** A request that did not complete. *)
Definition fails (h : DVFScraper.HttpOutcome) : bool :=
  match h with
  | DVFScraper.NetworkError _ => true
  | DVFScraper.Response _ => false
  end.

(** The same environment, every failed request answered by an empty page
    instead. *)
Definition failures_as_empty (o : DVFScraper.Oracle) : DVFScraper.Oracle :=
  {| DVFScraper.http_get := fun dep annee =>
       match DVFScraper.http_get o dep annee with
       | DVFScraper.NetworkError _ => DVFScraper.Response (DVFScraper.Results [])
       | r => r
       end;
     DVFScraper.draws := DVFScraper.draws o;
     DVFScraper.upsert_throws := DVFScraper.upsert_throws o;
     DVFScraper.upsert_date := DVFScraper.upsert_date o |}.

(** The flag says whether a run is in flight, and there is at most one. *)
Definition flag_counts_runs (sys : Scheduler.System) : Prop :=
  Scheduler.inflight sys = if Scheduler.isRunning (Scheduler.sched sys) then 1%nat else 0%nat.

(** [SFcompare] compares like the lexicographic order on these keys. *)
Definition SFkey (x : spec_float) : Z * Z * Z :=
  match x with
  | S754_nan => (0, 0, 0)%Z
  | S754_zero _ => (0, 0, 0)%Z
  | S754_infinity true => (-2, 0, 0)%Z
  | S754_infinity false => (2, 0, 0)%Z
  | S754_finite true m e => (-1, - e, Z.neg m)%Z
  | S754_finite false m e => (1, e, Z.pos m)%Z
  end.

Definition lex3 (a b : Z * Z * Z) : comparison :=
  let '(a1, a2, a3) := a in
  let '(b1, b2, b3) := b in
  match (a1 ?= b1)%Z with
  | Eq => match (a2 ?= b2)%Z with
          | Eq => (a3 ?= b3)%Z
          | c => c
          end
  | c => c
  end.

Definition SFis_nan (x : spec_float) : bool :=
  match x with S754_nan => true | _ => false end.

(** [lex3 a b] is not [Gt]: [a] is at most [b]. *)
Definition le3 (a b : Z * Z * Z) : Prop := lex3 a b <> Gt.

(** A rounded result that is not zero and has the given sign. *)
Definition same_sign_nonzero (s : bool) (x : spec_float) : Prop :=
  match x with
  | S754_finite s' _ _ | S754_infinity s' => s' = s
  | _ => False
  end.

(** The error a failed call threw. *)
Definition thrown {A : Type} (r : res A) : option string :=
  match r with
  | Throw e => Some e
  | Ok _ => None
  end.

Definition failed {A : Type} (r : res A) : bool :=
  match r with
  | Throw _ => true
  | Ok _ => false
  end.

(** The summary of the last run that resolved, among what was observed. *)
Fixpoint lastResolved (obs : list Scheduler.Observed) : option DVFScraper.Summary :=
  match obs with
  | [] => None
  | o :: rest =>
      match lastResolved rest with
      | Some s => Some s
      | None =>
          match o with
          | Scheduler.RunSettled (Some s) => Some s
          | _ => None
          end
      end
  end.

(** The requests of one run, in the order [scrapeAll] makes them. *)
Definition partitions : list (Z * string) :=
  List.flat_map (fun annee => List.map (fun dep => (annee, dep)) DVFScraper.DEPARTEMENTS)
    DVFScraper.annees.

(** The error that [mutations.map(...)] throws on what a request returned,
    if it throws. *)
Definition mapError (mutations : DVFScraper.Fetched) : option string :=
  match mutations with
  | DVFScraper.Other => Some "TypeError: mutations.map is not a function"%string
  | DVFScraper.Array elements =>
      match DVFScraper.records elements with
      | Some _ => None
      | None =>
          Some "TypeError: Cannot read properties of null (reading 'valeur_fonciere')"%string
      end
  end.

(** The first such error among requests, in their order. *)
Fixpoint firstError (o : DVFScraper.Oracle) (requests : list (Z * string)) : option string :=
  match requests with
  | [] => None
  | (annee, dep) :: rest =>
      match mapError (DVFScraper.scrapeDepartement o dep annee) with
      | Some e => Some e
      | None => firstError o rest
      end
  end.

(** The error a run rejects with, if it does. *)
Definition rejection (o : DVFScraper.Oracle) : option string := firstError o partitions.

(** The records among the elements of an array. *)
Definition recordsOf (elements : list (option DVFScraper.Mutation)) : list DVFScraper.Mutation :=
  List.flat_map (fun e => match e with Some m => [m] | None => [] end) elements.

(** The raw records of given requests, in fetch order. *)
Definition fetchedFrom (o : DVFScraper.Oracle) (requests : list (Z * string))
  : list DVFScraper.Mutation :=
  List.flat_map
    (fun '(annee, dep) =>
       match DVFScraper.scrapeDepartement o dep annee with
       | DVFScraper.Array elements => recordsOf elements
       | DVFScraper.Other => []
       end)
    requests.

(** The raw records of one run, in fetch order. *)
Definition fetched (o : DVFScraper.Oracle) : list DVFScraper.Mutation :=
  fetchedFrom o partitions.

(** The payload of a request is one the run can read: the request failed,
    or it was answered without results or by an array of records. *)
Definition readable (h : DVFScraper.HttpOutcome) : bool :=
  match h with
  | DVFScraper.NetworkError _ => true
  | DVFScraper.Response DVFScraper.NoResults => true
  | DVFScraper.Response (DVFScraper.Results elements) =>
      List.forallb (fun e => match e with Some _ => true | None => false end) elements
  | DVFScraper.Response DVFScraper.NotAnArray => false
  end.

(** The records that the source served over one run, read off the answers
    themselves, in the order of the requests: a failed request brings
    nothing. *)
Definition served (o : DVFScraper.Oracle) : list DVFScraper.Mutation :=
  List.flat_map
    (fun '(annee, dep) =>
       match DVFScraper.http_get o dep annee with
       | DVFScraper.Response (DVFScraper.Results elements) => recordsOf elements
       | _ => []
       end)
    partitions.

(** The last entity of a batch that carries the key [k]. *)
Definition lastWithKey (k : string) (properties : list DVFScraper.Property)
  : option DVFScraper.Property :=
  List.find (fun p => String.eqb (DVFScraper.externalId p) k) (List.rev properties).

(** Two request bodies that differ at most by [minPrice]. *)
Definition same_but_minPrice (b b' : Search.Body) : Prop :=
  Search.b_latitude b = Search.b_latitude b'
  /\ Search.b_longitude b = Search.b_longitude b'
  /\ Search.radiusKm b = Search.radiusKm b'
  /\ Search.f_propertyType b = Search.f_propertyType b'
  /\ Search.f_transactionType b = Search.f_transactionType b'
  /\ Search.f_maxPrice b = Search.f_maxPrice b'
  /\ Search.f_limit b = Search.f_limit b'.

(** The rows of a period, in the order of the selection. *)
Definition rowsOf (period : Trends.Period) (k : string) (rows : list Trends.Row)
  : list Trends.Row :=
  List.filter (fun p => String.eqb (Trends.periodKey period p) k) rows.

(** The group stored under a key. *)
Definition groupOf (k : string) (g : Trends.Grouped) : option Trends.Group :=
  match List.find (fun kg => String.eqb (fst kg) k) g with
  | Some kg => Some (snd kg)
  | None => None
  end.

Definition emptyGroup : Trends.Group :=
  {| Trends.prices := []; Trends.pricesPerSqm := [] |}.

(** A group after the values of more rows were pushed. *)
Definition extend (grp : Trends.Group) (rs : list Trends.Row) : Trends.Group :=
  {| Trends.prices :=
       Trends.prices grp ++ PropertyScraper.truthy_values (List.map Trends.price rs);
     Trends.pricesPerSqm :=
       Trends.pricesPerSqm grp
       ++ PropertyScraper.truthy_values (List.map Trends.pricePerSqm rs) |}.

(** What a request gets, and what it writes to the store. *)
Definition verdict (r : AuthMiddleware.Verdict * AuthMiddleware.KeyCache
                        * list AuthMiddleware.Write) : AuthMiddleware.Verdict :=
  fst (fst r).

Definition writes (r : AuthMiddleware.Verdict * AuthMiddleware.KeyCache
                       * list AuthMiddleware.Write) : list AuthMiddleware.Write :=
  snd r.

Definition cacheAfter (r : AuthMiddleware.Verdict * AuthMiddleware.KeyCache
                           * list AuthMiddleware.Write) : AuthMiddleware.KeyCache :=
  snd (fst r).

(** What [min] and [max] of a statistic are to the values it is taken
    over. *)
Definition range_of (st : PropertyScraper.Stat) (arr : list JS.number) : Prop :=
  (arr = [] ->
   st = {| PropertyScraper.st_min := infinity; PropertyScraper.st_max := neg_infinity;
           PropertyScraper.st_avg := 0; PropertyScraper.st_median := 0 |})
  /\ (arr <> [] ->
      In (PropertyScraper.st_min st) arr /\ In (PropertyScraper.st_max st) arr
      /\ Forall (fun x => (PropertyScraper.st_min st <=? x)%float = true) arr
      /\ Forall (fun x => (x <=? PropertyScraper.st_max st)%float = true) arr).

(** A key of the accepted form with its row in the store, a request that
    finds it there, and later requests that find the store down. *)
Module KeySamples.
Import AuthMiddleware.

Definition pro : Plan := {| plan_name := "pro"; requestsLimit := 10000; rateLimit := 60 |}.

Definition owner : User :=
  {| user_id := 7;
     subscription :=
       Some {| sub_id := 3; periodEnd := 2000000; requestsUsed := 9999; plan := pro |} |}.

Definition key : string := "immo_0123456789abcdef0123".

Definition stored : ApiKey := {| key_id := 11; isActive := true; user := owner |}.

Definition first_request : Env :=
  {| now_cache := 1000; now_quota := 1001; now_touch := 1002; now_store := 1003;
     findUnique := fun k => if String.eqb k key then Ok (Some stored) else Ok None |}.

Definition later_request : Env :=
  {| now_cache := 200000; now_quota := 200001; now_touch := 200002; now_store := 200003;
     findUnique := fun _ => Throw "store down" |}.

(** The cached entry has expired by then. *)
Definition last_request : Env :=
  {| now_cache := 400000; now_quota := 400001; now_touch := 400002; now_store := 400003;
     findUnique := fun _ => Throw "store down" |}.

End KeySamples.

(** Two selected rows, one of them without a price. *)
Definition two_selected : list PropertyScraper.Selected :=
  [ {| PropertyScraper.price := Some 300000%float;
       PropertyScraper.pricePerSqm := Some 5000%float;
       PropertyScraper.surface := Some 60%float |};
    {| PropertyScraper.price := None;
       PropertyScraper.pricePerSqm := None;
       PropertyScraper.surface := Some 45%float |} ].

(** What happens to the key cache between two requests: another request,
    a run of the periodic cleanup, [invalidateKeyCache] (which the route
    DELETE /keys/:keyId calls after it has disabled a key) and
    [clearKeyCache]. *)
Inductive CacheEvent : Type :=
| Request (env : AuthMiddleware.Env) (apiKey : option string)
| Sweep (now : Z)
| Invalidate (apiKey : string)
| Clear.

Definition cacheStep (cache : AuthMiddleware.KeyCache) (e : CacheEvent)
  : AuthMiddleware.KeyCache :=
  match e with
  | Request env apiKey => cacheAfter (AuthMiddleware.authMiddleware env cache apiKey)
  | Sweep now => AuthMiddleware.sweep now cache
  | Invalidate k => AuthMiddleware.invalidateKeyCache k cache
  | Clear => AuthMiddleware.clearKeyCache cache
  end.

Definition cacheRun (events : list CacheEvent) (cache : AuthMiddleware.KeyCache)
  : AuthMiddleware.KeyCache :=
  fold_left cacheStep events cache.

(** An event that is neither the invalidation of the key [k] nor a
    clearing, and that comes before the entry stored at [stored] is older
    than [CACHE_TTL]. *)
Definition beforeExpiry (k : string) (stored : Z) (e : CacheEvent) : Prop :=
  match e with
  | Request env apiKey => apiKey = Some k -> AuthMiddleware.now_cache env - stored < AuthMiddleware.CACHE_TTL
  | Sweep now => now - stored <= AuthMiddleware.CACHE_TTL
  | Invalidate k' => k' <> k
  | Clear => False
  end.

(* ===================================================================== *)
(** * The runtime model on samples *)
(* ===================================================================== *)

(** [parseFloat] on some texts: decimals, a unit suffix, exponents, the
    boundary cases of rounding, and texts without a number. *)
Example parseFloat_samples :
  JS.parseFloat_string "165000.50" = 165000.5%float
  /\ JS.parseFloat_string "0.1" = 0.1%float
  /\ JS.parseFloat_string " 45m2" = 45%float
  /\ JS.parseFloat_string " 	45,5" = 45%float
  /\ JS.parseFloat_string "1e21" = 1e21%float
  /\ JS.parseFloat_string "0.30000000000000004" = 0.30000000000000004%float
  /\ JS.parseFloat_string "4.9e-324" = 4.9406564584124654e-324%float
  /\ JS.parseFloat_string "2.2250738585072011e-308" = 2.2250738585072009e-308%float
  /\ JS.parseFloat_string "1.7976931348623157e308" = 1.7976931348623157e308%float
  /\ JS.parseFloat_string "1.7976931348623159e308" = infinity
  /\ JS.parseFloat_string "9007199254740993" = 9007199254740992%float
  /\ JS.parseFloat_string "-.5e1x" = (-5)%float
  /\ JS.parseFloat_string "5." = 5%float
  /\ JS.parseFloat_string "1e" = 1%float
  /\ JS.is_nan (JS.parseFloat_string "abc") = true
  /\ JS.is_nan (JS.parseFloat_string ".") = true
  /\ JS.is_nan (JS.parseFloat_string "") = true.
Proof. vm_compute. repeat split. Qed.

(** [Math.round] rounds half towards +infinity. *)
Example Math_round_samples :
  JS.Math_round 2.5 = 3%float /\ JS.Math_round (-2.5) = (-2)%float
  /\ JS.Math_round 0.49999999999999994 = 0%float
  /\ JS.Math_round 3666.6666666666665 = 3667%float
  /\ JS.Math_round 4503599627370497 = 4503599627370497%float
  /\ JS.Math_round infinity = infinity
  /\ JS.is_nan (JS.Math_round nan) = true
  /\ JS.Integer_toString 1700000000000 = "1700000000000"%string
  /\ JS.Integer_toString 0 = "0"%string.
Proof. vm_compute. repeat split. Qed.

(** Truthiness of the values a price can take. *)
Example truthy_samples :
  List.map JS.truthy
    [JS.Undefined; JS.Null; JS.Num 0; JS.Num (-0); JS.Num nan; JS.Str ""; JS.Bool false;
     JS.Num 450000; JS.Str "0"; JS.Str "n/c"; JS.Bool true]
  = [false; false; false; false; false; false; false; true; true; true; true].
Proof. reflexivity. Qed.

(* ===================================================================== *)
(** * Facts about binary64 comparison *)
(* ===================================================================== *)

Section FloatOrder.

Local Open Scope float_scope.

Lemma SFcompare_key (x y : spec_float) :
  SFcompare x y =
    if SFis_nan x || SFis_nan y then None else Some (lex3 (SFkey x) (SFkey y)).
Proof.
  destruct x as [sx|sx| |sx mx ex], y as [sy|sy| |sy my ey];
    try destruct sx; try destruct sy; try reflexivity.
  cbn -[Z.compare]. rewrite Z.compare_opp, (Z.compare_antisym ex ey).
    change (-1 ?= -1)%Z with Eq. cbn.
    destruct (ex ?= ey)%Z; reflexivity.
Qed.

Lemma lex3_refl a : lex3 a a = Eq.
Proof. destruct a as [[a1 a2] a3]; cbn. now rewrite !Z.compare_refl. Qed.

Lemma lex3_antisym a b : lex3 b a = CompOpp (lex3 a b).
Proof.
  destruct a as [[a1 a2] a3], b as [[b1 b2] b3]; cbn.
  rewrite (Z.compare_antisym a1 b1), (Z.compare_antisym a2 b2),
    (Z.compare_antisym a3 b3).
  destruct (a1 ?= b1)%Z, (a2 ?= b2)%Z, (a3 ?= b3)%Z; reflexivity.
Qed.

Lemma le3_spec a1 a2 a3 b1 b2 b3 :
  le3 (a1, a2, a3) (b1, b2, b3) <->
  (a1 < b1 \/ (a1 = b1 /\ (a2 < b2 \/ (a2 = b2 /\ a3 <= b3))))%Z.
Proof.
  unfold le3; cbn.
  destruct (Z.compare_spec a1 b1), (Z.compare_spec a2 b2), (Z.compare_spec a3 b3);
    split; intro; try lia; try congruence.
Qed.

Lemma lt3_spec a1 a2 a3 b1 b2 b3 :
  lex3 (a1, a2, a3) (b1, b2, b3) = Lt <->
  (a1 < b1 \/ (a1 = b1 /\ (a2 < b2 \/ (a2 = b2 /\ a3 < b3))))%Z.
Proof.
  cbn.
  destruct (Z.compare_spec a1 b1), (Z.compare_spec a2 b2), (Z.compare_spec a3 b3);
    split; intro; try lia; try congruence.
Qed.

Lemma is_nan_SF (x : float) : JS.is_nan x = SFis_nan (Prim2SF x).
Proof.
  unfold JS.is_nan. rewrite FloatAxioms.eqb_spec. unfold SFeqb.
  rewrite SFcompare_key, orb_diag, lex3_refl.
  now destruct (SFis_nan (Prim2SF x)).
Qed.

Lemma leb_key (x y : float) :
  (x <=? y) = true <->
  JS.is_nan x = false /\ JS.is_nan y = false
  /\ le3 (SFkey (Prim2SF x)) (SFkey (Prim2SF y)).
Proof.
  rewrite FloatAxioms.leb_spec, !is_nan_SF. unfold SFleb, le3. rewrite SFcompare_key.
  destruct (SFis_nan (Prim2SF x)), (SFis_nan (Prim2SF y)); cbn;
    try (split; [discriminate | intros (? & ? & ?); discriminate]).
  destruct (lex3 _ _); intuition congruence.
Qed.

Lemma ltb_key (x y : float) :
  (x <? y) = true <->
  JS.is_nan x = false /\ JS.is_nan y = false
  /\ lex3 (SFkey (Prim2SF x)) (SFkey (Prim2SF y)) = Lt.
Proof.
  rewrite FloatAxioms.ltb_spec, !is_nan_SF. unfold SFltb. rewrite SFcompare_key.
  destruct (SFis_nan (Prim2SF x)), (SFis_nan (Prim2SF y)); cbn;
    try (split; [discriminate | intros (? & ? & ?); discriminate]).
  destruct (lex3 _ _); intuition congruence.
Qed.

(** On numbers (no NaN), [x < y] fails exactly when [y <= x]. *)
Lemma ltb_false_leb (x y : float) :
  JS.is_nan x = false -> JS.is_nan y = false ->
  ((x <? y) = false <-> (y <=? x) = true).
Proof.
  intros Hx Hy. rewrite leb_key. unfold le3. rewrite lex3_antisym.
  destruct (x <? y) eqn:E.
  - apply ltb_key in E as (_ & _ & E). rewrite E. cbn.
    split; [discriminate | intros (_ & _ & H); congruence].
  - split; [intros _ | reflexivity]. repeat split; try assumption.
    intro H. assert ((x <? y) = true) as E'; [ | congruence].
    apply ltb_key. repeat split; try assumption.
    now destruct (lex3 _ _).
Qed.

Lemma leb_not_nan (x y : float) :
  (x <=? y) = true -> JS.is_nan x = false /\ JS.is_nan y = false.
Proof. intro H. apply leb_key in H. tauto. Qed.

Lemma leb_trans (x y z : float) :
  (x <=? y) = true -> (y <=? z) = true -> (x <=? z) = true.
Proof.
  rewrite !leb_key. intros (Hx & Hy & H1) (_ & Hz & H2).
  repeat split; try assumption.
  destruct (SFkey (Prim2SF x)) as [[a1 a2] a3], (SFkey (Prim2SF y)) as [[b1 b2] b3],
    (SFkey (Prim2SF z)) as [[c1 c2] c3].
  apply le3_spec in H1, H2. apply le3_spec. lia.
Qed.

Lemma ltb_leb (x y : float) : (x <? y) = true -> (x <=? y) = true.
Proof.
  intro H. apply ltb_key in H as (Hx & Hy & H). apply leb_key.
  repeat split; try assumption. unfold le3. congruence.
Qed.

(** Below [x] strictly, then at most [y]: not [y]. *)
Lemma ltb_leb_neq (x y z : float) :
  (x <? y) = true -> (y <=? z) = true -> (z =? x) = false.
Proof.
  intros H1 H2. apply ltb_key in H1 as (Hx & Hy & H1).
  apply leb_key in H2 as (_ & Hz & H2).
  rewrite FloatAxioms.eqb_spec. unfold SFeqb. rewrite SFcompare_key.
  rewrite is_nan_SF in Hx, Hz. rewrite Hx, Hz. cbn [orb].
  destruct (SFkey (Prim2SF x)) as [[a1 a2] a3], (SFkey (Prim2SF y)) as [[b1 b2] b3],
    (SFkey (Prim2SF z)) as [[c1 c2] c3].
  apply lt3_spec in H1. apply le3_spec in H2.
  destruct (lex3 (c1, c2, c3) (a1, a2, a3)) eqn:E; try reflexivity.
  exfalso. cbn in E.
  destruct (Z.compare_spec c1 a1), (Z.compare_spec c2 a2), (Z.compare_spec c3 a3);
    try discriminate; lia.
Qed.

End FloatOrder.

(* ===================================================================== *)
(** * The sign of a binary64 difference *)
(* ===================================================================== *)

Section FloatDifference.

Lemma iter_xO_value (m d : positive) : Z.pos (Pos.iter xO m d) = Z.pos m * 2 ^ Z.pos d.
Proof.
  apply (Pos.iter_ind positive xO m (fun p r => Z.pos r = Z.pos m * 2 ^ Z.pos p)).
  - rewrite Z.pow_1_r. lia.
  - intros p a IH. rewrite Pos2Z.inj_succ, Z.pow_succ_r by lia.
    change (Z.pos a~0) with (2 * Z.pos a). rewrite IH. ring.
Qed.

(** The mantissa aligned on a smaller exponent. *)
Lemma shl_align_value (m : positive) (e e' : Z) :
  e' <= e -> Z.pos (fst (shl_align m e e')) = Z.pos m * 2 ^ (e - e').
Proof.
  intro H. unfold shl_align. destruct (e' - e) eqn:E; cbn [fst].
  - replace (e - e') with 0 by lia. rewrite Z.pow_0_r. lia.
  - lia.
  - rewrite iter_xO_value. f_equal. f_equal. lia.
Qed.

Lemma digits2_size (m : positive) : digits2_pos m = Pos.size m.
Proof. induction m; cbn; congruence. Qed.

Lemma digits2_bounds (m : positive) :
  2 ^ (Z.pos (digits2_pos m) - 1) <= Z.pos m < 2 ^ Z.pos (digits2_pos m).
Proof.
  rewrite digits2_size. split.
  - pose proof (Pos.size_le m) as H.
    assert (2 ^ Z.pos (Pos.size m) <= 2 * Z.pos m) as H'.
    { change (2 * Z.pos m) with (Z.pos m~0). rewrite <- Pos2Z.inj_pow. exact H. } 
    replace (Z.pos (Pos.size m)) with (Z.succ (Z.pos (Pos.size m) - 1)) in H' by lia.
    rewrite Z.pow_succ_r in H' by lia. lia.
  - pose proof (Pos.size_gt m) as H. rewrite <- Pos2Z.inj_pow. exact H.
Qed.

Lemma shr_1_m (mrs : shr_record) : 0 <= shr_m mrs -> shr_m (shr_1 mrs) = shr_m mrs / 2.
Proof.
  destruct mrs as [m r s]. cbn [shr_m]. intro H.
  destruct m as [|[p|p|]|p]; cbn [shr_1 shr_m]; try lia;
    (apply Z.div_unique with (r := 0); lia)
    || (apply Z.div_unique with (r := 1); lia).
Qed.

Lemma iter_pos_shr_m (p : positive) : forall mrs,
  0 <= shr_m mrs -> shr_m (SpecFloat.iter_pos shr_1 p mrs) = shr_m mrs / 2 ^ Z.pos p.
Proof.
  induction p as [p IH|p IH|]; intros mrs H; cbn [SpecFloat.iter_pos].
  - assert (0 <= shr_m (shr_1 mrs)) as H1 by (rewrite shr_1_m by lia; apply Z.div_pos; lia).
    assert (0 <= shr_m (SpecFloat.iter_pos shr_1 p (shr_1 mrs))) as H2
      by (rewrite IH by lia; apply Z.div_pos; lia).
    rewrite IH, IH, shr_1_m by lia.
    rewrite !Z.div_div by lia. f_equal.
    change (Z.pos p~1) with (2 * Z.pos p + 1). rewrite Z.pow_add_r, Z.pow_mul_r by lia.
    change (2 ^ 2) with 4. change (2 ^ 1) with 2. 
    replace (4 ^ Z.pos p) with (2 ^ Z.pos p * 2 ^ Z.pos p).
    + ring.
    + rewrite <- Z.pow_add_r by lia. replace (Z.pos p + Z.pos p) with (2 * Z.pos p) by lia.
      rewrite Z.pow_mul_r by lia. reflexivity.
  - assert (0 <= shr_m (SpecFloat.iter_pos shr_1 p mrs)) as H2
      by (rewrite IH by lia; apply Z.div_pos; lia).
    rewrite IH, IH by lia. rewrite Z.div_div by lia. f_equal.
    change (Z.pos p~0) with (2 * Z.pos p). 
    rewrite <- Z.pow_add_r by lia. f_equal. lia.
  - rewrite shr_1_m by lia. reflexivity.
Qed.

Lemma shr_record_of_loc_m (m : Z) (l : location) : shr_m (shr_record_of_loc m l) = m.
Proof. destruct l as [|[]]; reflexivity. Qed.

Lemma emin_value : SpecFloat.emin prec emax = -1074.
Proof. reflexivity. Qed.

(** Above the least exponent, rounding a positive mantissa to the format
    leaves a positive mantissa, at an exponent that is still above it. *)
Lemma shr_fexp_pos (m e : Z) (l : location) :
  0 < m -> -1074 <= e ->
  0 < shr_m (fst (shr_fexp prec emax m e l)) /\ -1074 <= snd (shr_fexp prec emax m e l).
Proof.
  intros Hm He. unfold shr_fexp, shr.
  destruct m as [|mp|mp]; try lia. cbn [Zdigits2].
  pose proof (digits2_bounds mp) as [Hlo _].
  set (d := Z.pos (digits2_pos mp)) in *.
  assert (1 <= d) as Hd by (unfold d; lia).
  unfold SpecFloat.fexp. rewrite emin_value. change prec with 53.
  destruct (Z.max (d + e - 53) (-1074) - e) as [|n|n] eqn:En; cbn [fst snd];
    rewrite ?shr_record_of_loc_m; try lia.
  rewrite iter_pos_shr_m by (rewrite shr_record_of_loc_m; lia).
  rewrite shr_record_of_loc_m. split; [ | lia].
  apply Z.div_str_pos. split; [apply Z.pow_pos_nonneg; lia | ].
  transitivity (2 ^ (d - 1)); [ | exact Hlo].
  apply Z.pow_le_mono_r; lia.
Qed.

Lemma round_nearest_even_pos (m : Z) (l : location) : 0 < m -> 0 < round_nearest_even m l.
Proof.
  intro H. unfold round_nearest_even. destruct l as [|[]]; try lia.
  destruct (Z.even m); lia.
Qed.

Lemma binary_round_aux_sign (s : bool) (m e : Z) (l : location) :
  0 < m -> -1074 <= e -> same_sign_nonzero s (binary_round_aux prec emax s m e l).
Proof.
  intros Hm He. unfold binary_round_aux.
  destruct (shr_fexp_pos m e l Hm He) as [H1 H2].
  destruct (shr_fexp prec emax m e l) as [mrs' e']. cbn [fst snd] in H1, H2.
  pose proof (round_nearest_even_pos (shr_m mrs') (loc_of_shr_record mrs') H1) as H3.
  destruct (shr_fexp_pos _ e' loc_Exact H3 H2) as [H4 H5].
  destruct (shr_fexp prec emax _ e' loc_Exact) as [mrs'' e'']. cbn [fst snd] in H4, H5.
  destruct (shr_m mrs'') as [|p|p]; try lia.
  destruct (e'' <=? emax - prec); reflexivity.
Qed.

Lemma binary_round_sign (s : bool) (m : positive) (e : Z) :
  -1074 <= e -> same_sign_nonzero s (binary_round prec emax s m e).
Proof.
  intro He. unfold binary_round.
  destruct (shl_align m e (SpecFloat.fexp prec emax (Z.pos (digits2_pos m) + e))) as [mz ez] eqn:E.
  apply binary_round_aux_sign; [lia | ].
  unfold shl_align in E.
  destruct (SpecFloat.fexp prec emax (Z.pos (digits2_pos m) + e) - e) eqn:E'; injection E as <- <-;
    try assumption.
  unfold SpecFloat.fexp. rewrite emin_value. lia.
Qed.

(** The sign of a rounded integer multiple of [2^e], for [e] above the least
    exponent: nothing rounds to zero. *)
Lemma binary_normalize_pos (D e : Z) :
  -1074 <= e ->
  SFltb (S754_zero false) (binary_normalize prec emax D e false) = (0 <? D).
Proof.
  intro He. unfold binary_normalize. destruct D as [|p|p].
  - reflexivity.
  - pose proof (binary_round_sign false p e He) as H.
    destruct (binary_round prec emax false p e) as [?| ?| |? ? ?]; cbn in H; try tauto;
      subst; reflexivity.
  - pose proof (binary_round_sign true p e He) as H.
    destruct (binary_round prec emax true p e) as [?| ?| |? ? ?]; cbn in H; try tauto;
      subst; reflexivity.
Qed.

(** A valid finite value: its exponent is above the least one, its mantissa
    has at most 53 bits, and exactly 53 above the least exponent. *)
Lemma bounded_facts (m : positive) (e : Z) :
  bounded prec emax m e = true ->
  -1074 <= e /\ Z.pos m < 2 ^ 53 /\ (-1074 < e -> 2 ^ 52 <= Z.pos m).
Proof.
  unfold bounded, canonical_mantissa, SpecFloat.fexp. rewrite emin_value. change prec with 53.
  intros [H _]%andb_true_iff. apply Z.eqb_eq in H.
  pose proof (digits2_bounds m) as [Hlo Hhi].
  set (d := Z.pos (digits2_pos m)) in *.
  assert (1 <= d) as Hd by (unfold d; lia).
  split; [lia | ]. split.
  - eapply Z.lt_le_trans; [exact Hhi | ]. apply Z.pow_le_mono_r; lia.
  - intro He. assert (d = 53) as Hd53 by lia. rewrite Hd53 in Hlo. exact Hlo.
Qed.

Lemma ltb_true_intro (a b : Z) : a < b -> (a <? b) = true.
Proof. apply Z.ltb_lt. Qed.

Lemma ltb_false_intro (a b : Z) : b <= a -> (a <? b) = false.
Proof. apply Z.ltb_ge. Qed.

(** Two valid finite values compare like their mantissas aligned on the
    smaller exponent. *)
Lemma aligned_compare (sx : bool) (mx : positive) (ex : Z) (sy : bool) (my : positive) (ey : Z) :
  bounded prec emax mx ex = true -> bounded prec emax my ey = true ->
  (0 <? cond_Zopp sx (Z.pos (fst (shl_align mx ex (Z.min ex ey))))
        - cond_Zopp sy (Z.pos (fst (shl_align my ey (Z.min ex ey)))))
  = SFltb (S754_finite sy my ey) (S754_finite sx mx ex).
Proof.
  intros Bx By.
  apply bounded_facts in Bx as (Ex & Hx & Nx), By as (Ey & Hy & Ny).
  rewrite !shl_align_value by lia.
  unfold SFltb, SFcompare. rewrite Pos.compare_cont_spec. cbn [Pos.switch_Eq].
  change (2 ^ 53) with 9007199254740992 in *.
  change (2 ^ 52) with 4503599627370496 in *.
  destruct (Z.compare_spec ey ex) as [E|L|G].
  - subst ey. rewrite Z.min_id, Z.sub_diag, Z.pow_0_r, !Z.mul_1_r.
    destruct (Pos.compare_spec my mx) as [E|L|G]; destruct sx, sy; cbn [cond_Zopp CompOpp];
      (apply ltb_true_intro || apply ltb_false_intro); lia.
  - rewrite Z.min_r by lia. rewrite Z.sub_diag, Z.pow_0_r, Z.mul_1_r.
    assert (2 <= 2 ^ (ex - ey)) as HP
      by (change 2 with (2 ^ 1) at 1; apply Z.pow_le_mono_r; lia).
    specialize (Nx ltac:(lia)).
    assert (9007199254740992 <= Z.pos mx * 2 ^ (ex - ey)) as HA by nia.
    destruct sx, sy; cbn [cond_Zopp];
      (apply ltb_true_intro || apply ltb_false_intro); lia.
  - rewrite Z.min_l by lia. rewrite Z.sub_diag, Z.pow_0_r, Z.mul_1_r.
    assert (2 <= 2 ^ (ey - ex)) as HP
      by (change 2 with (2 ^ 1) at 1; apply Z.pow_le_mono_r; lia).
    specialize (Ny ltac:(lia)).
    assert (9007199254740992 <= Z.pos my * 2 ^ (ey - ex)) as HA by nia.
    destruct sx, sy; cbn [cond_Zopp];
      (apply ltb_true_intro || apply ltb_false_intro); lia.
Qed.

(** On valid numbers, [x - y] is positive exactly when [y < x]. *)
Lemma SFsub_pos (x y : spec_float) :
  SpecFloat.valid_binary prec emax x = true -> SpecFloat.valid_binary prec emax y = true ->
  SFis_nan x = false -> SFis_nan y = false ->
  SFltb (S754_zero false) (SF64sub x y) = SFltb y x.
Proof.
  intros Vx Vy Nx Ny.
  destruct x as [sx|sx| |sx mx ex], y as [sy|sy| |sy my ey]; try discriminate;
    try (destruct sx; try destruct sy; reflexivity);
    try (destruct sy; try destruct sx; reflexivity).
  cbn in Vx, Vy. unfold SF64sub, SFsub.
  rewrite binary_normalize_pos.
  - now apply aligned_compare.
  - apply bounded_facts in Vx as (Ex & _), Vy as (Ey & _). lia.
Qed.

(** On numbers, the comparator [x - y] is positive exactly when [y < x]. *)
Lemma sub_pos_ltb (x y : float) :
  JS.is_nan x = false -> JS.is_nan y = false ->
  (0 <? x - y)%float = (y <? x)%float.
Proof.
  intros Nx Ny. rewrite !FloatAxioms.ltb_spec, FloatAxioms.sub_spec.
  change (Prim2SF 0) with (S754_zero false).
  rewrite is_nan_SF in Nx, Ny.
  apply SFsub_pos; try apply Prim2SF_valid; assumption.
Qed.

End FloatDifference.

(* ===================================================================== *)
(** * The entity normalizer *)
(* ===================================================================== *)

Section Normalizer.
Import JS DVFScraper.
Local Open Scope float_scope.

Lemma ltb_negb_leb (x y : float) :
  is_nan x = false -> is_nan y = false -> (x <? y) = negb (y <=? x).
Proof.
  intros Hx Hy. destruct (x <? y) eqn:E.
  - destruct (y <=? x) eqn:E'; [ | reflexivity].
    apply (ltb_false_leb x y Hx Hy) in E'. congruence.
  - apply (ltb_false_leb x y Hx Hy) in E. now rewrite E.
Qed.

(** The guard of [mutationToProperty] on numbers is the interval test. *)
Lemma bounds_guard (p s : float) :
  is_nan p = false -> is_nan s = false ->
  (p <? 10000) || (50000000 <? p) || (s <? 9) || (1000 <? s) = negb (in_bounds p s).
Proof.
  intros Hp Hs. unfold in_bounds.
  rewrite (ltb_negb_leb p 10000), (ltb_negb_leb 50000000 p),
    (ltb_negb_leb s 9), (ltb_negb_leb 1000 s) by (assumption || reflexivity).
  destruct (10000 <=? p), (p <=? 50000000), (9 <=? s), (s <=? 1000); reflexivity.
Qed.

Lemma mutationToProperty_falsy (d : Draw) (m : Mutation) :
  truthy (valeur_fonciere m) = false \/ truthy (surface_reelle_bati m) = false ->
  mutationToProperty d m = None.
Proof.
  unfold mutationToProperty. intros [-> | ->]; cbn; [reflexivity | ].
  now rewrite orb_true_r.
Qed.

(** What an accepted record's entity holds. *)
Lemma mutationToProperty_Some (d : Draw) (m : Mutation) (e : Property) :
  mutationToProperty d m = Some e ->
  truthy (valeur_fonciere m) = true /\ truthy (surface_reelle_bati m) = true
  /\ price e = parseFloat (valeur_fonciere m)
  /\ surface e = parseFloat (surface_reelle_bati m)
  /\ pricePerSqm e = Math_round (price e / surface e)
  /\ region e = getRegionFromDepartement (code_departement m)
  /\ externalId e =
       ("DVF_" ++ text_or (id_mutation m) (Integer_toString (date_now d))
          ++ "_" ++ random_suffix d)%string.
Proof.
  unfold mutationToProperty.
  destruct (truthy (valeur_fonciere m)); [ | discriminate].
  destruct (truthy (surface_reelle_bati m)); [ | discriminate]. cbn [negb orb].
  destruct (_ || _ || _ || _); [discriminate | ].
  intro H. injection H as <-. cbn. repeat split.
Qed.

(** C2 (amended). A record is dropped as soon as its price or its surface
    is absent or otherwise falsy; when both are present and parse to
    numbers, it is dropped exactly when the price is outside
    [10000, 50000000] or the surface outside [9, 1000], and otherwise an
    entity is produced that carries the parsed values unchanged. *)
Theorem mutationToProperty_decision (d : Draw) (m : Mutation) :
  (truthy (valeur_fonciere m) = false \/ truthy (surface_reelle_bati m) = false ->
   mutationToProperty d m = None)
  /\ (truthy (valeur_fonciere m) = true ->
      truthy (surface_reelle_bati m) = true ->
      is_nan (parseFloat (valeur_fonciere m)) = false ->
      is_nan (parseFloat (surface_reelle_bati m)) = false ->
      if in_bounds (parseFloat (valeur_fonciere m)) (parseFloat (surface_reelle_bati m))
      then exists e, mutationToProperty d m = Some e
                     /\ price e = parseFloat (valeur_fonciere m)
                     /\ surface e = parseFloat (surface_reelle_bati m)
      else mutationToProperty d m = None).
Proof.
  split; [apply mutationToProperty_falsy | ].
  intros Hp Hs Np Ns. unfold mutationToProperty. rewrite Hp, Hs. cbn [negb orb].
  rewrite (bounds_guard _ _ Np Ns).
  destruct (in_bounds _ _); cbn [negb]; [ | reflexivity].
  eexists. split; [reflexivity | ]. split; reflexivity.
Qed.

Lemma mutationToProperty_decision_witness :
  mutationToProperty Samples.draw1 Samples.sale_without_price = None
  /\ exists e, mutationToProperty Samples.draw1 Samples.paris_sale = Some e
               /\ price e = 450000 /\ surface e = 62.
Proof.
  split.
  - apply (proj1 (mutationToProperty_decision Samples.draw1 Samples.sale_without_price)).
    left. reflexivity.
  - exact (proj2 (mutationToProperty_decision Samples.draw1 Samples.paris_sale)
             eq_refl eq_refl eq_refl eq_refl).
Defined.

(** C2, as the specification words it, fails: a record with a surface and
    no price is dropped, although its fields are not both absent, nothing
    fails to parse and nothing is out of range. *)
Lemma normalizer_contract_fails : ~ Spec.normalizer_contract.
Proof.
  intro H. destruct (H Samples.draw1 Samples.sale_without_price) as [H1 _].
  specialize (H1 eq_refl). vm_compute in H1. discriminate.
Qed.

(** A price that is text without a number parses to NaN, which no bound
    test catches: the record is accepted and its entity carries NaN. *)
Lemma unreadable_price_is_accepted :
  exists e, mutationToProperty Samples.draw1 Samples.sale_with_unreadable_price = Some e
            /\ is_nan (price e) = true /\ is_nan (pricePerSqm e) = true.
Proof. eexists. split; [reflexivity | ]. split; reflexivity. Qed.

(** C3. An accepted record's [pricePerSqm] is [Math.round(price / surface)]
    of its parsed price and surface, whatever the call reads from the clock
    and the random source; with both in bounds it is what
    [calculatePricePerSqm] returns. *)
Theorem pricePerSqm_is_rounded_quotient (d : Draw) (m : Mutation) (e : Property) :
  mutationToProperty d m = Some e ->
  pricePerSqm e =
    Math_round (parseFloat (valeur_fonciere m) / parseFloat (surface_reelle_bati m))
  /\ (forall d' e', mutationToProperty d' m = Some e' -> pricePerSqm e' = pricePerSqm e)
  /\ (in_bounds (price e) (surface e) = true ->
      Helpers.calculatePricePerSqm (price e) (surface e) = Some (pricePerSqm e)).
Proof.
  intro H. apply mutationToProperty_Some in H as (_ & _ & Hp & Hs & Hq & _).
  split; [now rewrite Hq, Hp, Hs | ]. split.
  - intros d' e' H'. apply mutationToProperty_Some in H' as (_ & _ & Hp' & Hs' & Hq' & _).
    now rewrite Hq, Hq', Hp, Hp', Hs, Hs'.
  - unfold in_bounds. rewrite !andb_true_iff. intros [[[B1 B2] B3] B4].
    unfold Helpers.calculatePricePerSqm, truthy_num.
    destruct (leb_not_nan _ _ B1) as [_ Np]. destruct (leb_not_nan _ _ B3) as [_ Ns].
    rewrite Np, Ns.
    rewrite (ltb_leb_neq 0 10000 (price e) eq_refl B1).
    rewrite (ltb_leb_neq 0 9 (surface e) eq_refl B3). cbn. now rewrite Hq.
Qed.

Lemma pricePerSqm_is_rounded_quotient_witness :
  exists e, mutationToProperty Samples.draw1 Samples.paris_sale = Some e
            /\ pricePerSqm e = 7258.
Proof.
  eexists. split; [reflexivity | ].
  exact (proj1 (pricePerSqm_is_rounded_quotient Samples.draw1 Samples.paris_sale _ eq_refl)).
Defined.

End Normalizer.

(* ===================================================================== *)
(** * Region derivation and the deduplication key *)
(* ===================================================================== *)

Section RegionAndKey.
Import JS DVFScraper.

Lemma regions_values_not_empty :
  map_Forall (fun _ r => String.eqb r "" = false) regions.
Proof.
  unfold regions.
  repeat (apply map_Forall_insert_2; [reflexivity | ]).
  apply map_Forall_empty.
Qed.

(** C9 (amended). The entity's region is looked up from the department
    code; with the department absent, or a code that is neither in the table
    nor the name of a member every object inherits, it is "France". *)
Theorem region_fallback_is_France (d : Draw) (m : Mutation) (e : Property) :
  mutationToProperty d m = Some e ->
  (code_departement m = None -> region e = Text "France")
  /\ (forall k, code_departement m = Some k -> regions !! k = None ->
        is_prototype_member k = false -> region e = Text "France")
  /\ (forall k r, code_departement m = Some k -> regions !! k = Some r ->
        region e = Text r).
Proof.
  intro H. apply mutationToProperty_Some in H as (_ & _ & _ & _ & _ & -> & _).
  unfold getRegionFromDepartement, get_or. repeat split.
  - now intros ->.
  - intros k -> -> ->. reflexivity.
  - intros k r -> Hk. rewrite Hk.
    now rewrite (regions_values_not_empty k r Hk).
Qed.

Lemma region_fallback_is_France_witness :
  exists e, mutationToProperty Samples.draw1 Samples.sale_with_unreadable_price = Some e
            /\ region e = Text "France".
Proof.
  eexists. split; [reflexivity | ].
  exact (proj1 (region_fallback_is_France Samples.draw1
                  Samples.sale_with_unreadable_price _ eq_refl) eq_refl).
Defined.

(** C9, as the specification words it, fails: the fallback is not
    "unknown". *)
Lemma region_fallback_is_not_unknown : ~ Spec.region_fallback_unknown.
Proof.
  intro H. specialize (H None I). vm_compute in H. discriminate.
Qed.

(** A code that names an inherited member finds that member, not a region. *)
Lemma region_of_inherited_name :
  getRegionFromDepartement (Some "constructor"%string) = Inherited "constructor".
Proof. reflexivity. Qed.

(** Two calls on one record give keys that differ as soon as their random
    draws differ (and, for a record without identifier, the clock agrees). *)
Lemma externalId_follows_the_draw (d1 d2 : Draw) (m : Mutation) (p1 p2 : Property) :
  mutationToProperty d1 m = Some p1 ->
  mutationToProperty d2 m = Some p2 ->
  truthy_text (id_mutation m) = true \/ date_now d1 = date_now d2 ->
  random_suffix d1 <> random_suffix d2 ->
  externalId p1 <> externalId p2.
Proof.
  intros H1 H2 Hid Hr.
  apply mutationToProperty_Some in H1 as (_ & _ & _ & _ & _ & _ & ->).
  apply mutationToProperty_Some in H2 as (_ & _ & _ & _ & _ & _ & ->).
  assert (text_or (id_mutation m) (Integer_toString (date_now d1))
          = text_or (id_mutation m) (Integer_toString (date_now d2))) as ->.
  { destruct Hid as [Hid | ->]; [ | reflexivity].
    unfold text_or, truthy_text in *. destruct (id_mutation m) as [s|]; [ | discriminate].
    destruct (String.eqb s ""); [discriminate | reflexivity]. }
  intro E. apply Hr.
  do 3 apply String.app_inj in E. exact E.
Qed.

(** C1 fails on the code. One raw record, ingested by two runs over the same
    source data: the first run stores one row, the second adds a second row
    for the same record, because the key ends in a fresh random suffix. *)
Theorem reingestion_duplicates_the_row :
  size (snd (scrapeAll Samples.run1 1700000001000 ∅)) = 1%nat
  /\ size (snd (scrapeAll Samples.run2 1700021601000
                  (snd (scrapeAll Samples.run1 1700000001000 ∅)))) = 2%nat
  /\ dom (snd (scrapeAll Samples.run2 1700021601000
                 (snd (scrapeAll Samples.run1 1700000001000 ∅))))
     = {[ "DVF_2023-1187_k3x9q0a7b"%string; "DVF_2023-1187_z81mfp2cd"%string ]}.
Proof. vm_compute. repeat split. Qed.

(** The key is not a function of the raw record. *)
Lemma externalId_is_not_stable : ~ Spec.stable_externalId.
Proof.
  intro H.
  specialize (H Samples.draw1 Samples.draw2 Samples.paris_sale _ _ eq_refl eq_refl).
  vm_compute in H. discriminate.
Qed.


End RegionAndKey.

(* ===================================================================== *)
(** * Bulk persistence *)
(* ===================================================================== *)

Section Persistence.
Import DVFScraper.

Lemma upsert_keeps_keys (date : Z) (prop : Property) (t : Table) (k : string) :
  is_Some (t !! k) -> is_Some (upsert date prop t !! k).
Proof.
  intro H. unfold upsert.
  destruct (t !! externalId prop); rewrite lookup_insert_is_Some; 
    destruct (decide (externalId prop = k)); auto.
Qed.

Lemma upsert_stores_key (date : Z) (prop : Property) (t : Table) :
  is_Some (upsert date prop t !! externalId prop).
Proof.
  unfold upsert. destruct (t !! externalId prop); rewrite lookup_insert_eq; eauto.
Qed.

Lemma saveLoop_keeps_keys (o : Oracle) (properties : list Property) :
  forall (n : nat) (st : SaveState) (k : string),
    is_Some (table st !! k) -> is_Some (table (saveLoop o n properties st) !! k).
Proof.
  induction properties as [|prop rest IH]; intros n st k H; cbn [saveLoop]; [exact H | ].
  apply IH. destruct (upsert_throws o n); cbn; [exact H | ].
  now apply upsert_keeps_keys.
Qed.

(** The loop issues one upsert per entity, whatever the earlier ones did, and
    counts each exactly once. *)
Lemma saveLoop_accounts (o : Oracle) (properties : list Property) :
  forall (n : nat) (st : SaveState),
    attempted (saveLoop o n properties st)
      = attempted st ++ List.map externalId properties
    /\ (saved (saveLoop o n properties st) + errors (saveLoop o n properties st)
        = saved st + errors st + List.length properties)%nat
    /\ (errors (saveLoop o n properties st)
        = errors st
          + List.length (List.filter (upsert_throws o) (List.seq n (List.length properties))))%nat
    /\ (forall i p, properties !! i = Some p -> upsert_throws o (n + i) = false ->
          is_Some (table (saveLoop o n properties st) !! externalId p)).
Proof.
  induction properties as [|prop rest IH]; intros n st; cbn [saveLoop].
  - cbn. rewrite app_nil_r. repeat split; try lia. intros i p H. discriminate.
  - destruct (IH (S n)
        (if upsert_throws o n
         then {| table := table st; saved := saved st; errors := S (errors st);
                 attempted := attempted st ++ [externalId prop] |}
         else {| table := upsert (upsert_date o n) prop (table st);
                 saved := S (saved st); errors := errors st;
                 attempted := attempted st ++ [externalId prop] |}))
      as (A & B & C & D).
    repeat split.
    + rewrite A. destruct (upsert_throws o n); cbn; now rewrite <- app_assoc.
    + rewrite B. destruct (upsert_throws o n); cbn; lia.
    + rewrite C. cbn [List.length List.seq List.filter].
      destruct (upsert_throws o n); cbn; lia.
    + intros [|i] p Hp Hi.
      * injection Hp as ->. rewrite Nat.add_0_r in Hi. rewrite Hi.
        apply saveLoop_keeps_keys. cbn. apply upsert_stores_key.
      * apply (D i p Hp). now rewrite <- Nat.add_succ_comm in Hi.
Qed.

(** C6. [saveProperties] issues an upsert keyed by [externalId] for every
    entity, in order, whether or not earlier upserts throw; a throwing upsert
    adds one to [errors], every other one stores its key and adds one to
    [saved]; so [saved + errors] is the number of entities, and the summary of
    [scrapeAll] has [saved + errors = total]. *)
Theorem saveProperties_accounts_for_every_entity
    (o : Oracle) (finished : Z) (properties : list Property) (t : Table) :
  attempted (saveProperties o properties t) = List.map externalId properties
  /\ (saved (saveProperties o properties t) + errors (saveProperties o properties t)
      = List.length properties)%nat
  /\ errors (saveProperties o properties t)
     = List.length (List.filter (upsert_throws o) (List.seq 0 (List.length properties)))
  /\ (forall i p, properties !! i = Some p -> upsert_throws o i = false ->
        is_Some (table (saveProperties o properties t) !! externalId p))
  /\ match fst (scrapeAll o finished t) with
     | Ok summary => (s_saved summary + s_errors summary = s_total summary)%nat
     | Throw _ => True
     end.
Proof.
  unfold saveProperties.
  destruct (saveLoop_accounts o properties 0
              {| table := t; saved := 0; errors := 0; attempted := [] |})
    as (A & B & C & D).
  repeat split; try assumption.
  unfold scrapeAll. destruct (scrapeYears o annees 0 []) as [[n total]|e]; cbn; [ | exact I].
  unfold saveProperties.
  destruct (saveLoop_accounts o total 0
              {| table := t; saved := 0; errors := 0; attempted := [] |})
    as (_ & B' & _). exact B'.
Qed.

(** A store that refuses the second of two writes: one saved, one error. *)
Example flaky_store_counts :
  let r := saveProperties Samples.flaky_store
             (convert Samples.run1 0 [Samples.paris_sale]
              ++ convert Samples.run2 0 [Samples.paris_sale]) ∅ in
  (saved r, errors r, attempted r)
  = (1%nat, 1%nat, ["DVF_2023-1187_k3x9q0a7b"; "DVF_2023-1187_z81mfp2cd"]%string).
Proof. vm_compute. reflexivity. Qed.

End Persistence.

(* ===================================================================== *)
(** * Failed fetches and failed runs *)
(* ===================================================================== *)

Section Failures.
Import DVFScraper Scheduler.

(** The [catch] of [scrapeDepartement]: a failed request is an empty list. *)
Lemma scrapeDepartement_catches (o : Oracle) (dep : string) (annee : Z) :
  fails (http_get o dep annee) = true -> scrapeDepartement o dep annee = Array [].
Proof.
  unfold scrapeDepartement. now destruct (http_get o dep annee) as [msg|[]].
Qed.

Lemma scrapeDepartement_failures_as_empty (o : Oracle) (dep : string) (annee : Z) :
  scrapeDepartement (failures_as_empty o) dep annee = scrapeDepartement o dep annee.
Proof.
  unfold scrapeDepartement, failures_as_empty; cbn.
  now destruct (http_get o dep annee) as [msg|[]].
Qed.

Lemma convert_failures_as_empty (o : Oracle) (mutations : list Mutation) :
  forall n, convert (failures_as_empty o) n mutations = convert o n mutations.
Proof.
  induction mutations as [|m rest IH]; intro n; cbn; [reflexivity | ].
  now rewrite IH.
Qed.

Lemma scrapeYear_failures_as_empty (o : Oracle) (annee : Z) (deps : list string) :
  forall n total,
    scrapeYear (failures_as_empty o) annee deps n total = scrapeYear o annee deps n total.
Proof.
  induction deps as [|dep rest IH]; intros n total; cbn [scrapeYear]; [reflexivity | ].
  rewrite scrapeDepartement_failures_as_empty.
  destruct (scrapeDepartement o dep annee) as [elements|]; [ | reflexivity].
  destruct (records elements); [ | reflexivity].
  now rewrite convert_failures_as_empty, IH.
Qed.

Lemma scrapeYears_failures_as_empty (o : Oracle) (years : list Z) :
  forall n total,
    scrapeYears (failures_as_empty o) years n total = scrapeYears o years n total.
Proof.
  induction years as [|annee rest IH]; intros n total; cbn [scrapeYears]; [reflexivity | ].
  rewrite scrapeYear_failures_as_empty.
  destruct (scrapeYear o annee DEPARTEMENTS n total) as [[n' total']|e]; [ | reflexivity].
  apply IH.
Qed.

Lemma saveLoop_failures_as_empty (o : Oracle) (properties : list Property) :
  forall n st, saveLoop (failures_as_empty o) n properties st = saveLoop o n properties st.
Proof.
  induction properties as [|p rest IH]; intros n st; cbn [saveLoop]; [reflexivity | ].
  now rewrite IH.
Qed.

Lemma convert_app (o : Oracle) (l1 l2 : list Mutation) :
  forall n, convert o n (l1 ++ l2) = convert o n l1 ++ convert o (n + List.length l1) l2.
Proof.
  induction l1 as [|m rest IH]; intro n; cbn [app convert List.length].
  - now rewrite Nat.add_0_r.
  - rewrite IH. replace (S n + List.length rest)%nat with (n + S (List.length rest))%nat by lia.
    now destruct (mutationToProperty (draws o n) m).
Qed.

Lemma convert_length (o : Oracle) (l : list Mutation) :
  forall n, (List.length (convert o n l) <= List.length l)%nat.
Proof.
  induction l as [|m rest IH]; intro n; cbn [convert List.length]; [lia | ].
  specialize (IH (S n)). destruct (mutationToProperty (draws o n) m); cbn [List.length]; lia.
Qed.

Lemma records_recordsOf (elements : list (option Mutation)) (ms : list Mutation) :
  records elements = Some ms -> recordsOf elements = ms.
Proof.
  revert ms. induction elements as [|[m|] rest IH]; intros ms; cbn [records].
  - now intros [= <-].
  - destruct (records rest) as [ms'|]; [ | discriminate]. intros [= <-].
    unfold recordsOf in *. cbn. now rewrite (IH ms').
  - discriminate.
Qed.

Lemma records_None (elements : list (option Mutation)) :
  records elements = None <-> In None elements.
Proof.
  induction elements as [|[m|] rest IH]; cbn [records].
  - split; [discriminate | intros []].
  - destruct (records rest) as [ms|].
    + split; [discriminate | ]. intros [H | H]; [discriminate | ].
      now apply IH in H.
    + split; [ | reflexivity]. intros _. right. now apply IH.
  - split; [ | reflexivity]. intros _. now left.
Qed.

Lemma firstError_app (o : Oracle) (l1 l2 : list (Z * string)) :
  firstError o (l1 ++ l2)
  = match firstError o l1 with
    | Some e => Some e
    | None => firstError o l2
    end.
Proof.
  induction l1 as [|[annee dep] rest IH]; cbn [app firstError]; [reflexivity | ].
  now destruct (mapError (scrapeDepartement o dep annee)).
Qed.

Lemma fetchedFrom_app (o : Oracle) (l1 l2 : list (Z * string)) :
  fetchedFrom o (l1 ++ l2) = fetchedFrom o l1 ++ fetchedFrom o l2.
Proof. apply List.flat_map_app. Qed.

(** One year of the loop, in terms of its requests. *)
Lemma scrapeYear_spec (o : Oracle) (annee : Z) (deps : list string) :
  forall (n : nat) (total : list Property),
    scrapeYear o annee deps n total
    = match firstError o (List.map (fun dep => (annee, dep)) deps) with
      | Some e => Throw e
      | None =>
          Ok ((n + List.length
                     (fetchedFrom o (List.map (fun dep => (annee, dep)) deps)))%nat,
              total ++ convert o n
                         (fetchedFrom o (List.map (fun dep => (annee, dep)) deps)))
      end.
Proof.
  induction deps as [|dep rest IH]; intros n total; cbn [scrapeYear List.map firstError].
  - cbn. now rewrite Nat.add_0_r, app_nil_r.
  - change (fetchedFrom o ((annee, dep) :: List.map (fun dep => (annee, dep)) rest))
      with (match scrapeDepartement o dep annee with
            | Array elements => recordsOf elements
            | Other => []
            end ++ fetchedFrom o (List.map (fun dep => (annee, dep)) rest)).
    destruct (scrapeDepartement o dep annee) as [elements|]; cbn [mapError];
      [ | reflexivity].
    destruct (records elements) as [ms|] eqn:R; [ | reflexivity].
    rewrite IH. destruct (firstError o _); [reflexivity | ].
    rewrite (records_recordsOf _ _ R), convert_app, List.length_app, app_assoc, Nat.add_assoc.
    reflexivity.
Qed.

Lemma scrapeYears_spec (o : Oracle) (years : list Z) :
  forall (n : nat) (total : list Property),
    scrapeYears o years n total
    = match firstError o
              (List.flat_map (fun annee => List.map (fun dep => (annee, dep)) DEPARTEMENTS)
                 years) with
      | Some e => Throw e
      | None =>
          Ok ((n + List.length
                     (fetchedFrom o
                        (List.flat_map
                           (fun annee => List.map (fun dep => (annee, dep)) DEPARTEMENTS)
                           years)))%nat,
              total ++ convert o n
                         (fetchedFrom o
                            (List.flat_map
                               (fun annee => List.map (fun dep => (annee, dep)) DEPARTEMENTS)
                               years)))
      end.
Proof.
  induction years as [|annee rest IH]; intros n total; cbn [scrapeYears List.flat_map].
  - cbn. now rewrite Nat.add_0_r, app_nil_r.
  - rewrite scrapeYear_spec, firstError_app, fetchedFrom_app.
    destruct (firstError o (List.map _ DEPARTEMENTS)); [reflexivity | ].
    rewrite IH. destruct (firstError o _); [reflexivity | ].
    rewrite convert_app, List.length_app, app_assoc, Nat.add_assoc. reflexivity.
Qed.

(** [scrapeAll], in terms of the requests of the run. *)
Lemma scrapeAll_spec (o : Oracle) (finished : Z) (t : Table) :
  scrapeAll o finished t
  = match rejection o with
    | Some e => (Throw e, t)
    | None =>
        (Ok {| s_total := List.length (convert o 0 (fetched o));
               s_saved := saved (saveProperties o (convert o 0 (fetched o)) t);
               s_errors := errors (saveProperties o (convert o 0 (fetched o)) t);
               s_scrapedAt := finished |},
         table (saveProperties o (convert o 0 (fetched o)) t))
    end.
Proof.
  unfold scrapeAll, rejection, fetched. rewrite scrapeYears_spec. fold partitions.
  now destruct (firstError o partitions).
Qed.

(** What the run reads of a request is what the source answered. *)
Lemma fetchedFrom_served (o : Oracle) (requests : list (Z * string)) :
  fetchedFrom o requests
  = List.flat_map
      (fun '(annee, dep) =>
         match http_get o dep annee with
         | Response (Results elements) => recordsOf elements
         | _ => []
         end)
      requests.
Proof.
  unfold fetchedFrom. apply List.flat_map_ext. intros [annee dep].
  unfold scrapeDepartement. now destruct (http_get o dep annee) as [msg|[]].
Qed.

Lemma readable_records (elements : list (option Mutation)) :
  List.forallb (fun e => match e with Some _ => true | None => false end) elements = true ->
  records elements <> None.
Proof.
  intros H Hn. apply records_None in Hn.
  apply (proj1 (List.forallb_forall _ _) H) in Hn. discriminate.
Qed.

(** No readable answer makes the run throw. *)
Lemma readable_firstError (o : Oracle) (requests : list (Z * string)) :
  (forall annee dep, In (annee, dep) requests -> readable (http_get o dep annee) = true) ->
  firstError o requests = None.
Proof.
  induction requests as [|[annee dep] rest IH]; intro H; cbn [firstError]; [reflexivity | ].
  rewrite IH by (intros a d Hin; apply H; now right).
  specialize (H annee dep (or_introl eq_refl)).
  unfold scrapeDepartement, readable in *.
  destruct (http_get o dep annee) as [msg|[|elements|]]; cbn; try reflexivity;
    [ | discriminate].
  apply readable_records in H. now destruct (records elements).
Qed.

(** With every request failing, a year collects nothing and goes on to the end. *)
Lemma scrapeYear_all_fail (o : Oracle) (annee : Z) (deps : list string) :
  (forall dep annee, fails (http_get o dep annee) = true) ->
  forall n total, scrapeYear o annee deps n total = Ok (n, total).
Proof.
  intro H. induction deps as [|dep rest IH]; intros n total; cbn [scrapeYear]; [reflexivity | ].
  rewrite (scrapeDepartement_catches o dep annee (H dep annee)). cbn.
  now rewrite Nat.add_0_r, app_nil_r, IH.
Qed.

Lemma scrapeYears_all_fail (o : Oracle) (years : list Z) :
  (forall dep annee, fails (http_get o dep annee) = true) ->
  forall n total, scrapeYears o years n total = Ok (n, total).
Proof.
  intro H. induction years as [|annee rest IH]; intros n total; cbn [scrapeYears];
    [reflexivity | ].
  now rewrite (scrapeYear_all_fail o annee DEPARTEMENTS H), IH.
Qed.

(** C5. A failed request is caught inside [scrapeDepartement] and counts as
    an empty page: the run is the one it would have been had the failed
    partitions answered with no record. Whichever requests fail, a run whose
    other requests are answered with readable payloads resolves, and what it
    converts and saves is every record the source served, for all the
    partitions that answered, in request order: the partitions after a
    failed one are fetched and ingested all the same. When every request
    fails, [runScraping] from an idle scheduler still returns a summary,
    with nothing saved, and leaves the scheduler idle and the table as it
    was. *)
Theorem failed_fetches_do_not_abort
    (o : Oracle) (finished date : Z) (s : State) (t : Table) :
  (forall dep annee, fails (http_get o dep annee) = true ->
     scrapeDepartement o dep annee = Array [])
  /\ scrapeAll o finished t = scrapeAll (failures_as_empty o) finished t
  /\ ((forall annee dep, In (annee, dep) partitions ->
         readable (http_get o dep annee) = true) ->
      scrapeAll o finished t
      = (Ok {| s_total := List.length (convert o 0 (served o));
               s_saved := saved (saveProperties o (convert o 0 (served o)) t);
               s_errors := errors (saveProperties o (convert o 0 (served o)) t);
               s_scrapedAt := finished |},
         table (saveProperties o (convert o 0 (served o)) t))
      /\ forall annee dep elements m,
           In (annee, dep) partitions ->
           http_get o dep annee = Response (Results elements) ->
           In (Some m) elements ->
           In m (served o))
  /\ (isRunning s = false ->
      (forall dep annee, fails (http_get o dep annee) = true) ->
      exists summary s',
        runScraping o finished date s t = (s', t, Some summary)
        /\ s_total summary = 0%nat /\ s_saved summary = 0%nat
        /\ s_errors summary = 0%nat
        /\ isRunning s' = false /\ lastResult s' = Some summary).
Proof.
  split; [intros dep annee; apply scrapeDepartement_catches | ]. split; [ | split].
  - unfold scrapeAll. rewrite scrapeYears_failures_as_empty.
    destruct (scrapeYears o annees 0 []) as [[n total]|e]; [ | reflexivity].
    unfold saveProperties. now rewrite saveLoop_failures_as_empty.
  - intro Hread. split.
    + rewrite scrapeAll_spec. unfold rejection. rewrite (readable_firstError o _ Hread).
      unfold fetched. rewrite fetchedFrom_served. reflexivity.
    + intros annee dep elements m Hin Hget Hm. unfold served.
      apply List.in_flat_map. exists (annee, dep). split; [exact Hin | ].
      rewrite Hget. unfold recordsOf. apply List.in_flat_map.
      exists (Some m). split; [exact Hm | now left].
  - intros Hidle Hfail. unfold runScraping, runScraping_enter. rewrite Hidle.
    unfold scrapeAll. rewrite (scrapeYears_all_fail o annees Hfail). cbn.
    eexists. eexists. repeat split.
Qed.

Lemma failed_fetches_do_not_abort_witness :
  (exists summary s',
     runScraping Samples.source_down 1700000001000 1700000001001 init ∅
       = (s', ∅, Some summary)
     /\ s_total summary = 0%nat /\ s_saved summary = 0%nat
     /\ s_errors summary = 0%nat
     /\ isRunning s' = false /\ lastResult s' = Some summary)
  /\ scrapeAll Samples.paris_down_in_2023 1700000001000 ∅
     = (Ok {| s_total := List.length
                           (convert Samples.paris_down_in_2023 0
                              (served Samples.paris_down_in_2023));
              s_saved := saved (saveProperties Samples.paris_down_in_2023
                                  (convert Samples.paris_down_in_2023 0
                                     (served Samples.paris_down_in_2023)) ∅);
              s_errors := errors (saveProperties Samples.paris_down_in_2023
                                    (convert Samples.paris_down_in_2023 0
                                       (served Samples.paris_down_in_2023)) ∅);
              s_scrapedAt := 1700000001000 |},
        table (saveProperties Samples.paris_down_in_2023
                 (convert Samples.paris_down_in_2023 0
                    (served Samples.paris_down_in_2023)) ∅))
  /\ In Samples.paris_sale (served Samples.paris_down_in_2023).
Proof.
  split; [ | split].
  - apply (proj2 (proj2 (proj2 (failed_fetches_do_not_abort Samples.source_down
                                  1700000001000 1700000001001 init ∅)))).
    + reflexivity.
    + intros dep annee. reflexivity.
  - apply (proj1 (proj2 (proj2 (failed_fetches_do_not_abort Samples.paris_down_in_2023
                                  1700000001000 1700000001001 init ∅)))).
    intros annee dep _. cbn. destruct (String.eqb dep "75"); [ | reflexivity].
    now destruct (annee =? 2023).
  - vm_compute. now left.
Defined.

(** The first request of the run fails, a later one is served: the run goes
    on and saves what it got. *)
Example failed_partition_is_skipped :
  fst (scrapeAll Samples.paris_down_in_2023 1700000001000 ∅)
  = Ok {| s_total := 1; s_saved := 1; s_errors := 0; s_scrapedAt := 1700000001000 |}.
Proof. vm_compute. reflexivity. Qed.

(** C10. When [scrapeAll] rejects, [runScraping] returns [null], leaves
    [lastRun] and [lastResult] as they were, so [getStatus] reports what the
    last completed run recorded, and clears the flag; when it resolves, from
    an idle scheduler, the two fields take the new date and summary. *)
Theorem failed_run_keeps_last_result
    (o : Oracle) (finished date hours : Z) (s : State) (t t' : Table) (message : string) :
  isRunning s = false ->
  scrapeAll o finished t = (Throw message, t') ->
  snd (runScraping o finished date s t) = None
  /\ lastRun (fst (fst (runScraping o finished date s t))) = lastRun s
  /\ lastResult (fst (fst (runScraping o finished date s t))) = lastResult s
  /\ isRunning (fst (fst (runScraping o finished date s t))) = false
  /\ getStatus hours (fst (fst (runScraping o finished date s t))) = getStatus hours s
  /\ (forall o2 finished2 date2 summary t2,
        scrapeAll o2 finished2 t = (Ok summary, t2) ->
        snd (runScraping o2 finished2 date2 s t) = Some summary
        /\ lastRun (fst (fst (runScraping o2 finished2 date2 s t))) = Some date2
        /\ lastResult (fst (fst (runScraping o2 finished2 date2 s t))) = Some summary).
Proof.
  intros Hidle Hthrow. unfold runScraping, runScraping_enter. rewrite Hidle, Hthrow. cbn.
  repeat split.
  - unfold getStatus; cbn. now rewrite Hidle.
  - rewrite H; reflexivity.
  - rewrite H; reflexivity.
  - rewrite H; reflexivity.
Qed.

Lemma failed_run_keeps_last_result_witness :
  snd (runScraping Samples.source_malformed 1700000001000 1700000001001 init ∅) = None
  /\ lastRun (fst (fst (runScraping Samples.source_malformed
                          1700000001000 1700000001001 init ∅))) = None
  /\ lastResult (fst (fst (runScraping Samples.source_malformed
                             1700000001000 1700000001001 init ∅))) = None.
Proof.
  destruct (failed_run_keeps_last_result Samples.source_malformed
              1700000001000 1700000001001 0 init ∅ ∅
              "TypeError: mutations.map is not a function" eq_refl eq_refl)
    as (A & B & C & _).
  exact (conj A (conj B C)).
Defined.

(** A run that is ignored because another one is in flight also returns
    [null] and changes nothing. *)
Lemma ignored_run_changes_nothing
    (o : Oracle) (finished date : Z) (s : State) (t : Table) :
  isRunning s = true -> runScraping o finished date s t = (s, t, None).
Proof. intro H. unfold runScraping, runScraping_enter. now rewrite H. Qed.

End Failures.

(* ===================================================================== *)
(** * The single-flight guard *)
(* ===================================================================== *)

Section SingleFlight.
Import DVFScraper Scheduler.

Lemma boot_flag_counts_runs : flag_counts_runs boot.
Proof. reflexivity. Qed.

Lemma step_flag_counts_runs (sys : System) (ev : Event) :
  flag_counts_runs sys -> flag_counts_runs (fst (step sys ev)).
Proof.
  unfold flag_counts_runs. destruct sys as [s n]; cbn. intro H.
  destruct ev as [[|hours]|outcome date]; cbn.
  - revert H. unfold runScraping_enter.
    destruct (isRunning s) eqn:E; cbn; rewrite ?E; lia.
  - revert H. unfold post_scrape, runScraping_enter; cbn.
    destruct (isRunning s) eqn:E; cbn; rewrite ?E; lia.
  - destruct n as [|n]; cbn; [exact H | ].
    revert H. destruct (isRunning s); [ | discriminate].
    intro H. injection H as ->. now destruct outcome.
Qed.

Lemma run_cons (sys : System) (ev : Event) (evs : list Event) :
  run sys (ev :: evs)
  = (fst (run (fst (step sys ev)) evs), snd (step sys ev) :: snd (run (fst (step sys ev)) evs)).
Proof.
  cbn [run]. destruct (step sys ev) as [sys1 obs]. cbn [fst snd].
  destruct (run sys1 evs) as [sys2 more]. reflexivity.
Qed.

Lemma run_flag_counts_runs (evs : list Event) :
  forall sys, flag_counts_runs sys -> flag_counts_runs (fst (run sys evs)).
Proof.
  induction evs as [|ev rest IH]; intros sys H; [exact H | ].
  rewrite run_cons. cbn [fst]. apply IH. now apply step_flag_counts_runs.
Qed.

(** While a run is in flight, a trigger changes nothing and is reported. *)
Lemma trigger_while_running (sys : System) (tr : Trigger) :
  isRunning (sched sys) = true ->
  fst (step sys (Fire tr)) = sys
  /\ already_running (snd (step sys (Fire tr))) = true.
Proof.
  destruct sys as [s n]; cbn. intro H.
  destruct tr as [|hours]; cbn; unfold post_scrape, runScraping_enter; cbn; rewrite H; cbn;
    now rewrite Nat.add_0_r.
Qed.

Lemma burst_while_running (burst : list Trigger) (sys : System) :
  isRunning (sched sys) = true ->
  fst (run sys (List.map Fire burst)) = sys
  /\ List.forallb already_running (snd (run sys (List.map Fire burst))) = true.
Proof.
  intro H. induction burst as [|tr rest IH]; [now split | ].
  cbn [List.map]. rewrite run_cons. cbn [fst snd List.forallb].
  destruct (trigger_while_running sys tr H) as [-> ->]. exact IH.
Qed.

(** From idle, a trigger starts a run. *)
Lemma trigger_while_idle (sys : System) (tr : Trigger) :
  isRunning (sched sys) = false ->
  isRunning (sched (fst (step sys (Fire tr)))) = true
  /\ inflight (fst (step sys (Fire tr))) = S (inflight sys)
  /\ starts_run (snd (step sys (Fire tr))) = true.
Proof.
  destruct sys as [s n]; cbn. intro H.
  destruct tr as [|hours]; cbn; unfold post_scrape, runScraping_enter; cbn; rewrite H; cbn;
    repeat split; lia.
Qed.

Lemma forallb_already_running_no_start (obs : list Observed) :
  List.forallb already_running obs = true ->
  List.length (List.filter starts_run obs) = 0%nat
  /\ List.length (List.filter already_running obs) = List.length obs.
Proof.
  induction obs as [|x rest IH]; [now split | ]. cbn [List.forallb].
  intros [Hx Hr]%andb_true_iff. destruct (IH Hr) as [A B].
  cbn [List.filter]. rewrite Hx. destruct x; try discriminate; cbn; split; congruence.
Qed.

(** Settling leaves no run in flight. *)
Lemma settle_clears (sys : System) (outcome : res Summary) (date : Z) :
  flag_counts_runs sys -> inflight (fst (run sys [Settle outcome date])) = 0%nat.
Proof.
  unfold flag_counts_runs. intro Inv. cbn.
  destruct (inflight sys) as [|n] eqn:E; [exact E | ].
  revert Inv. destruct (isRunning (sched sys)); [ | discriminate].
  intro Inv. injection Inv as ->. now destruct outcome.
Qed.

(** C4. In every reachable state at most one run is in flight, and the flag
    is set exactly then. Whatever triggers arrive next, timer or manual, in
    any number: while a run is in flight each of them is reported as already
    running (the logged warning, or the 409 reply) and changes nothing;
    from idle the first one starts the run and every other one is reported.
    Nothing is kept for later: once the run settles, no run is in flight. *)
Theorem single_flight
    (history : list Event) (burst : list Trigger) (outcome : res Summary) (date : Z) :
  (inflight (fst (run boot history)) <= 1)%nat
  /\ isRunning (sched (fst (run boot history)))
     = Nat.eqb (inflight (fst (run boot history))) 1
  /\ (inflight (fst (run (fst (run boot history)) (List.map Fire burst))) <= 1)%nat
  /\ List.length
       (List.filter starts_run (snd (run (fst (run boot history)) (List.map Fire burst))))
     = (if isRunning (sched (fst (run boot history))) then 0%nat
        else Nat.min 1 (List.length burst))
  /\ (List.length
        (List.filter starts_run (snd (run (fst (run boot history)) (List.map Fire burst))))
      + List.length
          (List.filter already_running
             (snd (run (fst (run boot history)) (List.map Fire burst))))
      = List.length burst)%nat
  /\ (if isRunning (sched (fst (run boot history)))
      then fst (run (fst (run boot history)) (List.map Fire burst)) = fst (run boot history)
      else True)
  /\ inflight
       (fst (run (fst (run (fst (run boot history)) (List.map Fire burst)))
               [Settle outcome date])) = 0%nat.
Proof.
  pose proof (run_flag_counts_runs history boot boot_flag_counts_runs) as Inv.
  set (sys := fst (run boot history)) in *.
  pose proof (run_flag_counts_runs (List.map Fire burst) sys Inv) as Inv'.
  set (after := run sys (List.map Fire burst)) in *.
  assert ((inflight sys <= 1)%nat
          /\ isRunning (sched sys) = Nat.eqb (inflight sys) 1) as [I1 I2].
  { unfold flag_counts_runs in Inv. rewrite Inv. destruct (isRunning (sched sys)); split;
      (lia || reflexivity). }
  assert ((inflight (fst after) <= 1)%nat) as I3.
  { unfold flag_counts_runs in Inv'. rewrite Inv'.
    destruct (isRunning (sched (fst after))); lia. }
  split; [exact I1 | ]. split; [exact I2 | ]. split; [exact I3 | ].
  destruct (isRunning (sched sys)) eqn:Hrun.
  - destruct (burst_while_running burst sys Hrun) as [Hsame Hall].
    fold after in Hsame, Hall.
    destruct (forallb_already_running_no_start _ Hall) as [A B].
    assert (List.length (snd after) = List.length burst) as L.
    { subst after. clear. generalize sys. induction burst as [|tr rest IH]; intro s0;
        [reflexivity | ]. cbn [List.map]. rewrite run_cons. cbn. now rewrite IH. }
    repeat split; try assumption; try (now apply settle_clears).
    rewrite A, B. exact L.
  - destruct burst as [|tr rest].
    + repeat split; try assumption; try (now apply settle_clears).
    + subst after. cbn [List.map] in *. rewrite run_cons in *. cbn [fst snd] in *.
      destruct (trigger_while_idle sys tr Hrun) as (R1 & R2 & R3).
      destruct (burst_while_running rest (fst (step sys (Fire tr))) R1) as [Hsame Hall].
      destruct (forallb_already_running_no_start _ Hall) as [A B].
      assert (List.length (snd (run (fst (step sys (Fire tr))) (List.map Fire rest)))
              = List.length rest) as L.
      { clear. generalize (fst (step sys (Fire tr))).
        induction rest as [|tr' rest IH]; intro s0; [reflexivity | ].
        cbn [List.map]. rewrite run_cons. cbn. now rewrite IH. }
      cbn [List.filter List.length]. rewrite R3.
      assert (already_running (snd (step sys (Fire tr))) = false) as N.
      { destruct (snd (step sys (Fire tr))); try discriminate; reflexivity. }
      rewrite N. cbn [List.length]. rewrite A, B, L.
      repeat split; try assumption; try lia; now apply settle_clears.
Qed.

(** The timer fires, then three manual requests and the timer again arrive
    before the run settles. *)
Example five_triggers_one_run :
  snd (run boot [Fire Timer; Fire (Manual 12); Fire (Manual 12); Fire Timer;
                 Fire (Manual 12); Settle (Throw "down") 1700000000000; Fire (Manual 13)])
  = [RunStarted; Replied409; Replied409; LoggedIgnored; Replied409;
     RunSettled None; Replied202].
Proof. reflexivity. Qed.

End SingleFlight.

(* ===================================================================== *)
(** * Sorting with a numeric comparator *)
(* ===================================================================== *)

Section Sorting.
Import JS.
Context {A : Type}.

Lemma sort_insert_perm (compareFn : A -> A -> number) (x : A) (l : list A) :
  Permutation (sort_insert compareFn x l) (x :: l).
Proof.
  induction l as [|y t IH]; cbn [sort_insert]; [reflexivity | ].
  destruct (0 <? compareFn y x)%float; [reflexivity | ].
  rewrite IH. apply perm_swap.
Qed.

Lemma Array_sort_perm (compareFn : A -> A -> number) (l : list A) :
  Permutation (Array_sort compareFn l) l.
Proof.
  unfold Array_sort.
  assert (forall acc,
            Permutation (fold_left (fun acc x => sort_insert compareFn x acc) l acc)
              (acc ++ l)) as H.
  { induction l as [|x t IH]; intro acc; cbn [fold_left].
    - now rewrite app_nil_r.
    - rewrite IH, sort_insert_perm. apply Permutation_middle. }
  exact (H []).
Qed.

Variable key : A -> number.

Lemma ascending_cons (a : number) (l : list number) :
  ascending (a :: l)
  <-> match l with
      | h :: _ => (a <=? h)%float = true
      | [] => True
      end /\ ascending l.
Proof. reflexivity. Qed.

Lemma ascending_tail (a : number) (l : list number) : ascending (a :: l) -> ascending l.
Proof. now intros [_ H]. Qed.

Lemma ascending_head (a : number) (l : list number) :
  ascending (a :: l) -> Forall (fun x => (a <=? x)%float = true) l.
Proof.
  revert a. induction l as [|b t IH]; intros a H; [constructor | ].
  destruct H as [Hab Ht]. constructor; [exact Hab | ].
  eapply List.Forall_impl; [ | exact (IH b Ht)].
  intros x Hx. eapply leb_trans; eassumption.
Qed.

Lemma ascending_middle (l1 : list number) (m : number) (l2 : list number) :
  ascending (l1 ++ m :: l2) ->
  Forall (fun x => (x <=? m)%float = true) l1
  /\ Forall (fun x => (m <=? x)%float = true) l2.
Proof.
  induction l1 as [|a t IH]; cbn [app]; intro H.
  - split; [constructor | now apply ascending_head].
  - destruct (IH (ascending_tail _ _ H)) as [H1 H2]. split; [ | exact H2].
    constructor; [ | exact H1].
    apply ascending_head in H. apply List.Forall_forall with (x := m) in H; [exact H | ].
    apply List.in_or_app. right. now left.
Qed.

(** In an ascending list, an element is at most every later one. *)
Lemma ascending_pair (l1 : list number) (x : number) (l2 : list number) (y : number)
    (l3 : list number) :
  ascending (l1 ++ x :: l2 ++ y :: l3) -> (x <=? y)%float = true.
Proof.
  intro H. apply ascending_middle in H as [_ H].
  apply (proj1 (List.Forall_forall _ _) H). apply List.in_or_app. right. now left.
Qed.

Lemma sort_insert_ascending (x : A) (l : list A) :
  is_nan (key x) = false ->
  Forall (fun y => is_nan (key y) = false) l ->
  ascending (List.map key l) ->
  ascending (List.map key (sort_insert (fun a b => (key a - key b)%float) x l)).
Proof.
  intros Nx Nl. induction Nl as [|y t Ny Nt IH]; intro Hl; cbn [sort_insert List.map].
  - cbn. tauto.
  - rewrite (sub_pos_ltb (key y) (key x) Ny Nx).
    destruct (key x <? key y)%float eqn:E.
    + cbn [List.map]. apply ascending_cons. split; [now apply ltb_leb | exact Hl].
    + apply (ltb_false_leb _ _ Nx Ny) in E.
      cbn [List.map] in Hl. apply ascending_cons in Hl as [Hhd Ht].
      apply ascending_cons. split; [ | now apply IH].
      destruct t as [|z t']; cbn [sort_insert List.map]; [exact E | ].
      destruct (0 <? key z - key x)%float; cbn [List.map]; assumption.
Qed.

Lemma sort_insert_Forall (P : A -> Prop) (compareFn : A -> A -> number) (x : A) (l : list A) :
  P x -> Forall P l -> Forall P (sort_insert compareFn x l).
Proof.
  intros Hx Hl. eapply Permutation_Forall; [symmetry; apply sort_insert_perm | ].
  now constructor.
Qed.

(** Sorting numbers (no NaN among them) by [a - b] gives ascending order. *)
Lemma Array_sort_ascending (l : list A) :
  Forall (fun y => is_nan (key y) = false) l ->
  ascending (List.map key (Array_sort (fun a b => (key a - key b)%float) l)).
Proof.
  unfold Array_sort. intro Hl.
  assert (forall acc,
            Forall (fun y => is_nan (key y) = false) acc ->
            ascending (List.map key acc) ->
            ascending
              (List.map key
                 (fold_left (fun acc x => sort_insert (fun a b => (key a - key b)%float) x acc)
                    l acc))) as H.
  { induction Hl as [|x t Nx Nt IH]; intros acc Nacc Hacc; cbn [fold_left]; [exact Hacc | ].
    apply IH.
    - now apply sort_insert_Forall.
    - now apply sort_insert_ascending. }
  apply H; [constructor | exact I].
Qed.

End Sorting.

(* ===================================================================== *)
(** * The price histogram *)
(* ===================================================================== *)

Section Histogram.
Import JS Stats.

(** C7 fails on the code. Two stored prices, seven buckets: the upper bound
    of the last bucket, [min + 7 * ((max - min) / 7)], rounds to a value
    below [max], so the largest price is counted in no bucket and the
    counts add up to 1 for 2 prices. *)
Theorem histogram_drops_the_maximum :
  List.map count (priceDistribution Samples.two_prices 7) = [1; 0; 0; 0; 0; 0; 0]%nat
  /\ totalCount (priceDistribution Samples.two_prices 7) = 1%nat
  /\ List.length Samples.two_prices = 2%nat
  /\ (28988 + 7 * ((4090930 - 28988) / 7) <? 4090930)%float = true.
Proof. vm_compute. repeat split. Qed.

(** With the default ten buckets the same two prices are all counted. *)
Example histogram_ten_buckets :
  List.map count (priceDistribution Samples.two_prices 10)
  = [1; 0; 0; 0; 0; 0; 0; 0; 0; 1]%nat.
Proof. vm_compute. reflexivity. Qed.

(** The example of the specification: three prices, five buckets. *)
Example histogram_three_prices :
  List.map (fun b => (range_min b, range_max b, count b, percentage b))
    (priceDistribution [520000; 500000; 600000]%float 5)
  = [ (500000, 520000, 1%nat, 33.3); (520000, 540000, 1%nat, 33.3);
      (540000, 560000, 0%nat, 0); (560000, 580000, 0%nat, 0);
      (580000, 600000, 1%nat, 33.3) ]%float.
Proof. vm_compute. reflexivity. Qed.

End Histogram.

(* ===================================================================== *)
(** * The geo-radius search *)
(* ===================================================================== *)

Section GeoRadius.
Import JS Search.

Lemma In_firstn {A : Type} (n : nat) (l : list A) (x : A) :
  In x (List.firstn n l) -> In x l.
Proof.
  intro H. rewrite <- (List.firstn_skipn n l). apply in_or_app. now left.
Qed.

Lemma In_skipn {A : Type} (n : nat) (l : list A) (x : A) :
  In x (List.skipn n l) -> In x l.
Proof.
  intro H. rewrite <- (List.firstn_skipn n l). apply in_or_app. now right.
Qed.

Variable M : MathLib.

(** The query returns stored rows that satisfy its [where] clause. *)
Lemma findMany_subset (b : Body) (rows : list Stored) (p : Stored) :
  In p (findMany M b rows) -> In p rows /\ in_box M b p = true.
Proof.
  unfold findMany. intro H. apply List.filter_In.
  destruct (0 <=? take b); [eapply In_firstn | eapply In_skipn]; eassumption.
Qed.

(** [take] caps the query, before any distance is computed. *)
Lemma findMany_length (b : Body) (rows : list Stored) :
  0 <= take b -> (List.length (findMany M b rows) <= Z.to_nat (take b))%nat.
Proof.
  intro H. unfold findMany. apply Z.leb_le in H. rewrite H.
  apply List.firstn_le_length.
Qed.

(** The handler's result, up to order. *)
Lemma geo_perm (b : Body) (rows : list Stored) :
  Permutation (geo M b rows)
    (List.filter (fun r => (distanceKm r <=? radiusKm b)%float)
       (List.map (withDistance M b) (findMany M b rows))).
Proof. apply Array_sort_perm. Qed.

Lemma geo_In (b : Body) (rows : list Stored) (r : Result) :
  In r (geo M b rows)
  <-> exists p, In p (findMany M b rows) /\ r = withDistance M b p
                /\ (distanceKm r <=? radiusKm b)%float = true.
Proof.
  split.
  - intro H. apply (Permutation_in _ (geo_perm b rows)) in H.
    apply List.filter_In in H as [H1 H2]. apply List.in_map_iff in H1 as (p & <- & Hp).
    now exists p.
  - intros (p & Hp & -> & Hd).
    apply (Permutation_in _ (Permutation_sym (geo_perm b rows))).
    apply List.filter_In. split; [ | exact Hd].
    apply List.in_map. exact Hp.
Qed.

(** What the handler compares is the reported distance, the computed one
    rounded to two decimals: it keeps the rows whose reported distance is at
    most [radiusKm], in ascending order of reported distance. *)
Lemma geo_by_reported_distance (b : Body) (rows : list Stored) :
  (forall r, In r (geo M b rows) ->
             (distanceKm r <=? radiusKm b)%float = true
             /\ (radiusKm b <? distanceKm r)%float = false)
  /\ ascending (List.map distanceKm (geo M b rows)).
Proof.
  split.
  - intros r H. apply geo_In in H as (p & Hp & -> & Hd). split; [exact Hd | ].
    destruct (leb_not_nan _ _ Hd) as [N1 N2]. now apply ltb_false_leb.
  - unfold geo. apply (Array_sort_ascending distanceKm).
    apply List.Forall_forall. intros r Hr. apply List.filter_In in Hr as [_ Hr].
    now apply leb_not_nan in Hr.
Qed.

(** The rounding lets a row through that is beyond the radius, when its
    distance rounds to the radius or less. *)
Lemma row_beyond_the_radius_is_kept (b : Body) (rows : list Stored) (p : Stored) :
  In p (findMany M b rows) ->
  (radiusKm b <? distance M b p)%float = true ->
  (distanceKm (withDistance M b p) <=? radiusKm b)%float = true ->
  In p (List.map row (geo M b rows)).
Proof.
  intros Hp _ Hd. apply List.in_map_iff. exists (withDistance M b p).
  split; [reflexivity | ]. apply geo_In. now exists p.
Qed.

(** C8 (amended). Among the rows the box query returns (the stored rows
    inside the box that match the filters, cut to [limit] rows, 20 by
    default, before any distance is computed): a row at computed distance 0
    is in the result for every positive radius; every row of the result was
    returned by the query; a returned row whose distance is greater than
    [radiusKm] is not in the result, and of two rows of the result the
    second is not strictly nearer than the first. The last two are stated
    up to the rounding of the distance to two decimals: nothing is said of
    a row whose distance rounds to [radiusKm] or less, nor of two rows whose
    order the rounding does not keep. The result has at most [limit] rows. *)
Theorem geo_among_the_rows_fetched (b : Body) (rows : list Stored) :
  (forall p, In p (findMany M b rows) -> distance M b p = 0%float ->
             (0 <? radiusKm b)%float = true ->
             In (withDistance M b p) (geo M b rows))
  /\ (forall r, In r (geo M b rows) ->
                In (row r) (findMany M b rows) /\ In (row r) rows
                /\ in_box M b (row r) = true
                /\ r = withDistance M b (row r))
  /\ (forall p, In p (findMany M b rows) ->
                (radiusKm b <? distance M b p)%float = true ->
                (radiusKm b <? distanceKm (withDistance M b p))%float = true ->
                ~ In p (List.map row (geo M b rows)))
  /\ (forall l1 x l2 y l3,
        geo M b rows = l1 ++ x :: l2 ++ y :: l3 ->
        ((distance M b (row y) <? distance M b (row x))%float = true ->
         (distanceKm y <? distanceKm x)%float = true) ->
        (distance M b (row y) <? distance M b (row x))%float = false)
  /\ (0 <= take b -> (List.length (geo M b rows) <= Z.to_nat (take b))%nat).
Proof.
  split; [ | split; [ | split; [ | split]]].
  - intros p Hp Hd Hr. apply geo_In. exists p. repeat split; [exact Hp | ].
    unfold withDistance; cbn [distanceKm]. rewrite Hd.
    change (Math_round (0 * 100) / 100)%float with 0%float. now apply ltb_leb.
  - intros r H. apply geo_In in H as (p & Hp & -> & _). cbn [row].
    destruct (findMany_subset _ _ _ Hp) as [H1 H2]. repeat split; assumption.
  - intros p Hp _ Hfar Hin. apply List.in_map_iff in Hin as (r & <- & Hr).
    destruct (proj1 (geo_by_reported_distance b rows) r Hr) as [_ Hle].
    apply geo_In in Hr as (q & _ & -> & _).
    unfold withDistance in *. cbn [row distanceKm] in *. congruence.
  - intros l1 x l2 y l3 E Hkeep.
    pose proof (proj2 (geo_by_reported_distance b rows)) as Hasc.
    rewrite E, List.map_app in Hasc. cbn [List.map] in Hasc.
    rewrite List.map_app in Hasc. cbn [List.map] in Hasc.
    apply ascending_pair in Hasc.
    destruct (leb_not_nan _ _ Hasc) as [Nx Ny].
    apply (ltb_false_leb _ _ Ny Nx) in Hasc.
    destruct (distance M b (row y) <? distance M b (row x))%float; [ | reflexivity].
    rewrite Hkeep in Hasc by reflexivity. discriminate.
  - intro Ht. rewrite (Permutation_length (geo_perm b rows)).
    etransitivity; [apply List.filter_length_le | ].
    rewrite List.length_map. now apply findMany_length.
Qed.

End GeoRadius.

Section GeoRadiusSamples.
Import JS Search.

(** Twenty-one flats at the searched point, default limit: the result holds
    twenty rows, all at distance 0, and the twenty-first flat is not one of
    them. *)
Lemma building_search :
  List.map (fun r => id (row r))
    (geo Samples.small_angle Samples.around_the_building Samples.building)
  = List.seq 1 20
  /\ List.forallb (fun r => (distanceKm r =? 0)%float)
       (geo Samples.small_angle Samples.around_the_building Samples.building) = true.
Proof. vm_compute. split; reflexivity. Qed.

(** C8, as the specification words it, fails: a stored row at distance 0
    that the query's cut leaves out is not in the result. *)
Lemma geo_radius_contract_fails : ~ Spec.geo_radius_contract.
Proof.
  intro H.
  destruct (H Samples.small_angle Samples.around_the_building Samples.building eq_refl)
    as [H1 _].
  specialize (H1 (Samples.flat 21)).
  assert (In (Samples.flat 21) Samples.building) as Hin.
  { apply List.in_map. apply List.in_seq. lia. }
  specialize (H1 Hin eq_refl eq_refl).
  apply List.in_map_iff in H1 as (r & Hr & Hin').
  assert (id (row r) = 21%nat) as Hid by now rewrite Hr.
  assert (In (id (row r))
            (List.map (fun r => id (row r))
               (geo Samples.small_angle Samples.around_the_building Samples.building)))
    as Hin''.
  { apply List.in_map_iff. now exists r. }
  rewrite (proj1 building_search), Hid in Hin''.
  apply List.in_seq in Hin''. lia.
Qed.

(** With the small-angle stand-in for [Math]: a flat 0.045 degree north of
    the centre is a little more than 5 km away, its distance is reported as
    5, and a search of 5 km returns it. *)
Example row_at_5004_m_is_kept :
  (5 <? distance Samples.small_angle Samples.around_the_building
          (north_of_the_centre 1 48.9016))%float = true
  /\ List.map (fun r => (id (row r), distanceKm r))
       (geo Samples.small_angle Samples.around_the_building
          [north_of_the_centre 1 48.9016%float])
     = [(1%nat, 5%float)].
Proof. vm_compute. split; reflexivity. Qed.

(** Two flats whose distances are both reported as 1: the result keeps
    them in the order of the store, the farther one first. *)
Example farther_row_comes_first :
  (distance Samples.small_angle Samples.around_the_building
     (north_of_the_centre 2 48.86561)
   <? distance Samples.small_angle Samples.around_the_building
        (north_of_the_centre 1 48.86562))%float = true
  /\ List.map (fun r => (id (row r), distanceKm r))
       (geo Samples.small_angle Samples.around_the_building
          [north_of_the_centre 1 48.86562%float; north_of_the_centre 2 48.86561%float])
     = [(1%nat, 1%float); (2%nat, 1%float)].
Proof. vm_compute. split; reflexivity. Qed.

Lemma geo_among_the_rows_fetched_witness :
  In (withDistance Samples.small_angle Samples.around_the_building (Samples.flat 1))
    (geo Samples.small_angle Samples.around_the_building Samples.building).
Proof.
  apply (proj1 (geo_among_the_rows_fetched Samples.small_angle
                  Samples.around_the_building Samples.building) (Samples.flat 1)).
  - vm_compute. left. reflexivity.
  - reflexivity.
  - reflexivity.
Defined.

End GeoRadiusSamples.

(* ===================================================================== *)
(** * The helpers: postal codes, truncation, retry *)
(* ===================================================================== *)

Section UtilsFacts.
Import JS Utils.

(** A valid postal code is five characters. *)
Lemma isValidPostalCode_shape (code : string) :
  isValidPostalCode code = true ->
  exists a b c d e,
    code = String a (String b (String c (String d (String e EmptyString))))
    /\ is_digit a = true /\ is_digit b = true /\ is_digit c = true
    /\ is_digit d = true /\ is_digit e = true.
Proof.
  unfold isValidPostalCode. intros [Hl Hd]%andb_true_iff. apply Nat.eqb_eq in Hl.
  destruct code as [|a [|b [|c [|d [|e [|f r]]]]]]; try discriminate.
  exists a, b, c, d, e. cbn in Hd. rewrite !andb_true_iff in Hd. tauto.
Qed.

(** The department of a valid postal code is its first two characters, or
    its first three for the overseas prefixes 97 and 98, or 2A / 2B for
    Corsica; it is never "20", and it is only given for a valid code. *)
Theorem department_of_postal_code (postalCode d : string) :
  getDepartmentFromPostalCode postalCode = Some d ->
  isValidPostalCode postalCode = true
  /\ d <> "20"%string
  /\ (d = String.substring 0 3 postalCode
      /\ (String.substring 0 2 postalCode = "97"%string
          \/ String.substring 0 2 postalCode = "98"%string)
      \/ (d = "2A"%string \/ d = "2B"%string)
         /\ String.substring 0 2 postalCode = "20"%string
      \/ d = String.substring 0 2 postalCode
         /\ String.substring 0 2 postalCode <> "97"%string
         /\ String.substring 0 2 postalCode <> "98"%string)
  /\ (String.length d = 2%nat \/ String.length d = 3%nat).
Proof.
  unfold getDepartmentFromPostalCode.
  destruct (isValidPostalCode postalCode) eqn:V; [ | discriminate]. cbn [negb].
  destruct (isValidPostalCode_shape _ V) as (a & b & c & e & f & -> & _).
  cbn [String.substring].
  destruct (String.eqb (String a (String b "")) "97") eqn:E97.
  { intro H. injection H as <-. apply String.eqb_eq in E97.
    split; [reflexivity | ]. split; [intro H; inversion H | ].
    split; [left; auto | right; reflexivity]. }
  destruct (String.eqb (String a (String b "")) "98") eqn:E98.
  { intro H. injection H as <-. apply String.eqb_eq in E98.
    split; [reflexivity | ]. split; [intro H; inversion H | ].
    split; [left; auto | right; reflexivity]. }
  cbn [orb]. apply String.eqb_neq in E97, E98.
  destruct (String.eqb (String a (String b "")) "20") eqn:E20.
  - apply String.eqb_eq in E20. intro H. injection H as <-.
    split; [reflexivity | ]. split; [destruct (_ <? _); intro; discriminate | ].
    split; [ | left; now destruct (_ <? _)].
    right. left. split; [ | exact E20]. destruct (_ <? _); auto.
  - apply String.eqb_neq in E20. intro H. injection H as <-.
    split; [reflexivity | ]. split; [exact E20 | ].
    split; [right; right; auto | left; reflexivity].
Qed.

Lemma department_of_postal_code_witness :
  isValidPostalCode "97411" = true /\ String.length "974" = 3%nat.
Proof.
  destruct (department_of_postal_code "97411" "974" eq_refl) as (V & _ & _ & _).
  split; [exact V | reflexivity].
Defined.

(** Corsica: the codes 200xx and 201xx give 2A, every other 20xxx gives 2B. *)
Theorem corsican_departments (c d e : ascii) :
  is_digit c = true -> is_digit d = true -> is_digit e = true ->
  getDepartmentFromPostalCode
    (String "2" (String "0" (String c (String d (String e EmptyString)))))
  = Some (if (nat_of_ascii c <? 50)%nat then "2A"%string else "2B"%string).
Proof.
  intros Hc Hd He. unfold getDepartmentFromPostalCode, isValidPostalCode.
  cbn [String.length list_ascii_of_string List.forallb Nat.eqb].
  rewrite Hc, Hd, He. cbn [andb negb String.substring].
  change (String.eqb "20" "97") with false. change (String.eqb "20" "98") with false.
  change (String.eqb "20" "20") with true. cbn [orb].
  unfold digits_value. cbn [fold_left].
  change (Z.of_nat (nat_of_ascii "2")) with 50. change (Z.of_nat (nat_of_ascii "0")) with 48.
  unfold is_digit in Hc, Hd, He.
  apply andb_true_iff in Hc as [Hc1 Hc2], Hd as [Hd1 Hd2], He as [He1 He2].
  apply Nat.leb_le in Hc1, Hc2, Hd1, Hd2, He1, He2.
  f_equal. destruct (Nat.ltb_spec (nat_of_ascii c) 50) as [L|L].
  - assert ((_ <? 20200) = true) as -> by (apply Z.ltb_lt; lia). reflexivity.
  - assert ((_ <? 20200) = false) as -> by (apply Z.ltb_ge; lia). reflexivity.
Qed.

Lemma corsican_departments_witness :
  getDepartmentFromPostalCode "20190" = Some "2A"%string
  /\ getDepartmentFromPostalCode "20200" = Some "2B"%string.
Proof.
  split.
  - exact (corsican_departments "1" "9" "0" eq_refl eq_refl eq_refl).
  - exact (corsican_departments "2" "0" "0" eq_refl eq_refl eq_refl).
Defined.

(** For a limit of at least 3, the truncated text is never longer than the
    limit; a text within the limit is returned as it is, a longer one
    becomes exactly [maxLength] units ending in three dots; truncating again
    changes nothing. *)
Theorem truncate_within_limit {A : Type} (dot : A) (str : list A) (maxLength : Z) :
  3 <= maxLength ->
  Z.of_nat (List.length (truncate dot str maxLength)) <= maxLength
  /\ (Z.of_nat (List.length str) <= maxLength -> truncate dot str maxLength = str)
  /\ (maxLength < Z.of_nat (List.length str) ->
      truncate dot str maxLength
      = List.firstn (Z.to_nat (maxLength - 3)) str ++ [dot; dot; dot]
      /\ Z.of_nat (List.length (truncate dot str maxLength)) = maxLength)
  /\ truncate dot (truncate dot str maxLength) maxLength = truncate dot str maxLength.
Proof.
  intro H3.
  assert (maxLength < Z.of_nat (List.length str) ->
          truncate dot str maxLength
          = List.firstn (Z.to_nat (maxLength - 3)) str ++ [dot; dot; dot]
          /\ Z.of_nat (List.length (truncate dot str maxLength)) = maxLength) as Hlong.
  { intro Hl. unfold truncate. destruct str as [|x t]; [cbn in Hl; lia | ].
    destruct (Z.leb_spec (Z.of_nat (List.length (x :: t))) maxLength) as [L|L]; [lia | ].
    split; [reflexivity | ].
    rewrite List.length_app, List.length_firstn. cbn [List.length] in *. lia. }
  assert (Z.of_nat (List.length str) <= maxLength -> truncate dot str maxLength = str)
    as Hshort.
  { intro Hl. unfold truncate. destruct str as [|x t]; [reflexivity | ].
    destruct (Z.leb_spec (Z.of_nat (List.length (x :: t))) maxLength) as [L|L];
      [reflexivity | lia]. }
  assert (Z.of_nat (List.length (truncate dot str maxLength)) <= maxLength) as Hlen.
  { destruct (Z.le_gt_cases (Z.of_nat (List.length str)) maxLength) as [L|L].
    - now rewrite Hshort.
    - destruct (Hlong L) as [_ ->]. lia. }
  repeat split; try assumption; try (now apply Hlong).
  unfold truncate at 1.
  destruct (truncate dot str maxLength) as [|x t] eqn:E; [reflexivity | ].
  apply Z.leb_le in Hlen. now rewrite Hlen.
Qed.

Lemma truncate_within_limit_witness :
  truncate "."%char (list_ascii_of_string "Appartement lumineux") 10
  = list_ascii_of_string "Apparte...".
Proof.
  destruct (truncate_within_limit "."%char
              (list_ascii_of_string "Appartement lumineux") 10) as (_ & _ & H & _);
    [lia | ].
  destruct H as [E _]; [cbn; lia | exact E].
Defined.

(** Below 3 the limit is not kept: any non-empty text longer than the limit
    becomes the three dots. *)
Theorem truncate_below_three {A : Type} (dot : A) (str : list A) (maxLength : Z) :
  str <> [] -> maxLength < 3 -> maxLength < Z.of_nat (List.length str) ->
  truncate dot str maxLength = [dot; dot; dot].
Proof.
  intros Hne H3 Hl. unfold truncate. destruct str as [|x t]; [congruence | ].
  destruct (Z.leb_spec (Z.of_nat (List.length (x :: t))) maxLength) as [L|L]; [lia | ].
  replace (Z.to_nat (maxLength - 3)) with 0%nat by lia. reflexivity.
Qed.

Lemma truncate_below_three_witness :
  truncate "."%char (list_ascii_of_string "T2") 1 = list_ascii_of_string "...".
Proof.
  apply truncate_below_three; [discriminate | lia | cbn; lia].
Defined.

(** [retryLoop] over a run of failing calls, all of them followed by a
    sleep. *)
Lemma retryLoop_failures {A : Type} (fn : nat -> res A) (maxRetries : nat) (baseDelay : Z)
    (n : nat) :
  forall (i remaining : nat) (lastError : option string) (done : list Z),
    (forall j, (i <= j < i + n)%nat -> failed (fn j) = true) ->
    (i + n <= maxRetries - 1)%nat ->
    retryLoop fn maxRetries baseDelay (n + remaining) i lastError done
    = retryLoop fn maxRetries baseDelay remaining (i + n)
        (match n with
         | O => lastError
         | S _ => thrown (fn (i + n - 1)%nat)
         end)
        (done ++ List.map (fun j => baseDelay * 2 ^ Z.of_nat j) (List.seq i n)).
Proof.
  induction n as [|n IH]; intros i remaining lastError done Hfail Hle.
  - cbn. now rewrite Nat.add_0_r, app_nil_r.
  - cbn [Nat.add retryLoop].
    pose proof (Hfail i ltac:(lia)) as Hi.
    destruct (fn i) as [a|e] eqn:E; [discriminate | ].
    assert ((i <? maxRetries - 1)%nat = true) as -> by (apply Nat.ltb_lt; lia).
    rewrite IH by (try (intros j Hj; apply Hfail); lia).
    replace (S i + n)%nat with (i + S n)%nat by lia.
    cbn [List.seq List.map]. rewrite <- app_assoc. cbn [app].
    destruct n as [|n']; [ | reflexivity].
    replace (i + 1 - 1)%nat with i by lia. now rewrite E.
Qed.

(** [retry] returns the first success: if the call of iteration [k] (below
    [maxRetries]) succeeds and the earlier ones threw, it returns that
    result after [k + 1] calls, having slept [baseDelay * 2^i] after each
    failure [i < k]. *)
Theorem retry_first_success {A : Type} (fn : nat -> res A) (maxRetries : nat)
    (baseDelay : Z) (k : nat) (a : A) :
  (k < maxRetries)%nat ->
  fn k = Ok a ->
  (forall j, (j < k)%nat -> failed (fn j) = true) ->
  retry fn maxRetries baseDelay
  = {| ended := Returned a; calls := S k;
       slept := List.map (fun j => baseDelay * 2 ^ Z.of_nat j) (List.seq 0 k) |}.
Proof.
  intros Hk Hok Hfail. unfold retry.
  replace maxRetries with (k + S (maxRetries - S k))%nat at 2 by lia.
  rewrite retryLoop_failures by (try (intros j Hj; apply Hfail); lia).
  cbn [Nat.add retryLoop app]. now rewrite Hok.
Qed.

Lemma retry_first_success_witness :
  retry (fun i => if (i <? 2)%nat then Throw "ECONNRESET" else Ok 7%nat) 3 1000
  = {| ended := Returned 7%nat; calls := 3; slept := [1000; 2000] |}.
Proof.
  apply (retry_first_success _ 3 1000 2 7%nat); [lia | reflexivity | ].
  intros j Hj. destruct j as [|[|j]]; [reflexivity | reflexivity | lia].
Defined.

(** When every call throws, [retry] calls [fn] exactly [maxRetries] times,
    sleeps after each failure but the last, and throws the last error; with
    [maxRetries = 0] it calls nothing and throws [undefined]. *)
Theorem retry_exhausted {A : Type} (fn : nat -> res A) (maxRetries : nat) (baseDelay : Z) :
  (forall j, (j < maxRetries)%nat -> failed (fn j) = true) ->
  retry fn maxRetries baseDelay
  = {| ended := Thrown (match maxRetries with
                        | O => None
                        | S m => thrown (fn m)
                        end);
       calls := maxRetries;
       slept := List.map (fun j => baseDelay * 2 ^ Z.of_nat j)
                  (List.seq 0 (maxRetries - 1)) |}.
Proof.
  intro Hfail. unfold retry. destruct maxRetries as [|m]; [reflexivity | ].
  replace (S m) with (m + 1)%nat at 2 by lia.
  rewrite retryLoop_failures by (try (intros j Hj; apply Hfail); lia).
  cbn [Nat.add retryLoop app].
  pose proof (Hfail m ltac:(lia)) as Hm.
  destruct (fn m) as [a|e] eqn:E; [discriminate | ].
  assert ((m <? S m - 1)%nat = false) as -> by (apply Nat.ltb_ge; lia).
  now replace (S m - 1)%nat with m by lia.
Qed.

Lemma retry_exhausted_witness :
  retry (fun _ : nat => @Throw nat "ETIMEDOUT") 3 1000
  = {| ended := Thrown (Some "ETIMEDOUT"%string); calls := 3; slept := [1000; 2000] |}.
Proof.
  apply (retry_exhausted (fun _ : nat => @Throw nat "ETIMEDOUT") 3 1000).
  intros j Hj. reflexivity.
Defined.

End UtilsFacts.

(* ===================================================================== *)
(** * The scheduler over whole histories *)
(* ===================================================================== *)

Section SchedulerFacts.
Import DVFScraper Scheduler.

(** [getNextRun]: from any hour of the day, the next run is at 0, 6, 12 or
    18 o'clock, strictly later than the current hour and at most six hours
    after it; it falls on the next day exactly from 18 o'clock on. *)
Theorem getNextRun_is_the_next_slot (hours : Z) :
  0 <= hours <= 23 ->
  snd (getNextRun hours) mod 6 = 0
  /\ 0 <= snd (getNextRun hours) <= 18
  /\ (fst (getNextRun hours) = true <-> 18 <= hours)
  /\ hours < snd (getNextRun hours) + (if fst (getNextRun hours) then 24 else 0)
     <= hours + 6.
Proof.
  intro H. unfold getNextRun.
  pose proof (Z.div_mod (hours + 1 + 5) 6 ltac:(lia)) as D.
  pose proof (Z.mod_pos_bound (hours + 1 + 5) 6 ltac:(lia)) as B.
  set (q := (hours + 1 + 5) / 6) in *.
  destruct (Z.leb_spec 24 (q * 6)) as [L|L]; cbn [fst snd];
    repeat split; try reflexivity; try lia; try (intro; discriminate).
  apply Z.mod_mul. lia.
Qed.

Lemma getNextRun_is_the_next_slot_witness :
  snd (getNextRun 17) mod 6 = 0
  /\ 0 <= snd (getNextRun 17) <= 18
  /\ (fst (getNextRun 17) = true <-> 18 <= 17)
  /\ 17 < snd (getNextRun 17) + (if fst (getNextRun 17) then 24 else 0) <= 17 + 6.
Proof. apply (getNextRun_is_the_next_slot 17). lia. Defined.

Lemma lastResolved_snoc (obs : list Observed) (o : Observed) :
  lastResolved (obs ++ [o])
  = match o with
    | RunSettled (Some s) => Some s
    | _ => lastResolved obs
    end.
Proof.
  induction obs as [|x rest IH]; cbn [app lastResolved].
  - now destruct o as [| | | |[s|]|].
  - rewrite IH. destruct o as [| | | |[s|]|]; reflexivity.
Qed.

Lemma run_app (evs1 evs2 : list Event) :
  forall sys,
    run sys (evs1 ++ evs2)
    = (fst (run (fst (run sys evs1)) evs2),
       snd (run sys evs1) ++ snd (run (fst (run sys evs1)) evs2)).
Proof.
  induction evs1 as [|ev rest IH]; intro sys.
  - cbn. now destruct (run sys evs2).
  - cbn [app]. rewrite !run_cons, IH. reflexivity.
Qed.

(** From any state, after any events: the result on record is that of the
    last run that resolved since, or the one recorded before. *)
Lemma lastResult_after (evs : list Event) :
  forall sys,
    lastResult (sched (fst (run sys evs)))
    = match lastResolved (snd (run sys evs)) with
      | Some s => Some s
      | None => lastResult (sched sys)
      end
    /\ ((is_Some (lastRun (sched sys)) <-> is_Some (lastResult (sched sys))) ->
        (is_Some (lastRun (sched (fst (run sys evs))))
         <-> is_Some (lastResult (sched (fst (run sys evs)))))).
Proof.
  induction evs as [|ev rest IH] using rev_ind; intro sys; [cbn; tauto | ].
  rewrite run_app. cbn [fst snd].
  destruct (IH sys) as [IH1 IH2].
  set (mid := fst (run sys rest)) in *.
  set (obs := snd (run sys rest)) in *.
  assert (run mid [ev] = (fst (step mid ev), [snd (step mid ev)])) as ->.
  { cbn [run]. now destruct (step mid ev). }
  cbn [fst snd]. rewrite lastResolved_snoc.
  destruct ev as [[|hours]|outcome date]; cbn.
  - unfold runScraping_enter. destruct (isRunning (sched mid)); cbn; split; assumption.
  - unfold post_scrape, runScraping_enter; cbn.
    destruct (isRunning (sched mid)); cbn; split; assumption.
  - destruct (inflight mid) as [|n]; cbn; [split; assumption | ].
    destruct outcome as [summary|msg]; cbn; [ | split; assumption].
    split; [reflexivity | ]. intros _. split; eauto.
Qed.

(** After every history of triggers and completions, the [lastResult] that
    [getStatus] reports is the summary of the most recent run that resolved
    (none if no run has resolved yet): runs that failed, and triggers that
    were ignored, never change it; and the [lastRun] it reports is set
    exactly when [lastResult] is. The same holds of the two fields. *)
Theorem status_reports_last_resolved_run (history : list Event) (hours : Z) :
  st_lastResult (getStatus hours (sched (fst (run boot history))))
  = lastResolved (snd (run boot history))
  /\ (is_Some (st_lastRun (getStatus hours (sched (fst (run boot history)))))
      <-> is_Some (st_lastResult (getStatus hours (sched (fst (run boot history))))))
  /\ lastResult (sched (fst (run boot history))) = lastResolved (snd (run boot history))
  /\ (is_Some (lastRun (sched (fst (run boot history))))
      <-> is_Some (lastResult (sched (fst (run boot history))))).
Proof.
  destruct (lastResult_after history boot) as [H1 H2].
  assert (lastResult (sched (fst (run boot history)))
          = lastResolved (snd (run boot history))) as E.
  { rewrite H1. now destruct (lastResolved _). }
  assert (is_Some (lastRun (sched (fst (run boot history))))
          <-> is_Some (lastResult (sched (fst (run boot history))))) as I.
  { apply H2. cbn. split; intros [x Hx]; discriminate. }
  unfold getStatus. cbn [st_lastResult st_lastRun]. auto.
Qed.

End SchedulerFacts.

(* ===================================================================== *)
(** * More on the normalizer and the store *)
(* ===================================================================== *)

Section PipelineFacts.
Import JS DVFScraper.

(** Whether a record is kept depends on its price and surface alone: the
    type, the identifier, the place, the clock and the random draw play no
    part, and an unknown [type_local] becomes the type "autre". *)
Theorem acceptance_reads_price_and_surface (d d' : Draw) (m m' : Mutation) :
  valeur_fonciere m = valeur_fonciere m' ->
  surface_reelle_bati m = surface_reelle_bati m' ->
  (mutationToProperty d m = None <-> mutationToProperty d' m' = None)
  /\ (forall e e', mutationToProperty d m = Some e -> mutationToProperty d' m' = Some e' ->
        price e = price e' /\ surface e = surface e' /\ pricePerSqm e = pricePerSqm e')
  /\ (forall e k, mutationToProperty d m = Some e -> type_local m = Some k ->
        TYPE_LOCAL_MAP !! k = None -> is_prototype_member k = false ->
        propertyType e = Text "autre").
Proof.
  intros Hp Hs. unfold mutationToProperty. rewrite <- Hp, <- Hs.
  destruct (negb (truthy (valeur_fonciere m)) || negb (truthy (surface_reelle_bati m)));
    [repeat split; intros; discriminate | ].
  destruct (_ || _ || _ || _); [repeat split; intros; discriminate | ].
  split; [split; intro; discriminate | ]. split.
  - intros e e' H H'. injection H as <-. injection H' as <-. cbn. auto.
  - intros e k H Hk Hmap Hproto. injection H as <-. cbn [propertyType].
    unfold get_or. now rewrite Hk, Hmap, Hproto.
Qed.

Lemma acceptance_reads_price_and_surface_witness :
  mutationToProperty Samples.draw1 Samples.sale_without_price = None
  <-> mutationToProperty Samples.draw2 Samples.sale_without_price = None.
Proof.
  exact (proj1 (acceptance_reads_price_and_surface Samples.draw1 Samples.draw2
                  Samples.sale_without_price Samples.sale_without_price eq_refl eq_refl)).
Defined.

(** [upsert] stores the entity under its key and touches no other key; a new
    key adds one row, with no update date; an existing key keeps its row
    identifier and the table size, and takes the update date. *)
Theorem upsert_round_trip (date : Z) (prop : Property) (t : Table) :
  row_data <$> (upsert date prop t !! externalId prop) = Some prop
  /\ (forall k, k <> externalId prop -> upsert date prop t !! k = t !! k)
  /\ match t !! externalId prop with
     | None =>
         size (upsert date prop t) = S (size t)
         /\ row_updatedAt <$> (upsert date prop t !! externalId prop) = Some None
     | Some r =>
         size (upsert date prop t) = size t
         /\ row_id <$> (upsert date prop t !! externalId prop) = Some (row_id r)
         /\ row_updatedAt <$> (upsert date prop t !! externalId prop) = Some (Some date)
     end.
Proof.
  unfold upsert. destruct (t !! externalId prop) as [r|] eqn:E.
  - rewrite lookup_insert_eq. split; [reflexivity | ]. split.
    + intros k Hk. now rewrite lookup_insert_ne.
    + split; [ | split; reflexivity].
      apply map_size_insert_Some. eauto.
  - rewrite lookup_insert_eq. split; [reflexivity | ]. split.
    + intros k Hk. now rewrite lookup_insert_ne.
    + split; [ | reflexivity]. now apply map_size_insert_None.
Qed.

Lemma saveLoop_frame (o : Oracle) (properties : list Property) :
  forall (n : nat) (st : SaveState) (k : string),
    ~ In k (List.map externalId properties) ->
    table (saveLoop o n properties st) !! k = table st !! k.
Proof.
  induction properties as [|p rest IH]; intros n st k Hk; cbn [saveLoop]; [reflexivity | ].
  cbn [List.map] in Hk. rewrite IH by (intro; apply Hk; now right).
  destruct (upsert_throws o n); cbn; [reflexivity | ].
  apply (proj1 (proj2 (upsert_round_trip (upsert_date o n) p (table st)))).
  intros ->. apply Hk. now left.
Qed.

Lemma saveLoop_size (o : Oracle) (properties : list Property) :
  forall (n : nat) (st : SaveState),
    (size (table (saveLoop o n properties st)) + saved st
     <= size (table st) + saved (saveLoop o n properties st))%nat.
Proof.
  induction properties as [|p rest IH]; intros n st; cbn [saveLoop]; [lia | ].
  etransitivity; [ | apply Nat.add_le_mono_l, Nat.le_refl].
  match goal with |- context [saveLoop o (S n) rest ?st'] => pose proof (IH (S n) st') as H end.
  destruct (upsert_throws o n); cbn in *; [lia | ].
  pose proof (upsert_round_trip (upsert_date o n) p (table st)) as (_ & _ & Hsz).
  destruct (table st !! externalId p); destruct Hsz as [Hsz _]; lia.
Qed.

(** [saveProperties] changes the table only under the keys of its batch:
    every other row is as before, no row disappears, and the table grows by
    at most the number of entities saved. *)
Theorem saveProperties_touches_only_its_keys
    (o : Oracle) (properties : list Property) (t : Table) :
  (forall k, ~ In k (List.map externalId properties) ->
             table (saveProperties o properties t) !! k = t !! k)
  /\ (forall k, is_Some (t !! k) -> is_Some (table (saveProperties o properties t) !! k))
  /\ (size (table (saveProperties o properties t))
      <= size t + saved (saveProperties o properties t))%nat.
Proof.
  unfold saveProperties. repeat split.
  - intros k Hk. now rewrite saveLoop_frame.
  - intros k Hk. now apply saveLoop_keeps_keys.
  - pose proof (saveLoop_size o properties 0
                  {| table := t; saved := 0; errors := 0; attempted := [] |}) as H.
    cbn in H. lia.
Qed.

Lemma find_snoc {A : Type} (f : A -> bool) (l : list A) (x : A) :
  List.find f (l ++ [x])
  = match List.find f l with
    | Some y => Some y
    | None => if f x then Some x else None
    end.
Proof.
  induction l as [|a l IH]; cbn [app List.find]; [reflexivity | ].
  destruct (f a); [reflexivity | exact IH].
Qed.

(** With a store that accepts every write, the last entity of the batch
    under a key is what the table holds for it. *)
Lemma saveLoop_last_wins (o : Oracle) (properties : list Property) :
  (forall i, upsert_throws o i = false) ->
  forall (n : nat) (st : SaveState) (k : string),
    row_data <$> (table (saveLoop o n properties st) !! k)
    = match lastWithKey k properties with
      | Some p => Some p
      | None => row_data <$> (table st !! k)
      end.
Proof.
  intro Hok. induction properties as [|p rest IH]; intros n st k; cbn [saveLoop];
    [reflexivity | ].
  rewrite IH, Hok. cbn [table]. unfold lastWithKey. cbn [List.rev].
  rewrite find_snoc. destruct (List.find _ (List.rev rest)); [reflexivity | ].
  pose proof (upsert_round_trip (upsert_date o n) p (table st)) as (Hin & Hout & _).
  destruct (String.eqb (externalId p) k) eqn:E.
  - apply String.eqb_eq in E. subst k. exact Hin.
  - apply String.eqb_neq in E. rewrite Hout by congruence. reflexivity.
Qed.

Lemma saveLoop_keeps_ids (o : Oracle) (properties : list Property) :
  forall (n : nat) (st : SaveState) (k : string) (r : Row),
    table st !! k = Some r ->
    row_id <$> (table (saveLoop o n properties st) !! k) = Some (row_id r).
Proof.
  induction properties as [|p rest IH]; intros n st k r Hr; cbn [saveLoop].
  - now rewrite Hr.
  - destruct (upsert_throws o n); cbn.
    + eapply IH. cbn. exact Hr.
    + pose proof (upsert_round_trip (upsert_date o n) p (table st)) as (_ & Hout & Hsame).
      destruct (decide (k = externalId p)) as [->|Hne].
      * rewrite Hr in Hsame. destruct Hsame as (_ & Hid & _).
        destruct (upsert (upsert_date o n) p (table st) !! externalId p) as [r'|] eqn:E;
          [ | discriminate].
        injection Hid as Hid. rewrite <- Hid. eapply IH. cbn. exact E.
      * eapply IH. cbn. rewrite Hout by assumption. exact Hr.
Qed.

(** Saving the same batch a second time (the store accepting every write)
    adds no row and changes no row's entity or identifier: the upsert is
    idempotent on the key. *)
Theorem saving_again_adds_nothing
    (o o' : Oracle) (properties : list Property) (t : Table) :
  (forall i, upsert_throws o i = false) ->
  (forall i, upsert_throws o' i = false) ->
  dom (table (saveProperties o' properties (table (saveProperties o properties t))))
  = dom (table (saveProperties o properties t))
  /\ size (table (saveProperties o' properties (table (saveProperties o properties t))))
     = size (table (saveProperties o properties t))
  /\ (forall k,
        row_data <$> (table (saveProperties o' properties
                               (table (saveProperties o properties t))) !! k)
        = row_data <$> (table (saveProperties o properties t) !! k)
        /\ row_id <$> (table (saveProperties o' properties
                                (table (saveProperties o properties t))) !! k)
           = row_id <$> (table (saveProperties o properties t) !! k)).
Proof.
  intros Hok Hok'.
  set (t1 := table (saveProperties o properties t)).
  set (t2 := table (saveProperties o' properties t1)).
  assert (forall k, is_Some (t2 !! k) -> is_Some (t1 !! k)) as Hback.
  { intros k Hk. destruct (in_dec string_dec k (List.map externalId properties)) as [Hin|Hout].
    - apply List.in_map_iff in Hin as (p & <- & Hp).
      apply list_elem_of_In, list_elem_of_lookup in Hp as [i Hi].
      destruct (saveLoop_accounts o properties 0
                  {| table := t; saved := 0; errors := 0; attempted := [] |})
        as (_ & _ & _ & Hall).
      exact (Hall i p Hi (Hok i)).
    - unfold t2 in Hk.
      unfold saveProperties in Hk.
      now rewrite (saveLoop_frame o' properties 0 _ k Hout) in Hk. }
  assert (dom t2 = dom t1) as Hdom.
  { apply set_eq. intro k. rewrite !elem_of_dom. split; [apply Hback | ].
    intro Hk. unfold t2, saveProperties.
    exact (saveLoop_keeps_keys o' properties 0
             {| table := t1; saved := 0; errors := 0; attempted := [] |} k Hk). }
  split; [exact Hdom | ]. split.
  - now rewrite <- !size_dom, Hdom.
  - intro k. split.
    + unfold t2, t1, saveProperties. rewrite (saveLoop_last_wins o') by assumption.
      destruct (lastWithKey k properties) eqn:E; cbn [table];
        rewrite saveLoop_last_wins by assumption; now rewrite E.
    + destruct (t1 !! k) as [r|] eqn:E.
      * unfold t2, saveProperties. cbn. erewrite saveLoop_keeps_ids; [reflexivity | exact E].
      * destruct (t2 !! k) as [r'|] eqn:E'; [ | reflexivity].
        destruct (Hback k ltac:(eauto)) as [x Hx]. congruence.
Qed.

Lemma saving_again_adds_nothing_witness :
  size (table (saveProperties Samples.run2 (convert Samples.run1 0 [Samples.paris_sale])
                 (table (saveProperties Samples.run1
                           (convert Samples.run1 0 [Samples.paris_sale]) ∅))))
  = size (table (saveProperties Samples.run1
                   (convert Samples.run1 0 [Samples.paris_sale]) ∅)).
Proof.
  apply (saving_again_adds_nothing Samples.run1 Samples.run2); intro i; reflexivity.
Defined.



(** When [scrapeAll] resolves, the batch it saves is the conversion of all
    the records fetched, each converted once, in fetch order; [total] is the
    number of records the normalizer kept, at most the number fetched. *)
Theorem scrapeAll_saves_the_converted_records
    (o : Oracle) (finished : Z) (t : Table) (summary : Summary) (t' : Table) :
  scrapeAll o finished t = (Ok summary, t') ->
  t' = table (saveProperties o (convert o 0 (fetched o)) t)
  /\ s_total summary = List.length (convert o 0 (fetched o))
  /\ (s_total summary <= List.length (fetched o))%nat
  /\ s_saved summary = saved (saveProperties o (convert o 0 (fetched o)) t)
  /\ s_scrapedAt summary = finished.
Proof.
  rewrite scrapeAll_spec. destruct (rejection o); [discriminate | ].
  intro H. injection H as <- <-. cbn.
  repeat split. apply convert_length.
Qed.

Lemma scrapeAll_saves_the_converted_records_witness :
  s_total {| s_total := 1; s_saved := 1; s_errors := 0; s_scrapedAt := 1700000001000 |}
  = List.length (convert Samples.paris_down_in_2023 0 (fetched Samples.paris_down_in_2023)).
Proof.
  exact (proj1 (proj2 (scrapeAll_saves_the_converted_records Samples.paris_down_in_2023
                         1700000001000 ∅ _ _ eq_refl))).
Defined.

End PipelineFacts.

(* ===================================================================== *)
(** * The price filter of the geo search *)
(* ===================================================================== *)

Section GeoFilters.
Import JS Search.
Variable M : MathLib.

(** With a [maxPrice] in the body, the [price] condition spread last
    replaces the one of [minPrice]: the response is the one of the same
    body without [minPrice], or with any other. *)
Theorem minPrice_is_dropped_beside_maxPrice (b b' : Body) (rows : list Stored) :
  truthy_opt_num (f_maxPrice b) = true ->
  same_but_minPrice b b' ->
  geo M b rows = geo M b' rows.
Proof.
  intros Hmax (H1 & H2 & H3 & H4 & H5 & H6 & H7).
  destruct b as [lat lon r pt tt mn mx lim], b' as [lat' lon' r' pt' tt' mn' mx' lim'].
  cbn in *. subst lat' lon' r' pt' tt' mx' lim'.
  unfold geo, findMany, take. cbn.
  assert (forall p, in_box M (Build_Body lat lon r pt tt mn mx lim) p
                    = in_box M (Build_Body lat lon r pt tt mn' mx lim) p) as E.
  { intro p. unfold in_box, matches_price, latDelta, lonDelta. cbn. now rewrite Hmax. }
  rewrite (List.filter_ext _ _ E). reflexivity.
Qed.

End GeoFilters.

Lemma minPrice_is_dropped_beside_maxPrice_witness :
  Search.geo Samples.small_angle
    (Search.Build_Body 48.8566 2.3522 5 None None (Some 500000%float) (Some 300000%float) None)
    [Samples.flat 1]
  = Search.geo Samples.small_angle
      (Search.Build_Body 48.8566 2.3522 5 None None None (Some 300000%float) None)
      [Samples.flat 1].
Proof.
  apply minPrice_is_dropped_beside_maxPrice.
  - reflexivity.
  - cbn. repeat split.
Defined.

(* ===================================================================== *)
(** * Trends by period *)
(* ===================================================================== *)

Section TrendsFacts.
Import JS Trends.

Lemma push_truthy_app (l : list number) (v : option number) :
  push_truthy l v = l ++ PropertyScraper.truthy_values [v].
Proof.
  unfold push_truthy, PropertyScraper.truthy_values. cbn.
  destruct v as [x|]; [destruct (truthy_num x) | ]; cbn; now rewrite ?app_nil_r.
Qed.

Lemma truthy_values_app (l l' : list (option number)) :
  PropertyScraper.truthy_values (l ++ l')
  = PropertyScraper.truthy_values l ++ PropertyScraper.truthy_values l'.
Proof. apply List.flat_map_app. Qed.

Lemma extend_nil (grp : Group) : extend grp [] = grp.
Proof. destruct grp. unfold extend. cbn. now rewrite !app_nil_r. Qed.

Lemma extend_cons (grp : Group) (p : Row) (rs : list Row) :
  extend (extend grp [p]) rs = extend grp (p :: rs).
Proof.
  unfold extend. cbn [prices pricesPerSqm List.map].
  rewrite <- !app_assoc, <- !truthy_values_app. reflexivity.
Qed.

Lemma addTo_groupOf (k : string) (p : Row) (g : Grouped) (k' : string) :
  groupOf k' (addTo k p g)
  = if String.eqb k k' then Some (extend (default emptyGroup (groupOf k g)) [p])
    else groupOf k' g.
Proof.
  induction g as [|[k0 grp] rest IH]; cbn [addTo].
  - unfold groupOf. cbn. destruct (String.eqb k k'); [ | reflexivity].
    unfold extend. cbn. now rewrite !push_truthy_app.
  - destruct (String.eqb k0 k) eqn:E.
    + apply String.eqb_eq in E. subst k0. unfold groupOf. cbn.
      rewrite String.eqb_refl. destruct (String.eqb k k'); [ | reflexivity].
      cbn. unfold extend. now rewrite !push_truthy_app.
    + unfold groupOf in *. cbn. rewrite E.
      destruct (String.eqb k0 k') eqn:E'.
      * apply String.eqb_eq in E'. subst k'. cbn.
        rewrite String.eqb_sym, E. reflexivity.
      * exact IH.
Qed.

Lemma addTo_keys (k : string) (p : Row) (g : Grouped) (k' : string) :
  In k' (List.map fst (addTo k p g)) <-> k' = k \/ In k' (List.map fst g).
Proof.
  induction g as [|[k0 grp] rest IH]; cbn [addTo].
  - cbn. intuition congruence.
  - destruct (String.eqb k0 k) eqn:E.
    + apply String.eqb_eq in E. subst k0. cbn. intuition congruence.
    + cbn. rewrite IH. tauto.
Qed.

Lemma addTo_NoDup (k : string) (p : Row) (g : Grouped) :
  List.NoDup (List.map fst g) -> List.NoDup (List.map fst (addTo k p g)).
Proof.
  induction g as [|[k0 grp] rest IH]; cbn [addTo]; intro H.
  - cbn. constructor; [intros [] | constructor].
  - destruct (String.eqb k0 k) eqn:E; [exact H | ].
    cbn in *. apply List.NoDup_cons_iff in H as [Hn Hd].
    apply List.NoDup_cons_iff. split; [ | now apply IH].
    rewrite addTo_keys. intros [-> | Hin]; [ | tauto].
    now rewrite String.eqb_refl in E.
Qed.

Lemma group_fold (period : Period) (rows : list Row) : forall (g : Grouped) (k : string),
  groupOf k (fold_left (fun g p => addTo (periodKey period p) p g) rows g)
  = match groupOf k g, rowsOf period k rows with
    | None, [] => None
    | o, rs => Some (extend (default emptyGroup o) rs)
    end.
Proof.
  induction rows as [|p t IH]; intros g k; cbn [fold_left].
  - cbn. destruct (groupOf k g); [ | reflexivity]. cbn. now rewrite extend_nil.
  - rewrite IH, addTo_groupOf. unfold rowsOf. cbn [List.filter].
    destruct (String.eqb (periodKey period p) k) eqn:E.
    + apply String.eqb_eq in E. subst k.
      fold (rowsOf period (periodKey period p) t).
      destruct (rowsOf period (periodKey period p) t) eqn:R;
        destruct (groupOf (periodKey period p) g); cbn [default from_option id];
        now rewrite extend_cons.
    + reflexivity.
Qed.

Lemma group_NoDup (period : Period) (rows : list Row) :
  List.NoDup (List.map fst (group period rows)).
Proof.
  unfold group.
  assert (forall g, List.NoDup (List.map fst g) ->
                    List.NoDup (List.map fst
                      (fold_left (fun g p => addTo (periodKey period p) p g) rows g))) as H.
  { induction rows as [|p t IH]; intros g Hg; cbn [fold_left]; [exact Hg | ].
    apply IH. now apply addTo_NoDup. }
  apply H. constructor.
Qed.

Lemma groupOf_In (k : string) (grp : Group) (g : Grouped) :
  List.NoDup (List.map fst g) -> In (k, grp) g -> groupOf k g = Some grp.
Proof.
  induction g as [|[k0 grp0] rest IH]; intros Hd Hin; [destruct Hin | ].
  cbn in Hd. apply List.NoDup_cons_iff in Hd as [Hn Hd].
  unfold groupOf in *. cbn. destruct Hin as [E | Hin].
  - inversion E. subst. now rewrite String.eqb_refl.
  - destruct (String.eqb k0 k) eqn:E.
    + apply String.eqb_eq in E. subst k0. exfalso. apply Hn.
      apply List.in_map_iff. now exists (k, grp).
    + now apply IH.
Qed.

Lemma groupOf_keys (k : string) (g : Grouped) :
  groupOf k g <> None -> In k (List.map fst g).
Proof.
  induction g as [|[k0 grp0] rest IH]; unfold groupOf in *; cbn; [congruence | ].
  destruct (String.eqb k0 k) eqn:E.
  - apply String.eqb_eq in E. now left.
  - intro H. right. now apply IH.
Qed.

Lemma trends_periods (period : Period) (rows : list Row) :
  List.map t_period (trends period rows) = List.map fst (group period rows).
Proof.
  unfold trends. rewrite List.map_map. apply List.map_ext. now intros [k grp].
Qed.

(** The trends have one entry per period that has a row, each period once;
    an entry counts the rows of its period that have a price and averages
    over them, and a period none of whose rows has a price is listed with
    a count and an average of 0. *)
Theorem trends_group_by_period (period : Period) (rows : list Row) :
  List.NoDup (List.map t_period (trends period rows))
  /\ (forall p, In p rows -> In (periodKey period p) (List.map t_period (trends period rows)))
  /\ (forall t, In t (trends period rows) ->
        let rs := rowsOf period (t_period t) rows in
        rs <> []
        /\ listingsCount t
           = List.length (PropertyScraper.truthy_values (List.map price rs))
        /\ avgPrice t = roundedMean (PropertyScraper.truthy_values (List.map price rs))
        /\ avgPricePerSqm t
           = roundedMean (PropertyScraper.truthy_values (List.map pricePerSqm rs))
        /\ (listingsCount t = 0%nat -> avgPrice t = 0%float)).
Proof.
  split; [ | split].
  - rewrite trends_periods. apply group_NoDup.
  - intros p Hp. rewrite trends_periods. apply groupOf_keys.
    unfold group. rewrite group_fold. cbn.
    destruct (rowsOf period (periodKey period p) rows) eqn:R; [ | discriminate].
    exfalso. assert (In p (rowsOf period (periodKey period p) rows)) as Hin.
    { unfold rowsOf. apply List.filter_In. split; [exact Hp | apply String.eqb_refl]. }
    rewrite R in Hin. destruct Hin.
  - intros t Ht. unfold trends in Ht. apply List.in_map_iff in Ht as ([k grp] & <- & Hin).
    cbn [t_period listingsCount avgPrice avgPricePerSqm].
    apply (groupOf_In _ _ _ (group_NoDup period rows)) in Hin.
    unfold group in Hin. rewrite group_fold in Hin. cbn in Hin.
    destruct (rowsOf period k rows) eqn:R; [discriminate | ].
    inversion Hin. subst grp. cbn.
    repeat split; try congruence.
    intro H0. apply List.length_zero_iff_nil in H0. rewrite H0. reflexivity.
Qed.

End TrendsFacts.

(* ===================================================================== *)
(** * The API key check and its cache *)
(* ===================================================================== *)

Section AuthFacts.
Import AuthMiddleware.

Lemma lookup_ignores_the_cache (env : Env) (c c' : KeyCache) (k : string) :
  verdict (lookup env c k) = verdict (lookup env c' k)
  /\ writes (lookup env c k) = writes (lookup env c' k).
Proof.
  unfold lookup. destruct (findUnique env k) as [[key|]|]; cbn; auto.
  destruct (isActive key); cbn; auto.
  destruct (subscription (user key)) as [sub|]; cbn; auto.
  destruct (periodEnd sub <? now_quota env); cbn; auto.
  destruct (requestsLimit (plan sub) <=? requestsUsed sub); cbn; auto.
Qed.

Lemma lookup_Authenticated (env : Env) (c : KeyCache) (k : string)
  (u : User) (i : nat) (p : Plan) (c1 : KeyCache) (ws : list Write) :
  lookup env c k = (Authenticated u i p, c1, ws) ->
  c1 = <[ k := {| c_user := u; c_keyId := i; c_plan := p; timestamp := now_store env |} ]> c
  /\ ws <> [].
Proof.
  unfold lookup. destruct (findUnique env k) as [[key|]|]; try discriminate.
  destruct (isActive key); cbn; try discriminate.
  destruct (subscription (user key)) as [sub|].
  - destruct (periodEnd sub <? now_quota env); try discriminate.
    destruct (requestsLimit (plan sub) <=? requestsUsed sub); try discriminate.
    intro H. inversion H. split; [reflexivity | discriminate].
  - intro H. inversion H. split; [reflexivity | discriminate].
Qed.

Lemma lookup_Rejected (env : Env) (c : KeyCache) (k : string)
  (s : Z) (e : string) (c1 : KeyCache) (ws : list Write) :
  lookup env c k = (Rejected s e, c1, ws) -> c1 = c /\ ws = [].
Proof.
  unfold lookup. destruct (findUnique env k) as [[key|]|];
    try (intro H; inversion H; now split).
  destruct (isActive key); cbn; try (intro H; inversion H; now split).
  destruct (subscription (user key)) as [sub|]; try discriminate.
  destruct (periodEnd sub <? now_quota env); try (intro H; inversion H; now split).
  destruct (requestsLimit (plan sub) <=? requestsUsed sub);
    intro H; inversion H; now split.
Qed.

Lemma lookup_other_key (env : Env) (c : KeyCache) (k k' : string) :
  k' <> k -> cacheAfter (lookup env c k') !! k = c !! k.
Proof.
  intro Hne. unfold lookup, cacheAfter.
  destruct (findUnique env k') as [[key|]|]; cbn; try reflexivity.
  destruct (isActive key); cbn; try reflexivity.
  destruct (subscription (user key)) as [sub|]; cbn.
  - destruct (periodEnd sub <? now_quota env); cbn; try reflexivity.
    destruct (requestsLimit (plan sub) <=? requestsUsed sub); cbn; try reflexivity.
    now apply lookup_insert_ne.
  - now apply lookup_insert_ne.
Qed.

(** An event before the expiry leaves the entry of the key where it is. *)
Lemma cacheStep_keeps (k : string) (cached : CacheData) (e : CacheEvent) (c : KeyCache) :
  beforeExpiry k (timestamp cached) e ->
  c !! k = Some cached -> cacheStep c e !! k = Some cached.
Proof.
  destruct e as [env apiKey|now|k'|]; cbn [beforeExpiry cacheStep]; intros He Hc.
  - unfold authMiddleware. destruct apiKey as [k'|]; [ | exact Hc].
    destruct (String.eqb k' ""); [exact Hc | ].
    destruct (well_formed k'); cbn [negb]; [ | exact Hc].
    destruct (string_dec k' k) as [-> | Hne].
    + rewrite Hc. specialize (He eq_refl). apply Z.ltb_lt in He. rewrite He. exact Hc.
    + destruct (c !! k') as [cached'|]; [ | now rewrite lookup_other_key].
      destruct (now_cache env - timestamp cached' <? CACHE_TTL); [exact Hc | ].
      rewrite lookup_other_key by exact Hne. now rewrite lookup_delete_ne.
  - unfold sweep. apply map_lookup_filter_Some. split; [exact Hc | ].
    cbn. apply negb_true_iff. apply Z.ltb_ge. exact He.
  - unfold invalidateKeyCache. now rewrite lookup_delete_ne.
  - destruct He.
Qed.

Lemma cacheRun_keeps (k : string) (cached : CacheData) (events : list CacheEvent) :
  forall c : KeyCache,
    Forall (beforeExpiry k (timestamp cached)) events ->
    c !! k = Some cached -> cacheRun events c !! k = Some cached.
Proof.
  induction events as [|e rest IH]; intros c Hall Hc; [exact Hc | ].
  inversion Hall as [|? ? He Hrest]. subst. cbn [cacheRun fold_left].
  apply IH; [exact Hrest | ]. now apply cacheStep_keeps.
Qed.


(** A request that is rejected writes nothing to the store and adds
    nothing to the cache: the cache is as it was, or it has lost the entry
    of the key of the request, which had expired. *)
Theorem rejected_request_leaves_no_trace (env : Env) (cache : KeyCache)
  (apiKey : option string) (status : Z) (error : string) (cache' : KeyCache)
  (ws : list Write) :
  authMiddleware env cache apiKey = (Rejected status error, cache', ws) ->
  ws = []
  /\ cache' ⊆ cache
  /\ (cache' = cache
      \/ exists k cached,
           apiKey = Some k /\ cache !! k = Some cached
           /\ CACHE_TTL <= now_cache env - timestamp cached
           /\ cache' = delete k cache).
Proof.
  unfold authMiddleware. destruct apiKey as [k|]; [ | intro H; inversion H; auto].
  destruct (String.eqb k ""); [intro H; inversion H; auto | ].
  destruct (well_formed k); cbn [negb]; [ | intro H; inversion H; auto].
  destruct (cache !! k) as [cached|] eqn:C.
  - destruct (now_cache env - timestamp cached <? CACHE_TTL) eqn:F; [discriminate | ].
    intro H. apply lookup_Rejected in H as [-> ->]. split; [reflexivity | ].
    split; [apply delete_subseteq | ]. right. exists k, cached.
    apply Z.ltb_ge in F. auto.
  - intro H. apply lookup_Rejected in H as [-> ->]. auto.
Qed.

(** The periodic cleanup of the cache is not observable: a request that
    comes after it gets the same verdict and makes the same writes as if
    the cleanup had not run. *)
Theorem sweep_is_transparent (env : Env) (now : Z) (cache : KeyCache)
  (apiKey : option string) :
  now <= now_cache env ->
  verdict (authMiddleware env (sweep now cache) apiKey)
  = verdict (authMiddleware env cache apiKey)
  /\ writes (authMiddleware env (sweep now cache) apiKey)
     = writes (authMiddleware env cache apiKey).
Proof.
  intro Hnow. unfold authMiddleware. destruct apiKey as [k|]; [ | now split].
  destruct (String.eqb k ""); [now split | ].
  destruct (well_formed k); cbn [negb]; [ | now split].
  destruct (sweep now cache !! k) as [cached|] eqn:E.
  - apply map_lookup_filter_Some in E as [E _]. rewrite E.
    destruct (now_cache env - timestamp cached <? CACHE_TTL); [now split | ].
    apply lookup_ignores_the_cache.
  - apply map_lookup_filter_None in E as [E | E].
    + rewrite E. apply lookup_ignores_the_cache.
    + destruct (cache !! k) as [cached|] eqn:C; [ | apply lookup_ignores_the_cache].
      specialize (E cached eq_refl). cbn in E.
      assert ((now_cache env - timestamp cached <? CACHE_TTL) = false) as ->.
      { apply Z.ltb_ge. destruct (CACHE_TTL <? now - timestamp cached) eqn:L.
        - apply Z.ltb_lt in L. lia.
        - now contradiction E. }
      apply lookup_ignores_the_cache.
Qed.

(** For the key concerned, [invalidateKeyCache] is as good as
    [clearKeyCache]: the next request with it is decided by the store. *)
Theorem invalidation_is_as_good_as_clearing (env : Env) (cache : KeyCache) (k : string) :
  verdict (authMiddleware env (invalidateKeyCache k cache) (Some k))
  = verdict (authMiddleware env (clearKeyCache cache) (Some k))
  /\ writes (authMiddleware env (invalidateKeyCache k cache) (Some k))
     = writes (authMiddleware env (clearKeyCache cache) (Some k)).
Proof.
  unfold authMiddleware, invalidateKeyCache, clearKeyCache.
  destruct (String.eqb k ""); [now split | ].
  destruct (well_formed k); cbn [negb]; [ | now split].
  rewrite lookup_delete_eq, lookup_empty. apply lookup_ignores_the_cache.
Qed.

End AuthFacts.


Lemma rejected_request_leaves_no_trace_witness :
  writes (AuthMiddleware.authMiddleware KeySamples.last_request
            (cacheAfter (AuthMiddleware.authMiddleware KeySamples.first_request ∅
                           (Some KeySamples.key)))
            (Some KeySamples.key)) = []
  /\ cacheAfter (AuthMiddleware.authMiddleware KeySamples.last_request
                   (cacheAfter (AuthMiddleware.authMiddleware KeySamples.first_request ∅
                                  (Some KeySamples.key)))
                   (Some KeySamples.key))
     ⊆ cacheAfter (AuthMiddleware.authMiddleware KeySamples.first_request ∅
                     (Some KeySamples.key)).
Proof.
  assert (AuthMiddleware.authMiddleware KeySamples.last_request
            (cacheAfter (AuthMiddleware.authMiddleware KeySamples.first_request ∅
                           (Some KeySamples.key)))
            (Some KeySamples.key)
          = (AuthMiddleware.Rejected 500 "AUTH_ERROR",
             cacheAfter (AuthMiddleware.authMiddleware KeySamples.last_request
                           (cacheAfter (AuthMiddleware.authMiddleware
                                          KeySamples.first_request ∅
                                          (Some KeySamples.key)))
                           (Some KeySamples.key)),
             writes (AuthMiddleware.authMiddleware KeySamples.last_request
                       (cacheAfter (AuthMiddleware.authMiddleware
                                      KeySamples.first_request ∅
                                      (Some KeySamples.key)))
                       (Some KeySamples.key)))) as E by reflexivity.
  destruct (rejected_request_leaves_no_trace _ _ _ _ _ _ _ E) as (H1 & H2 & _).
  exact (conj H1 H2).
Defined.

Lemma sweep_is_transparent_witness :
  verdict (AuthMiddleware.authMiddleware KeySamples.later_request
             (AuthMiddleware.sweep 150000
                (cacheAfter (AuthMiddleware.authMiddleware KeySamples.first_request ∅
                               (Some KeySamples.key))))
             (Some KeySamples.key))
  = verdict (AuthMiddleware.authMiddleware KeySamples.later_request
               (cacheAfter (AuthMiddleware.authMiddleware KeySamples.first_request ∅
                              (Some KeySamples.key)))
               (Some KeySamples.key))
  /\ writes (AuthMiddleware.authMiddleware KeySamples.later_request
               (AuthMiddleware.sweep 150000
                  (cacheAfter (AuthMiddleware.authMiddleware KeySamples.first_request ∅
                                 (Some KeySamples.key))))
               (Some KeySamples.key))
     = writes (AuthMiddleware.authMiddleware KeySamples.later_request
                 (cacheAfter (AuthMiddleware.authMiddleware KeySamples.first_request ∅
                                (Some KeySamples.key)))
                 (Some KeySamples.key)).
Proof.
  apply (sweep_is_transparent KeySamples.later_request 150000). cbn. lia.
Defined.

(* ===================================================================== *)
(** * The parsers and the market statistics *)
(* ===================================================================== *)

Section MarketStatsFacts.
Import JS PropertyScraper.

Lemma filter_idem {A : Type} (f : A -> bool) (l : list A) :
  List.filter f (List.filter f l) = List.filter f l.
Proof.
  induction l as [|a t IH]; [reflexivity | ]. cbn.
  destruct (f a) eqn:E; [ | exact IH]. cbn. now rewrite E, IH.
Qed.

(** [parsePrice] reads the digits of the text and nothing else: a decimal
    separator is dropped like any other character, so that a price with
    cents comes out a hundred times too large. *)
Theorem parsePrice_reads_only_the_digits (s : string) :
  parsePrice (Some s)
  = parsePrice (Some (string_of_list_ascii (List.filter is_digit (list_ascii_of_string s))))
  /\ parsePrice (Some "1 250,50 EUR"%string) = Some 125050%float.
Proof.
  split; [ | reflexivity].
  unfold parsePrice. destruct (String.eqb s "") eqn:E.
  - apply String.eqb_eq in E. subst s. reflexivity.
  - destruct (List.filter is_digit (list_ascii_of_string s)) as [|c t] eqn:F; [reflexivity | ].
    cbn [string_of_list_ascii String.eqb].
    change (String c (string_of_list_ascii t)) with (string_of_list_ascii (c :: t)).
    rewrite list_ascii_of_string_of_list_ascii, <- F, filter_idem, F. reflexivity.
Qed.

Lemma leb_refl (x : number) : is_nan x = false -> (x <=? x)%float = true.
Proof.
  intro H. apply leb_key. repeat split; try exact H.
  unfold le3. now rewrite lex3_refl.
Qed.

Lemma ltb_infinity (x : number) : (infinity <? x)%float = false.
Proof.
  rewrite FloatAxioms.ltb_spec. unfold SFltb.
  change (Prim2SF infinity) with (S754_infinity false).
  destruct (Prim2SF x) as [[]|[]| |[] m e]; reflexivity.
Qed.

Lemma ltb_neg_infinity (x : number) : (x <? neg_infinity)%float = false.
Proof.
  rewrite FloatAxioms.ltb_spec. unfold SFltb.
  change (Prim2SF neg_infinity) with (S754_infinity true).
  destruct (Prim2SF x) as [[]|[]| |[] m e]; reflexivity.
Qed.

Lemma truthy_not_nan (x : number) : truthy_num x = true -> is_nan x = false.
Proof.
  unfold truthy_num. intro H. apply andb_true_iff in H as [_ H].
  now apply negb_true_iff in H.
Qed.

Lemma truthy_values_truthy (column : list (option number)) :
  Forall (fun x => truthy_num x = true) (truthy_values column).
Proof.
  induction column as [|[x|] t IH]; cbn; [constructor | | exact IH].
  destruct (truthy_num x) eqn:E; cbn; [now constructor | exact IH].
Qed.

Lemma Math_min2_spec (a b : number) :
  is_nan a = false -> is_nan b = false ->
  (Math_min2 a b = a \/ Math_min2 a b = b)
  /\ (Math_min2 a b <=? a)%float = true /\ (Math_min2 a b <=? b)%float = true.
Proof.
  intros Na Nb. unfold Math_min2. rewrite Na, Nb. cbn [orb].
  destruct (a <? b)%float eqn:Lab.
  - repeat split; [now left | now apply leb_refl | now apply ltb_leb].
  - destruct (b <? a)%float eqn:Lba.
    + repeat split; [now right | now apply ltb_leb | now apply leb_refl].
    + apply (ltb_false_leb _ _ Na Nb) in Lab. apply (ltb_false_leb _ _ Nb Na) in Lba.
      destruct ((a =? 0)%float && (1 / a <? 0)%float).
      * repeat split; [now left | now apply leb_refl | exact Lba].
      * repeat split; [now right | exact Lab | now apply leb_refl].
Qed.

Lemma Math_max2_spec (a b : number) :
  is_nan a = false -> is_nan b = false ->
  (Math_max2 a b = a \/ Math_max2 a b = b)
  /\ (a <=? Math_max2 a b)%float = true /\ (b <=? Math_max2 a b)%float = true.
Proof.
  intros Na Nb. unfold Math_max2. rewrite Na, Nb. cbn [orb].
  destruct (b <? a)%float eqn:Lba.
  - repeat split; [now left | now apply leb_refl | now apply ltb_leb].
  - destruct (a <? b)%float eqn:Lab.
    + repeat split; [now right | now apply ltb_leb | now apply leb_refl].
    + apply (ltb_false_leb _ _ Na Nb) in Lab. apply (ltb_false_leb _ _ Nb Na) in Lba.
      destruct ((a =? 0)%float && (0 <? 1 / a)%float).
      * repeat split; [now left | now apply leb_refl | exact Lab].
      * repeat split; [now right | exact Lba | now apply leb_refl].
Qed.

Lemma fold_min (l : list number) : forall acc,
  is_nan acc = false -> Forall (fun x => is_nan x = false) l ->
  let m := fold_left Math_min2 l acc in
  In m (acc :: l) /\ (m <=? acc)%float = true
  /\ Forall (fun x => (m <=? x)%float = true) l.
Proof.
  induction l as [|x t IH]; intros acc Na Nl; cbn [fold_left].
  - repeat split; [now left | now apply leb_refl | constructor].
  - inversion Nl as [|? ? Nx Nt]. subst.
    destruct (Math_min2_spec acc x Na Nx) as (Hc & Ha & Hx).
    assert (is_nan (Math_min2 acc x) = false) as Nm by (destruct Hc as [-> | ->]; assumption).
    destruct (IH (Math_min2 acc x) Nm Nt) as (Hin & Hle & Hall).
    repeat split.
    + destruct Hin as [E | Hin]; [ | right; now right].
      rewrite <- E. destruct Hc as [-> | ->]; [now left | right; now left].
    + eapply leb_trans; eassumption.
    + constructor; [eapply leb_trans; eassumption | exact Hall].
Qed.

Lemma fold_max (l : list number) : forall acc,
  is_nan acc = false -> Forall (fun x => is_nan x = false) l ->
  let m := fold_left Math_max2 l acc in
  In m (acc :: l) /\ (acc <=? m)%float = true
  /\ Forall (fun x => (x <=? m)%float = true) l.
Proof.
  induction l as [|x t IH]; intros acc Na Nl; cbn [fold_left].
  - repeat split; [now left | now apply leb_refl | constructor].
  - inversion Nl as [|? ? Nx Nt]. subst.
    destruct (Math_max2_spec acc x Na Nx) as (Hc & Ha & Hx).
    assert (is_nan (Math_max2 acc x) = false) as Nm by (destruct Hc as [-> | ->]; assumption).
    destruct (IH (Math_max2 acc x) Nm Nt) as (Hin & Hle & Hall).
    repeat split.
    + destruct Hin as [E | Hin]; [ | right; now right].
      rewrite <- E. destruct Hc as [-> | ->]; [now left | right; now left].
    + eapply leb_trans; eassumption.
    + constructor; [eapply leb_trans; eassumption | exact Hall].
Qed.

Lemma Math_min_spec (arr : list number) :
  arr <> [] -> Forall (fun x => is_nan x = false) arr ->
  In (Math_min arr) arr /\ Forall (fun x => (Math_min arr <=? x)%float = true) arr.
Proof.
  destruct arr as [|x t]; [congruence | ]. intros _ Nl.
  inversion Nl as [|? ? Nx Nt]. subst.
  unfold Math_min. cbn [fold_left].
  assert (Math_min2 infinity x = x) as ->.
  { unfold Math_min2. rewrite Nx, ltb_infinity.
    change (is_nan infinity) with false. cbn [orb].
    change (infinity =? 0)%float with false. cbn [andb].
    now destruct (x <? infinity)%float. }
  destruct (fold_min t x Nx Nt) as (Hin & Hle & Hall).
  split; [exact Hin | now constructor].
Qed.

Lemma Math_max_spec (arr : list number) :
  arr <> [] -> Forall (fun x => is_nan x = false) arr ->
  In (Math_max arr) arr /\ Forall (fun x => (x <=? Math_max arr)%float = true) arr.
Proof.
  destruct arr as [|x t]; [congruence | ]. intros _ Nl.
  inversion Nl as [|? ? Nx Nt]. subst.
  unfold Math_max. cbn [fold_left].
  assert (Math_max2 neg_infinity x = x) as ->.
  { unfold Math_max2. rewrite Nx, ltb_neg_infinity.
    change (is_nan neg_infinity) with false. cbn [orb].
    change (neg_infinity =? 0)%float with false. cbn [andb].
    now destruct (neg_infinity <? x)%float. }
  destruct (fold_max t x Nx Nt) as (Hin & Hle & Hall).
  split; [exact Hin | now constructor].
Qed.

Lemma statOf_range (column : list (option number)) :
  range_of (statOf (truthy_values column)) (truthy_values column).
Proof.
  unfold range_of. split.
  - intros ->. reflexivity.
  - intro Hne.
    assert (Forall (fun x => is_nan x = false) (truthy_values column)) as Nl.
    { eapply List.Forall_impl; [ | apply truthy_values_truthy]. apply truthy_not_nan. }
    destruct (Math_min_spec _ Hne Nl) as (Hmin & Hlo).
    destruct (Math_max_spec _ Hne Nl) as (Hmax & Hhi).
    cbn [statOf st_min st_max]. repeat split; assumption.
Qed.

(** Over a selection that is not empty, [getMarketStats] counts all the
    rows; for each of price, price per m2 and surface, [min] and [max] are
    values of the selection that bound all the others (null and 0 left
    aside), and when no row has a value they are [Infinity] and
    [-Infinity], with an average and a median of 0. *)
Theorem market_stats_ranges (properties : list Selected) (s : MarketStats) :
  getMarketStats properties = Some s ->
  ms_count s = List.length properties
  /\ range_of (ms_price s) (truthy_values (List.map price properties))
  /\ range_of (ms_pricePerSqm s) (truthy_values (List.map pricePerSqm properties))
  /\ range_of (ms_surface s) (truthy_values (List.map surface properties)).
Proof.
  unfold getMarketStats. destruct properties as [|p t]; [discriminate | ].
  intros [= <-]. cbn [ms_count ms_price ms_pricePerSqm ms_surface].
  split; [reflexivity | ]. split; [apply statOf_range | ]. split; apply statOf_range.
Qed.

End MarketStatsFacts.

Lemma market_stats_ranges_witness :
  exists s,
    PropertyScraper.getMarketStats two_selected = Some s
    /\ PropertyScraper.ms_count s = 2%nat
    /\ range_of (PropertyScraper.ms_price s) [300000%float]
    /\ range_of (PropertyScraper.ms_pricePerSqm s) [5000%float]
    /\ range_of (PropertyScraper.ms_surface s) [60%float; 45%float].
Proof.
  eexists. split; [reflexivity | ].
  apply (market_stats_ranges two_selected). reflexivity.
Defined.

Section MedianFacts.
Import JS PropertyScraper.

Lemma filter_length_perm {A : Type} (f : A -> bool) (l l' : list A) :
  Permutation l l' -> List.length (List.filter f l) = List.length (List.filter f l').
Proof.
  induction 1 as [|x l l' _ IH|x y l|l l' l'' _ IH1 _ IH2]; cbn.
  - reflexivity.
  - destruct (f x); cbn; now rewrite IH.
  - destruct (f x), (f y); reflexivity.
  - now rewrite IH1.
Qed.

Lemma filter_all {A : Type} (f : A -> bool) (l : list A) :
  Forall (fun x => f x = true) l -> List.filter f l = l.
Proof.
  induction 1 as [|x t Hx _ IH]; cbn; [reflexivity | ]. now rewrite Hx, IH.
Qed.

(** The median of an odd number of values is one of them, and more than
    half of the values are at most the median, more than half at least the
    median. *)
Theorem median_of_an_odd_sample (arr : list number) :
  Forall (fun x => is_nan x = false) arr ->
  Nat.odd (List.length arr) = true ->
  In (median arr) arr
  /\ (List.length arr
      < 2 * List.length (List.filter (fun x => (x <=? median arr)%float) arr))%nat
  /\ (List.length arr
      < 2 * List.length (List.filter (fun x => (median arr <=? x)%float) arr))%nat.
Proof.
  intros Nl Hodd. unfold median.
  destruct arr as [|a0 t0] eqn:Earr; [discriminate | ]. rewrite <- Earr in *.
  set (sorted := Array_sort (fun a b => (a - b)%float) arr).
  assert (Permutation sorted arr) as Hperm by apply Array_sort_perm.
  assert (List.length sorted = List.length arr) as Hlen by now apply Permutation_length.
  rewrite Hlen, Hodd.
  set (mid := (List.length arr / 2)%nat).
  assert (List.length arr = 2 * mid + 1)%nat as Hmid.
  { unfold mid. pose proof (Nat.div_mod_eq (List.length arr) 2) as D.
    rewrite <- Nat.bit0_mod in D. rewrite Nat.bit0_odd, Hodd in D. cbn [Nat.b2n] in D. lia. }
  assert (mid < List.length sorted)%nat as Hlt by lia.
  destruct (List.nth_split sorted nan Hlt) as (l1 & l2 & Hsplit & Hl1).
  set (m := List.nth mid sorted nan) in *.
  assert (ascending sorted) as Hasc.
  { pose proof (Array_sort_ascending (fun x : number => x) arr Nl) as H.
    now rewrite List.map_id in H. }
  rewrite Hsplit in Hasc. apply ascending_middle in Hasc as [Hlo Hhi].
  assert (In m sorted) as Hin.
  { rewrite Hsplit. apply List.in_or_app. right. now left. }
  assert (is_nan m = false) as Nm.
  { apply (proj1 (List.Forall_forall _ _) Nl). eapply Permutation_in; eassumption. }
  assert (List.length l2 = mid) as Hl2.
  { apply (f_equal (@List.length number)) in Hsplit.
    rewrite List.length_app in Hsplit. cbn [List.length] in Hsplit. lia. }
  split; [eapply Permutation_in; eassumption | ].
  rewrite <- !(filter_length_perm _ _ _ Hperm), Hsplit, !List.filter_app, !List.length_app.
  cbn [List.filter]. rewrite (leb_refl m Nm). cbn [List.length].
  rewrite (filter_all (fun x => (x <=? m)%float) _ Hlo),
    (filter_all (fun x => (m <=? x)%float) _ Hhi). lia.
Qed.

Lemma median_of_an_odd_sample_witness :
  In (median [300000; 150000; 450000]%float) [300000; 150000; 450000]%float
  /\ (3 < 2 * List.length
            (List.filter (fun x => (x <=? median [300000; 150000; 450000])%float)
               [300000; 150000; 450000]%float))%nat
  /\ (3 < 2 * List.length
            (List.filter (fun x => (median [300000; 150000; 450000] <=? x)%float)
               [300000; 150000; 450000]%float))%nat.
Proof.
  apply (median_of_an_odd_sample [300000; 150000; 450000]%float).
  - repeat constructor.
  - reflexivity.
Defined.

End MedianFacts.
